(** * Checkpointed pipeline orchestration of [run_naba_inference.py]

    A shallow embedding of [src/parcellate/run_naba_inference.py]: the
    orchestrator is a program in a small state-and-exception monad over a
    world made of a filesystem, the list of external commands handed to
    [subprocess.run], and the two output streams.  The external tools are a
    section variable: a function from an argument vector and a filesystem to
    a new filesystem and an exit status. *)

From stdpp Require Import gmap strings list fin_maps pretty.
From Stdlib Require Import ZArith Ascii String.

Local Open Scope Z_scope.
Local Open Scope string_scope.
Local Open Scope list_scope.

(** ** Paths ([pathlib.Path], resolved and absolute) *)

(** A resolved absolute path is the list of its components below the root;
    [[]] is the root directory itself. *)
Abbreviation path := (list string) (only parsing).

Module Path.

(** [str(p)] *)
Definition str (p : path) : string :=
  match p with
  | [] => "/"
  | _ => String.concat "" (map (fun c => "/" +:+ c) p)
  end.

(** [p / name] for a single component [name] *)
Definition child (p : path) (name : string) : path := p ++ [name].

(** [p.name]: the final component, empty for the root *)
Definition name (p : path) : string := List.last p "".

(** [p.parent]: the root is its own parent *)
Definition parent (p : path) : path := removelast p.

(** [s.rfind(c)], [None] standing for -1 *)
Fixpoint rfind (c : ascii) (s : string) : option nat :=
  match s with
  | EmptyString => None
  | String a s' =>
      match rfind c s' with
      | Some i => Some (S i)
      | None => if Ascii.eqb a c then Some 0%nat else None
      end
  end.

(** The computation of [PurePath.stem] on a final component:
    [i = name.rfind('.')]; [name[:i]] when [0 < i < len(name) - 1],
    otherwise [name]. *)
Definition stem_of_name (nm : string) : string :=
  match rfind "."%char nm with
  | Some i =>
      if (Nat.ltb 0 i && Z.ltb (Z.of_nat i) (Z.of_nat (String.length nm) - 1)%Z)%bool
      then String.substring 0 i nm
      else nm
  | None => nm
  end.

(** [p.stem] *)
Definition stem (p : path) : string := stem_of_name (name p).

(** Every component of a resolved path is a non-empty string. *)
Definition wf (p : path) : Prop := Forall (fun c => c ≠ "") p.

(** Lexicographic comparison of component lists, the order [sorted]
    uses on paths. *)
Fixpoint leb (p q : path) : bool :=
  match p, q with
  | [], _ => true
  | _ :: _, [] => false
  | a :: p', b :: q' =>
      match String.compare a b with
      | Lt => true
      | Gt => false
      | Eq => leb p' q'
      end
  end.

Fixpoint insert_sorted (p : path) (l : list path) : list path :=
  match l with
  | [] => [p]
  | q :: l' => if leb p q then p :: l else q :: insert_sorted p l'
  end.

(** [sorted(l)] *)
Definition sorted (l : list path) : list path :=
  foldr insert_sorted [] l.

(** [name.endswith(suffix)] and [name.startswith(prefix)], the two
    shapes of [fnmatch] pattern the cleanup globs use *)
Definition starts_with (pre s : string) : bool := String.prefix pre s.

Definition ends_with (suf s : string) : bool :=
  let n := String.length s in
  let k := String.length suf in
  (Nat.leb k n && String.eqb (String.substring (n - k)%nat k s) suf)%bool.

End Path.

Infix "//" := Path.child (at level 40, left associativity).

(** ** The filesystem *)

Inductive node := File | Dir.

Global Instance node_eq_dec : EqDecision node.
Proof. solve_decision. Defined.

(** The filesystem maps every existing path to its kind; the root always
    exists and is a directory. *)
Abbreviation FS := (gmap (list string) node) (only parsing).

Module Fs.

Definition kind (fs : FS) (p : path) : option node :=
  match p with
  | [] => Some Dir
  | _ => fs !! p
  end.

(** [p.is_file()], [p.is_dir()], [p.exists()] *)
Definition is_file (fs : FS) (p : path) : bool :=
  bool_decide (kind fs p = Some File).
Definition is_dir (fs : FS) (p : path) : bool :=
  bool_decide (kind fs p = Some Dir).
Definition exists_ (fs : FS) (p : path) : bool :=
  bool_decide (is_Some (kind fs p)).

(** All non-empty prefixes of [p], shortest first, ending with [p]. *)
Fixpoint prefixes (p : path) : list path :=
  match p with
  | [] => []
  | c :: p' => [c] :: map (cons c) (prefixes p')
  end.

(** The filesystem after removing [p] and everything below it. *)
Definition remove_tree (p : path) (fs : FS) : FS :=
  filter (fun kv => ¬ p `prefix_of` kv.1) fs.

(** The entries directly inside directory [p]. *)
Definition children (fs : FS) (p : path) : list path :=
  filter (fun q => bool_decide (q ≠ [] ∧ Path.parent q = p)) (map_to_list fs).*1.

(** Every existing path has an existing directory as its parent, and
    every path component is non-empty: the map describes a tree. *)
Definition wf (fs : FS) : Prop :=
  map_Forall (fun p _ => Path.wf p ∧ kind fs (Path.parent p) = Some Dir) fs.

(** Python exceptions the orchestrator can meet. *)
Inductive PyExc :=
| FileNotFoundError (msg : string)
| FileExistsError (p : list string)
| NotADirectoryError (p : list string)
| IsADirectoryError (p : list string)
| TypeError
| CalledProcessError (returncode : Z) (cmd : list string).

(** [p.mkdir(parents=True, exist_ok=True)]: an existing directory is
    left alone, a regular file at [p] or above it is an error, and
    otherwise [p] and its missing ancestors become directories. *)
Definition mkdir_parents (p : path) (fs : FS) : PyExc + FS :=
  if is_file fs p then inl (FileExistsError p)
  else if existsb (is_file fs) (prefixes p) then inl (NotADirectoryError p)
  else inr (foldr (fun q acc => <[q := Dir]> acc) fs
              (filter (fun q => kind fs q = None) (prefixes p))).

(** [shutil.rmtree(p)] *)
Definition rmtree (p : path) (fs : FS) : PyExc + FS :=
  if is_dir fs p then inr (remove_tree p fs)
  else if is_file fs p then inl (NotADirectoryError p)
  else inl (FileNotFoundError (Path.str p)).

(** [p.unlink()] *)
Definition unlink (p : path) (fs : FS) : PyExc + FS :=
  if is_file fs p then inr (delete p fs)
  else if is_dir fs p then inl (IsADirectoryError p)
  else inl (FileNotFoundError (Path.str p)).

(** [p.iterdir()], as a list *)
Definition iterdir (p : path) (fs : FS) : PyExc + list (list string) :=
  if is_dir fs p then inr (children fs p)
  else if is_file fs p then inl (NotADirectoryError p)
  else inl (FileNotFoundError (Path.str p)).

(** [base.glob(pattern)] for a pattern given as one name test per
    component: every component but the last is only descended into
    when it is a directory.  The order of the result is the order in
    which the directory entries are listed. *)
Fixpoint glob (fs : FS) (pats : list (string → bool)) (base : path)
  : list (list string) :=
  match pats with
  | [] => [base]
  | pat :: rest =>
      flat_map (glob fs rest)
        (filter (fun q => pat (Path.name q)
                          && (bool_decide (rest = []) || is_dir fs q))
           (if is_dir fs base then children fs base else []))
  end.

(** [p.rglob("*")]: everything strictly below [p] *)
Definition rglob_all (fs : FS) (p : path) : list (list string) :=
  filter (fun q => bool_decide (p `prefix_of` q ∧ q ≠ p)) (map_to_list fs).*1.

End Fs.

Export Fs(PyExc(..)).

(** ** The orchestrator's monad *)

(** What a run can observe and change: the filesystem, the argument
    vectors passed to [subprocess.run] (oldest first), and the lines
    printed on standard output and standard error. *)
Record World := mkWorld {
  w_fs : gmap (list string) node;
  w_cmds : list (list string);
  w_stdout : list string;
  w_stderr : list string
}.

(** A statement either falls through with a value, executes a [return]
    of [main] with an exit code, or raises. *)
Inductive Res (A : Type) :=
| Val (a : A)
| Return (code : Z)
| Raise (e : PyExc).
Arguments Val {A} a.
Arguments Return {A} code.
Arguments Raise {A} e.

Definition M (A : Type) : Type := World → Res A * World.

Definition ret {A} (a : A) : M A := fun w => (Val a, w).

Definition bind {A B} (m : M A) (k : A → M B) : M B := fun w =>
  match m w with
  | (Val a, w') => k a w'
  | (Return c, w') => (Return c, w')
  | (Raise e, w') => (Raise e, w')
  end.

Declare Scope py_scope.
Delimit Scope py_scope with py.
Bind Scope py_scope with M.
Notation "x ← m ; k" := (bind m (fun x => k))
  (at level 20, m at level 100, k at level 200, only parsing) : py_scope.
Notation "' x ← m ; k" := (bind m (fun x => k))
  (at level 20, x pattern, m at level 100, k at level 200, only parsing) : py_scope.
Notation "m ;; k" := (bind m (fun _ => k))
  (at level 100, k at level 200, right associativity, only parsing) : py_scope.
Local Open Scope py_scope.

Definition py_return {A} (code : Z) : M A := fun w => (Return code, w).
Definition py_raise {A} (e : PyExc) : M A := fun w => (Raise e, w).

(** [print(line)] and [print(line, file=sys.stderr)] *)
Definition print_out (line : string) : M unit := fun w =>
  (Val (), mkWorld (w_fs w) (w_cmds w) (w_stdout w ++ [line]) (w_stderr w)).
Definition print_err (line : string) : M unit := fun w =>
  (Val (), mkWorld (w_fs w) (w_cmds w) (w_stdout w) (w_stderr w ++ [line])).

(** Reading the filesystem *)
Definition is_file (p : path) : M bool := fun w => (Val (Fs.is_file (w_fs w) p), w).
Definition is_dir (p : path) : M bool := fun w => (Val (Fs.is_dir (w_fs w) p), w).
Definition path_exists (p : path) : M bool := fun w => (Val (Fs.exists_ (w_fs w) p), w).

Definition fs_read {A} (f : gmap (list string) node → PyExc + A) : M A := fun w =>
  match f (w_fs w) with
  | inl e => (Raise e, w)
  | inr a => (Val a, w)
  end.

(** Changing the filesystem *)
Definition fs_update (f : gmap (list string) node → PyExc + gmap (list string) node)
  : M unit := fun w =>
  match f (w_fs w) with
  | inl e => (Raise e, w)
  | inr fs' => (Val (), mkWorld fs' (w_cmds w) (w_stdout w) (w_stderr w))
  end.

Definition when (b : bool) (body : M unit) : M unit :=
  if b then body else ret ().

(** [for x in l: body(x)]; [continue] is falling through the body. *)
Fixpoint for_each {A} (l : list A) (body : A → M unit) : M unit :=
  match l with
  | [] => ret ()
  | x :: l' => body x ;; for_each l' body
  end.

(** [print(msg, file=sys.stderr); return 1] *)
Definition fail_with {A} (msg : string) : M A :=
  print_err msg ;; py_return 1.

(** ** Command-line arguments and environment *)

Inductive RegMode := rig | nonrig.

Global Instance RegMode_eq_dec : EqDecision RegMode.
Proof. solve_decision. Defined.

(** The parsed arguments.  Path-valued options are given resolved; an
    option that is absent or the empty string is [None] (both are falsy in
    the tests [if args.t] and [not args.m]). *)
Record Args := mkArgs {
  a_i : list string;
  a_o : list string;
  a_a : list string;
  a_s : list string;
  a_t : option (list string);
  a_r : RegMode;
  a_n : Z;
  a_x : Z;
  a_d : Z;
  a_m : option (list string);
  a_c : Z
}.

(** [Path(__file__).parent] and [sys.executable] *)
Record Env := mkEnv {
  script_dir : list string;
  sys_executable : string
}.

(** The directory layout of one case (lines 203-215). *)
Record Layout := mkLayout {
  subject_id : string;
  output_case : list string;
  transformed_tracts_dir : list string;
  registration_dir : list string;
  clustering_root : list string;
  initial_clusters_dir : list string;
  outlier_clusters_dir : list string;
  transformed_clusters_dir : list string;
  separated_clusters_dir : list string;
  inverse_transformed_dir : list string;
  anatomical_tracts_dir : list string
}.

(** The subject identifier is the stem of the resolved input file, used
    as the name of a child of the output root.  A stem is [.] or [..] only
    for an input named like [..vtk] or [...vtk]; [pathlib] would drop the
    one and the operating system resolve the other to the parent directory,
    whereas here every component is the name of an entry.  Statements about
    where the run writes therefore ask for a [plain_name]. *)
Definition layout (input_file output_root : path) : Layout :=
  let subject_id := Path.stem input_file in
  let output_case := output_root // subject_id in
  let clustering_root := output_case // "FiberClustering" in
  {| subject_id := subject_id;
     output_case := output_case;
     transformed_tracts_dir := output_case // "TransformedTracts";
     registration_dir := output_case // "TractRegistration";
     clustering_root := clustering_root;
     initial_clusters_dir := clustering_root // "InitialClusters";
     outlier_clusters_dir := clustering_root // "OutlierRemovedClusters";
     transformed_clusters_dir := clustering_root // "TransformedClusters" // subject_id;
     separated_clusters_dir := clustering_root // "SeparatedClusters";
     inverse_transformed_dir := output_case // "InvTransformedTracts";
     anatomical_tracts_dir := output_case // "AnatomicalTracts" |}.

(** [str(x)] of an optional path inside an f-string *)
Definition str_opt (o : option (list string)) : string :=
  match o with
  | Some p => Path.str p
  | None => "None"
  end.

(** An external tool suite: what running an argument vector does to the
    filesystem, and the exit status it ends with. *)
Abbreviation Tool :=
  (list string → gmap (list string) node → gmap (list string) node * Z) (only parsing).

Section Orchestrator.

(** The external programs: what running an argument vector does to the
    filesystem, and the exit status it ends with. *)
Variable tool : list string → gmap (list string) node → gmap (list string) node * Z.

Variable env : Env.

(** [subprocess.run(cmd, check=True)] *)
Definition subprocess_run (cmd : list string) : M unit := fun w =>
  let done := tool cmd (w_fs w) in
  let w' := mkWorld done.1 (w_cmds w ++ [cmd]) (w_stdout w) (w_stderr w) in
  if Z.eqb done.2 0 then (Val (), w') else (Raise (CalledProcessError done.2 cmd), w').

(** Lines 27-29 *)
Definition _run (cmd : list string) : M unit :=
  print_out (String.concat " " cmd) ;;
  subprocess_run cmd.

(** Lines 32-35 *)
Definition _run_with_xvfb (cmd : list string) (use_xvfb : bool) : M unit :=
  let cmd := if use_xvfb then (["xvfb-run"; "-a"] ++ cmd)%list else cmd in
  _run cmd.

(** Lines 38-39 *)
Definition _ensure_dir (p : path) : M unit :=
  fs_update (Fs.mkdir_parents p).

Definition reg_candidates : list string :=
  ["ORG-RegAtlas-100HCP"; "NABA-RegAtlas"; "ORG-RegAtlas"].

Definition fc_candidates : list string :=
  ["ORG-800FC-100HCP"; "NABA-800FC"; "ORG-800FC"].

(** The candidate loops of lines 58-70:
    [for name in names: cand = root / name; if cand.is_dir(): found = cand; break] *)
Fixpoint first_dir (fs : gmap (list string) node) (root : path) (names : list string)
  : option (list string) :=
  match names with
  | [] => None
  | name :: rest =>
      let cand := root // name in
      if Fs.is_dir fs cand then Some cand else first_dir fs root rest
  end.

(** Lines 42-87 *)
Definition _find_atlas_dirs (atlas_root : path) : M (list string * list string) :=
  let root := atlas_root in
  root_ok ← is_dir root;
  when (negb root_ok)
    (py_raise (FileNotFoundError ("Atlas root not found: " +:+ Path.str root))) ;;
  reg_dir ← (fun w => (Val (first_dir (w_fs w) root reg_candidates), w));
  fc_dir ← (fun w => (Val (first_dir (w_fs w) root fc_candidates), w));
  match reg_dir, fc_dir with
  | Some reg_dir, Some fc_dir =>
      let reg_atlas := reg_dir // "registration_atlas.vtk" in
      reg_atlas_ok ← is_file reg_atlas;
      when (negb reg_atlas_ok)
        (py_raise (FileNotFoundError
           ("registration_atlas.vtk not found in " +:+ Path.str reg_dir))) ;;
      let atlas_p := fc_dir // "atlas.p" in
      let atlas_vtp := fc_dir // "atlas.vtp" in
      atlas_p_ok ← is_file atlas_p;
      atlas_vtp_ok ← is_file atlas_vtp;
      when (negb atlas_p_ok || negb atlas_vtp_ok)
        (py_raise (FileNotFoundError
           ("atlas.p/atlas.vtp not found in " +:+ Path.str fc_dir))) ;;
      ret (reg_dir, fc_dir)
  | _, _ =>
      py_raise (FileNotFoundError
        ("Atlas root must contain registration and clustering folders "
         +:+ "(found reg=" +:+ str_opt reg_dir +:+ ", fc=" +:+ str_opt fc_dir +:+ ")."))
  end.

(** Lines 90-99 *)
Definition _pick_cluster_location_file (fc_dir script_dir : path) : M (list string) :=
  let from_atlas := fc_dir // "cluster_hemisphere_location.txt" in
  from_atlas_ok ← is_file from_atlas;
  if from_atlas_ok then ret from_atlas
  else
    let fallback := script_dir // "resources" // "cluster_hemisphere_location.txt" in
    fallback_ok ← is_file fallback;
    when (negb fallback_ok)
      (py_raise (FileNotFoundError
         "cluster_hemisphere_location.txt not found in atlas or resources.")) ;;
    ret fallback.

(** *** The stages of [main], in source order *)

(** Lines 178-205: validation of the arguments, atlas resolution and
    creation of the case directory.  Returns the atlas directories, the
    hemisphere-location file and the layout. *)
Definition startup (args : Args)
  : M (list string * list string * list string * Layout) :=
  let input_file := a_i args in
  input_ok ← is_file input_file;
  when (negb input_ok)
    (fail_with ("Input file not found: " +:+ Path.str input_file)) ;;
  let slicer_path := a_s args in
  slicer_ok ← path_exists slicer_path;
  when (negb slicer_ok)
    (fail_with ("3D Slicer not found: " +:+ Path.str slicer_path)) ;;
  when (Z.eqb (a_d args) 1 && negb (bool_decide (is_Some (a_m args))))
    (fail_with "ERROR: -d requires -m FiberTractMeasurements module path.") ;;
  match a_m args with
  | Some module_path =>
      module_ok ← path_exists module_path;
      when (negb module_ok)
        (print_out ("WARNING: FiberTractMeasurements not found: "
                    +:+ Path.str module_path))
  | None => ret ()
  end ;;
  ' (reg_dir, fc_dir) ← _find_atlas_dirs (a_a args);
  cluster_location_file ← _pick_cluster_location_file fc_dir (script_dir env);
  let output_root := a_o args in
  _ensure_dir output_root ;;
  let L := layout input_file output_root in
  _ensure_dir (output_case L) ;;
  ret (reg_dir, fc_dir, cluster_location_file, L).

(** The argument vectors of the stages *)
Definition harden_cmd (tfm src dst slicer_path : path) : list string :=
  [ "wm_harden_transform.py"; "-t"; Path.str tfm; Path.str src; Path.str dst;
    Path.str slicer_path ].

Definition inverse_harden_cmd (tfm src dst slicer_path : path) : list string :=
  [ "wm_harden_transform.py"; "-i"; "-t"; Path.str tfm; Path.str src;
    Path.str dst; Path.str slicer_path ].

Definition register_cmd (mode : string) (input atlas_dir out_dir : path)
  : list string :=
  [ "wm_register_to_atlas_new.py"; "-mode"; mode; Path.str input;
    Path.str (atlas_dir // "registration_atlas.vtk"); Path.str out_dir ].

Definition cluster_cmd (n : Z) (reg_output fc_dir out_dir : path) : list string :=
  [ "wm_cluster_from_atlas.py"; "-j"; pretty n; Path.str reg_output;
    Path.str fc_dir; Path.str out_dir; "-norender" ].

Definition remove_outliers_cmd (n : Z) (in_dir fc_dir out_dir : path) : list string :=
  [ "wm_cluster_remove_outliers.py"; "-j"; pretty n; Path.str in_dir;
    Path.str fc_dir; Path.str out_dir ].

Definition assess_cmd (cluster_location_file outlier_dir : path) : list string :=
  [ "wm_assess_cluster_location_by_hemisphere.py"; "-clusterLocationFile";
    Path.str cluster_location_file; Path.str outlier_dir ].

Definition separate_cmd (in_dir out_dir : path) : list string :=
  [ "wm_separate_clusters_by_hemisphere.py"; Path.str in_dir; Path.str out_dir ].

Definition append_cmd (final_clusters_dir fc_dir out_dir : path) : list string :=
  [ sys_executable env;
    Path.str (script_dir env // "wm_append_clusters_to_anatomical_tracts_naba.py");
    Path.str final_clusters_dir; Path.str fc_dir; Path.str out_dir ].

Definition measure_cmd (input_dir out_csv : path) (slicer_cmd : string) : list string :=
  [ "wm_diffusion_measurements.py"; Path.str input_dir; Path.str out_csv; slicer_cmd ].

(** Lines 217-238: the size-matching transform of the raw input.
    Returns [active_input]. *)
Definition harden_input (args : Args) (L : Layout) : M (list string) :=
  let input_file := a_i args in
  let slicer_path := a_s args in
  match a_t args with
  | Some t =>
      t_ok ← is_file t;
      when (negb t_ok)
        (fail_with ("Transform file not found: " +:+ Path.str t)) ;;
      _ensure_dir (transformed_tracts_dir L) ;;
      let cmd :=
        harden_cmd t (Path.parent input_file) (transformed_tracts_dir L) slicer_path in
      _run_with_xvfb cmd (Z.eqb (a_x args) 1) ;;
      let transformed := transformed_tracts_dir L // Path.name input_file in
      transformed_ok ← is_file transformed;
      when (negb transformed_ok)
        (fail_with "ERROR: Transformed input not found.") ;;
      ret transformed
  | None => ret input_file
  end.

(** Lines 240-283: registration.  Returns [reg_output] and
    [nonrig_subject]. *)
Definition register (args : Args) (L : Layout) (reg_dir active_input : path)
  : M (list string * option (list string)) :=
  let registration_dir := registration_dir L in
  let subject_id := subject_id L in
  _ensure_dir registration_dir ;;
  let reg_subject_dir := registration_dir // subject_id in
  let reg_output :=
    reg_subject_dir // "output_tractography" // (subject_id +:+ "_reg.vtk") in
  ' (reg_output, nonrig_subject) ←
    match a_r args with
    | rig =>
        done ← is_file reg_output;
        when (negb done)
          (_run (register_cmd "rigid_affine_fast" active_input reg_dir registration_dir)) ;;
        ret (reg_output, None)
    | nonrig =>
        done ← is_file reg_output;
        when (negb done)
          (_run (register_cmd "affine" active_input reg_dir registration_dir)) ;;
        let nonrig_subject := registration_dir // (subject_id +:+ "_reg") in
        let reg_output :=
          nonrig_subject // "output_tractography" // (subject_id +:+ "_reg_reg.vtk") in
        done ← is_file reg_output;
        when (negb done)
          (let affine_output :=
             reg_subject_dir // "output_tractography" // (subject_id +:+ "_reg.vtk") in
           _run (register_cmd "nonrigid" affine_output reg_dir registration_dir)) ;;
        ret (reg_output, Some nonrig_subject)
    end;
  reg_ok ← is_file reg_output;
  when (negb reg_ok) (fail_with "ERROR: Registration output not found.") ;;
  ret (reg_output, nonrig_subject).

(** Lines 285-298: clustering from the atlas.  Returns [fc_case_id]. *)
Definition cluster (args_n : Z) (L : Layout) (fc_dir reg_output : path) : M string :=
  _ensure_dir (initial_clusters_dir L) ;;
  let fc_case_id := Path.stem reg_output in
  let cluster_output := initial_clusters_dir L // fc_case_id // "cluster_00800.vtp" in
  done ← is_file cluster_output;
  when (negb done)
    (_run (cluster_cmd args_n reg_output fc_dir (initial_clusters_dir L))) ;;
  ret fc_case_id.

(** Lines 300-322: outlier removal and hemisphere-location assessment.
    Returns [outlier_dir]. *)
Definition remove_outliers (args_n : Z) (L : Layout)
    (fc_dir cluster_location_file : path) (fc_case_id : string) : M (list string) :=
  _ensure_dir (outlier_clusters_dir L) ;;
  let outlier_dir := outlier_clusters_dir L // (fc_case_id +:+ "_outlier_removed") in
  let outlier_output := outlier_dir // "cluster_00800.vtp" in
  done ← is_file outlier_output;
  when (negb done)
    (_run (remove_outliers_cmd args_n (initial_clusters_dir L // fc_case_id) fc_dir
             (outlier_clusters_dir L))) ;;
  let assess_log := outlier_dir // "cluster_location_by_hemisphere.log" in
  done ← is_file assess_log;
  when (negb done)
    (_run (assess_cmd cluster_location_file outlier_dir)) ;;
  ret outlier_dir.

(** Lines 324-394: bringing the clusters back to the input space.
    Returns [transformed_dir]. *)
Definition untransform (args : Args) (L : Layout)
    (nonrig_subject : option (list string)) (outlier_dir : path) : M (list string) :=
  let slicer_path := a_s args in
  let subject_id := subject_id L in
  let reg_subject_dir := registration_dir L // subject_id in
  _ensure_dir (transformed_clusters_dir L) ;;
  let transformed_dir := transformed_clusters_dir L in
  match a_r args with
  | rig =>
      let tfm := reg_subject_dir // "output_tractography"
                 // ("itk_txform_" +:+ subject_id +:+ ".tfm") in
      tfm_ok ← is_file tfm;
      when (negb tfm_ok)
        (fail_with ("ERROR: Registration transform not found: " +:+ Path.str tfm)) ;;
      let transformed_check := transformed_dir // "cluster_00800.vtp" in
      done ← is_file transformed_check;
      when (negb done)
        (_run_with_xvfb (inverse_harden_cmd tfm outlier_dir transformed_dir slicer_path)
           (Z.eqb (a_x args) 1))
  | nonrig =>
      match nonrig_subject with
      | None => py_raise TypeError
      | Some nonrig_subject =>
          let tfm_nonrig := nonrig_subject // "output_tractography"
                            // ("itk_txform_" +:+ subject_id +:+ "_reg.tfm") in
          let tfm_affine := reg_subject_dir // "output_tractography"
                            // ("itk_txform_" +:+ subject_id +:+ ".tfm") in
          nonrig_ok ← is_file tfm_nonrig;
          when (negb nonrig_ok)
            (fail_with ("ERROR: Nonrigid transform not found: " +:+ Path.str tfm_nonrig)) ;;
          affine_ok ← is_file tfm_affine;
          when (negb affine_ok)
            (fail_with ("ERROR: Affine transform not found: " +:+ Path.str tfm_affine)) ;;
          let temp_dir := transformed_dir // "tmp" in
          _ensure_dir temp_dir ;;
          let temp_check := temp_dir // "cluster_00800.vtp" in
          done ← is_file temp_check;
          when (negb done)
            (_run_with_xvfb (inverse_harden_cmd tfm_nonrig outlier_dir temp_dir slicer_path)
               (Z.eqb (a_x args) 1)) ;;
          let transformed_check := transformed_dir // "cluster_00800.vtp" in
          done ← is_file transformed_check;
          when (negb done)
            (_run_with_xvfb (inverse_harden_cmd tfm_affine temp_dir transformed_dir slicer_path)
               (Z.eqb (a_x args) 1))
      end
  end ;;
  let transformed_check := transformed_dir // "cluster_00800.vtp" in
  transformed_ok ← is_file transformed_check;
  when (negb transformed_ok) (fail_with "ERROR: Transformed clusters not found.") ;;
  ret transformed_dir.

(** Lines 396-404: separation by hemisphere. *)
Definition separate (L : Layout) (transformed_dir : path) : M unit :=
  _ensure_dir (separated_clusters_dir L) ;;
  let separate_check :=
    separated_clusters_dir L // "tracts_commissural" // "cluster_00800.vtp" in
  done ← is_file separate_check;
  when (negb done)
    (_run (separate_cmd transformed_dir (separated_clusters_dir L))).

(** Lines 406-431: undoing the size-matching transform, one
    hemisphere folder at a time.  Returns [final_clusters_dir]. *)
Definition inverse_transform (args : Args) (L : Layout) : M (list string) :=
  let slicer_path := a_s args in
  match a_t args with
  | Some tfm_file =>
      tfm_ok ← is_file tfm_file;
      when (negb tfm_ok)
        (fail_with ("Transform file not found: " +:+ Path.str tfm_file)) ;;
      _ensure_dir (inverse_transformed_dir L) ;;
      entries ← fs_read (Fs.iterdir (separated_clusters_dir L));
      for_each (Path.sorted entries) (fun cluster_dir =>
        entry_is_dir ← is_dir cluster_dir;
        if negb entry_is_dir then ret ()
        else
          let out_dir := inverse_transformed_dir L // Path.name cluster_dir in
          _ensure_dir out_dir ;;
          let out_check := out_dir // "cluster_00800.vtp" in
          done ← is_file out_check;
          if done then ret ()
          else
            _run_with_xvfb (inverse_harden_cmd tfm_file cluster_dir out_dir slicer_path)
              (Z.eqb (a_x args) 1)) ;;
      ret (inverse_transformed_dir L)
  | None => ret (separated_clusters_dir L)
  end.

(** Lines 433-443: aggregation into anatomical tracts. *)
Definition append_tracts (L : Layout) (fc_dir final_clusters_dir : path) : M unit :=
  _ensure_dir (anatomical_tracts_dir L) ;;
  let append_check := anatomical_tracts_dir L // "T_UF_right.vtp" in
  done ← is_file append_check;
  when (negb done)
    (_run (append_cmd final_clusters_dir fc_dir (anatomical_tracts_dir L))).

(** Lines 445-474: diffusion measurements. *)
Definition measure (args : Args) (L : Layout) (final_clusters_dir : path) : M unit :=
  when (Z.eqb (a_d args) 1)
    (match a_m args with
     | None => py_raise TypeError
     | Some module_path =>
         let slicer_cmd := Path.str (a_s args) +:+ " --launch " +:+ Path.str module_path in
         let slicer_cmd :=
           if Z.eqb (a_x args) 1 then "xvfb-run -a " +:+ slicer_cmd else slicer_cmd in
         let clusters :=
           [ ("commissural", final_clusters_dir // "tracts_commissural");
             ("left", final_clusters_dir // "tracts_left_hemisphere");
             ("right", final_clusters_dir // "tracts_right_hemisphere") ] in
         for_each clusters (fun '(name, input_dir) =>
           let out_csv := separated_clusters_dir L
                          // ("diffusion_measurements_" +:+ name +:+ ".csv") in
           done ← is_file out_csv;
           when (negb done) (_run (measure_cmd input_dir out_csv slicer_cmd))) ;;
         let tracts_csv := anatomical_tracts_dir L
                           // "diffusion_measurements_anatomical_tracts.csv" in
         done ← is_file tracts_csv;
         when (negb done)
           (_run (measure_cmd (anatomical_tracts_dir L) tracts_csv slicer_cmd))
     end).

Definition any_name : string → bool := fun _ => true.

(** Lines 476-481: the deletions made when [args.c >= 1]. *)
Definition cleanup_minimal (L : Layout) : M unit :=
  initial_exists ← path_exists (initial_clusters_dir L);
  when initial_exists (fs_update (Fs.rmtree (initial_clusters_dir L))) ;;
  let transformed_root := clustering_root L // "TransformedClusters" in
  transformed_exists ← path_exists transformed_root;
  when transformed_exists (fs_update (Fs.rmtree transformed_root)).

(** Lines 484-488: registration geometry and iteration directories *)
Definition clean_registration (L : Layout) : M unit :=
  registration_exists ← path_exists (registration_dir L);
  when registration_exists
    (vtk_files ← (fun w => (Val (Fs.glob (w_fs w)
                    [any_name; any_name; String.eqb "output_tractography";
                     Path.ends_with ".vtk"] (registration_dir L)), w));
     for_each vtk_files (fun vtk_file => fs_update (Fs.unlink vtk_file)) ;;
     iteration_dirs ← (fun w => (Val (Fs.glob (w_fs w)
                    [any_name; any_name; Path.starts_with "iteration"]
                    (registration_dir L)), w));
     for_each iteration_dirs (fun iteration_dir => fs_update (Fs.rmtree iteration_dir))).

(** Lines 491-496: the entries of the outlier-removed directory *)
Definition clean_outliers (L : Layout) : M unit :=
  outlier_exists ← path_exists (outlier_clusters_dir L);
  when outlier_exists
    (items ← fs_read (Fs.iterdir (outlier_clusters_dir L));
     for_each items (fun item =>
       item_is_dir ← is_dir item;
       if item_is_dir then fs_update (Fs.rmtree item) else fs_update (Fs.unlink item))).

(** Lines 497-502: the files of the transformed-clusters tree *)
Definition clean_transformed (L : Layout) : M unit :=
  let transformed_root := clustering_root L // "TransformedClusters" in
  transformed_exists ← path_exists transformed_root;
  when transformed_exists
    (items ← (fun w => (Val (Fs.rglob_all (w_fs w) transformed_root), w));
     for_each items (fun item =>
       item_is_dir ← is_dir item;
       if item_is_dir then ret () else fs_update (Fs.unlink item))).

(** Lines 483-502: the deletions made when [args.c >= 2]. *)
Definition cleanup_maximal (L : Layout) : M unit :=
  clean_registration L ;;
  initial_exists ← path_exists (initial_clusters_dir L);
  when initial_exists (fs_update (Fs.rmtree (initial_clusters_dir L))) ;;
  clean_outliers L ;;
  clean_transformed L.

(** Lines 476-502 *)
Definition cleanup (args : Args) (L : Layout) : M unit :=
  when (Z.leb 1 (a_c args)) (cleanup_minimal L) ;;
  when (Z.leb 2 (a_c args)) (cleanup_maximal L).

(** Lines 217-504: the stages in order, then the cleanup *)
Definition pipeline (args : Args) (L : Layout)
    (reg_dir fc_dir cluster_location_file : path) : M unit :=
  let args_n := if Z.ltb (a_n args) 1 then 1 else a_n args in
  active_input ← harden_input args L;
  ' (reg_output, nonrig_subject) ← register args L reg_dir active_input;
  fc_case_id ← cluster args_n L fc_dir reg_output;
  outlier_dir ← remove_outliers args_n L fc_dir cluster_location_file fc_case_id;
  transformed_dir ← untransform args L nonrig_subject outlier_dir;
  separate L transformed_dir ;;
  final_clusters_dir ← inverse_transform args L;
  append_tracts L fc_dir final_clusters_dir ;;
  measure args L final_clusters_dir ;;
  cleanup args L ;;
  py_return 0.

(** Lines 175-504: [main] from the point where [parser.parse_args()] has
    returned [args].  The parser of lines 103-174 is [argparse]'s and is not
    modelled: a command line it rejects never reaches line 175 ([argparse]
    prints the usage on standard error and raises [SystemExit(2)]; [-h]
    prints the help and raises [SystemExit(0)]).  The choices it enforces
    for [-x], [-d] and [-c] are not assumed here. *)
Definition main (args : Args) : M unit :=
  ' (reg_dir, fc_dir, cluster_location_file, L) ← startup args;
  pipeline args L reg_dir fc_dir cluster_location_file.

End Orchestrator.

(** ** Simulated tools for concrete runs *)

Module Sim.

(** One rule of a simulated tool suite: an invocation whose argument
    vector starts with [sr_prefix] and mentions every string of
    [sr_mentions] creates the regular files [sr_creates] (with their
    parent directories) and exits with [sr_status]; a zero status is
    only reported when all these files are in place afterwards. *)
Record Rule := mkRule {
  sr_prefix : list string;
  sr_mentions : list string;
  sr_creates : list (list string);
  sr_status : Z
}.

Fixpoint starts_with (pre argv : list string) : bool :=
  match pre, argv with
  | [], _ => true
  | _ :: _, [] => false
  | a :: pre', b :: argv' => String.eqb a b && starts_with pre' argv'
  end.

Definition matches (argv : list string) (r : Rule) : bool :=
  starts_with (sr_prefix r) argv
  && forallb (fun s => existsb (String.eqb s) argv) (sr_mentions r).

(** Create a regular file unless something is already there or its
    directory cannot be made. *)
Definition create_file (p : path) (fs : FS) : FS :=
  match Fs.mkdir_parents (Path.parent p) fs with
  | inr fs' => if Fs.exists_ fs' p then fs' else <[p := File]> fs'
  | inl _ => fs
  end.

(** The program actually run: the launcher, when present, is transparent. *)
Definition behind_launcher (argv : list string) : list string :=
  match argv with
  | "xvfb-run" :: "-a" :: rest => rest
  | _ => argv
  end.

Definition run (rules : list Rule) (argv : list string) (fs : FS) : FS * Z :=
  match find (matches (behind_launcher argv)) rules with
  | Some r =>
      let fs' := foldr create_file fs (sr_creates r) in
      (fs', if Z.eqb (sr_status r) 0
            then (if forallb (Fs.is_file fs') (sr_creates r) then 0 else 1)
            else sr_status r)
  | None => (fs, 127)
  end.

Definition env0 : Env :=
  {| script_dir := ["opt"; "naba"]; sys_executable := "/usr/bin/python3" |}.

(** Inputs, atlas and Slicer in place, no output root yet. *)
Definition fs0 : FS :=
  list_to_map
    [ (["data"], Dir); (["data"; "subjectA.vtk"], File);
      (["data"; "size.tfm"], File);
      (["atlas"], Dir);
      (["atlas"; "ORG-RegAtlas-100HCP"], Dir);
      (["atlas"; "ORG-RegAtlas-100HCP"; "registration_atlas.vtk"], File);
      (["atlas"; "ORG-800FC-100HCP"], Dir);
      (["atlas"; "ORG-800FC-100HCP"; "atlas.p"], File);
      (["atlas"; "ORG-800FC-100HCP"; "atlas.vtp"], File);
      (["atlas"; "ORG-800FC-100HCP"; "cluster_hemisphere_location.txt"], File);
      (["opt"], Dir); (["opt"; "Slicer"], File) ].

Definition w0 : World := mkWorld fs0 [] [] [].

Definition args0 : Args :=
  {| a_i := ["data"; "subjectA.vtk"]; a_o := ["out"]; a_a := ["atlas"];
     a_s := ["opt"; "Slicer"]; a_t := None; a_r := rig; a_n := 4; a_x := 0;
     a_d := 0; a_m := None; a_c := 0 |}.

Definition case : list string := ["out"; "subjectA"].
Definition fc : list string := case ++ ["FiberClustering"].

(** Tools that honour their output contract, for subject [subjectA]. *)
Definition good_rules : list Rule :=
  [ mkRule ["wm_harden_transform.py"; "-t"] []
      [case ++ ["TransformedTracts"; "subjectA.vtk"];
       case ++ ["TransformedTracts"; "size.tfm"]] 0;
    mkRule ["wm_register_to_atlas_new.py"; "-mode"; "nonrigid"] []
      [case ++ ["TractRegistration"; "subjectA_reg"; "output_tractography"; "subjectA_reg_reg.vtk"];
       case ++ ["TractRegistration"; "subjectA_reg"; "output_tractography"; "itk_txform_subjectA_reg.tfm"]] 0;
    mkRule ["wm_register_to_atlas_new.py"] []
      [case ++ ["TractRegistration"; "subjectA"; "output_tractography"; "subjectA_reg.vtk"];
       case ++ ["TractRegistration"; "subjectA"; "output_tractography"; "itk_txform_subjectA.tfm"]] 0;
    mkRule ["wm_cluster_from_atlas.py"] []
      [fc ++ ["InitialClusters"; "subjectA_reg"; "cluster_00800.vtp"]] 0;
    mkRule ["wm_cluster_remove_outliers.py"] []
      [fc ++ ["OutlierRemovedClusters"; "subjectA_reg_outlier_removed"; "cluster_00800.vtp"]] 0;
    mkRule ["wm_assess_cluster_location_by_hemisphere.py"] []
      [fc ++ ["OutlierRemovedClusters"; "subjectA_reg_outlier_removed";
              "cluster_location_by_hemisphere.log"]] 0;
    mkRule ["wm_harden_transform.py"; "-i"] []
      [fc ++ ["TransformedClusters"; "subjectA"; "cluster_00800.vtp"]] 0;
    mkRule ["wm_separate_clusters_by_hemisphere.py"] []
      [fc ++ ["SeparatedClusters"; "tracts_commissural"; "cluster_00800.vtp"];
       fc ++ ["SeparatedClusters"; "tracts_left_hemisphere"; "cluster_00800.vtp"];
       fc ++ ["SeparatedClusters"; "tracts_right_hemisphere"; "cluster_00800.vtp"]] 0;
    mkRule ["/usr/bin/python3"; "/opt/naba/wm_append_clusters_to_anatomical_tracts_naba.py"] []
      [case ++ ["AnatomicalTracts"; "T_UF_right.vtp"]] 0 ].

Definition sep : list string := fc ++ ["SeparatedClusters"].
Definition inv : list string := case ++ ["InvTransformedTracts"].

(** The same for every configuration of [subjectA]: non-rigid
    registration, size-matching transform [/data/size.tfm] and
    measurements included. *)
Definition full_rules : list Rule :=
  [ mkRule ["wm_harden_transform.py"; "-i"; "-t"; "/data/size.tfm"]
      [Path.str (sep ++ ["tracts_commissural"])]
      [inv ++ ["tracts_commissural"; "cluster_00800.vtp"]] 0;
    mkRule ["wm_harden_transform.py"; "-i"; "-t"; "/data/size.tfm"]
      [Path.str (sep ++ ["tracts_left_hemisphere"])]
      [inv ++ ["tracts_left_hemisphere"; "cluster_00800.vtp"]] 0;
    mkRule ["wm_harden_transform.py"; "-i"; "-t"; "/data/size.tfm"]
      [Path.str (sep ++ ["tracts_right_hemisphere"])]
      [inv ++ ["tracts_right_hemisphere"; "cluster_00800.vtp"]] 0;
    mkRule ["wm_harden_transform.py"; "-i"; "-t";
            Path.str (case ++ ["TractRegistration"; "subjectA_reg"; "output_tractography";
                               "itk_txform_subjectA_reg.tfm"])] []
      [fc ++ ["TransformedClusters"; "subjectA"; "tmp"; "cluster_00800.vtp"]] 0;
    mkRule ["wm_cluster_from_atlas.py"]
      [Path.str (case ++ ["TractRegistration"; "subjectA_reg"; "output_tractography";
                          "subjectA_reg_reg.vtk"])]
      [fc ++ ["InitialClusters"; "subjectA_reg_reg"; "cluster_00800.vtp"]] 0;
    mkRule ["wm_cluster_remove_outliers.py"]
      [Path.str (fc ++ ["InitialClusters"; "subjectA_reg_reg"])]
      [fc ++ ["OutlierRemovedClusters"; "subjectA_reg_reg_outlier_removed";
              "cluster_00800.vtp"]] 0;
    mkRule ["wm_assess_cluster_location_by_hemisphere.py"]
      [Path.str (fc ++ ["OutlierRemovedClusters"; "subjectA_reg_reg_outlier_removed"])]
      [fc ++ ["OutlierRemovedClusters"; "subjectA_reg_reg_outlier_removed";
              "cluster_location_by_hemisphere.log"]] 0;
    mkRule ["wm_diffusion_measurements.py"]
      [Path.str (sep ++ ["diffusion_measurements_commissural.csv"])]
      [sep ++ ["diffusion_measurements_commissural.csv"]] 0;
    mkRule ["wm_diffusion_measurements.py"]
      [Path.str (sep ++ ["diffusion_measurements_left.csv"])]
      [sep ++ ["diffusion_measurements_left.csv"]] 0;
    mkRule ["wm_diffusion_measurements.py"]
      [Path.str (sep ++ ["diffusion_measurements_right.csv"])]
      [sep ++ ["diffusion_measurements_right.csv"]] 0;
    mkRule ["wm_diffusion_measurements.py"] []
      [case ++ ["AnatomicalTracts"; "diffusion_measurements_anatomical_tracts.csv"]] 0 ]
  ++ good_rules.

End Sim.

(** * Vocabulary of the properties *)

(** ** Atlas resolution *)

(** [d] is the first candidate, in list order, that is a directory
    below [root]. *)
Definition first_match (fs : gmap (list string) node) (root : list string)
    (names : list string) (d : list string) : Prop :=
  ∃ (i : nat) (name : string),
    names !! i = Some name ∧ d = root // name ∧ Fs.is_dir fs d = true ∧
    ∀ (j : nat) (name' : string),
      (j < i)%nat → names !! j = Some name' → Fs.is_dir fs (root // name') = false.

(** No candidate is a directory below [root]. *)
Definition none_matches (fs : gmap (list string) node) (root : list string)
    (names : list string) : Prop :=
  ∀ name, name ∈ names → Fs.is_dir fs (root // name) = false.

(** ** Worlds and commands *)

(** The world after one more line on standard error *)
Definition add_stderr (line : string) (w : World) : World :=
  mkWorld (w_fs w) (w_cmds w) (w_stdout w) (w_stderr w ++ [line]).

(** The launcher prefix of [_run_with_xvfb] *)
Definition xvfb_wrap (args : Args) (cmd : list string) : list string :=
  if Z.eqb (a_x args) 1 then ["xvfb-run"; "-a"] ++ cmd else cmd.

(** Every command [m] hands to [subprocess.run], whatever the starting
    world and however [m] ends, satisfies [P]. *)
Definition emits {A} (P : list string → Prop) (m : M A) : Prop :=
  ∀ w, ∃ l, w_cmds (m w).2 = w_cmds w ++ l ∧ Forall P l.

(** An invocation of [wm_harden_transform.py] behind the launcher *)
Definition wrapped_harden (cmd : list string) : Prop :=
  ∃ rest, cmd = ["xvfb-run"; "-a"; "wm_harden_transform.py"] ++ rest.

(** An invocation of one of the other stage programs, with nothing in
    front of the program; a measurement command carries the launcher
    inside its last argument, the Slicer command line. *)
Definition unwrapped_stage (env : Env) (cmd : list string) : Prop :=
  (∃ rest, cmd = "wm_register_to_atlas_new.py" :: rest) ∨
  (∃ rest, cmd = "wm_cluster_from_atlas.py" :: rest) ∨
  (∃ rest, cmd = "wm_cluster_remove_outliers.py" :: rest) ∨
  (∃ rest, cmd = "wm_assess_cluster_location_by_hemisphere.py" :: rest) ∨
  (∃ rest, cmd = "wm_separate_clusters_by_hemisphere.py" :: rest) ∨
  (∃ rest, cmd = sys_executable env
                 :: Path.str (script_dir env
                              // "wm_append_clusters_to_anatomical_tracts_naba.py")
                 :: rest) ∨
  (∃ input_dir out_csv slicer_cmd,
      cmd = ["wm_diffusion_measurements.py"; input_dir; out_csv;
             "xvfb-run -a " +:+ slicer_cmd]).

(** ** Cleanup *)

(** [m] never adds to the filesystem or changes the kind of an entry. *)
Definition shrinking {A} (m : M A) : Prop := ∀ w, w_fs (m w).2 ⊆ w_fs w.

(** The arguments with another cleanup tier *)
Definition with_cleanup (args : Args) (c : Z) : Args :=
  mkArgs (a_i args) (a_o args) (a_a args) (a_s args) (a_t args) (a_r args)
    (a_n args) (a_x args) (a_d args) (a_m args) c.

(** [m] keeps a well-formed filesystem well-formed. *)
Definition keeps_wf {A} (m : M A) : Prop :=
  ∀ w, Fs.wf (w_fs w) → Fs.wf (w_fs (m w).2).

(** The body of the loop of lines 492-496 *)
Definition delete_entry (item : list string) : M unit :=
  item_is_dir ← is_dir item;
  if item_is_dir then fs_update (Fs.rmtree item) else fs_update (Fs.unlink item).

(** Well-formedness of a given filesystem can be decided by running
    through its entries. *)
Global Instance wf_dec (fs : gmap (list string) node) : Decision (Fs.wf fs).
Proof. unfold Fs.wf, Path.wf. apply _. Defined.

(** ** Concrete configurations of [subjectA] *)

Module Runs.

Import Sim.

(** Non-rigid registration, size-matching transform, launcher and
    measurements *)
Definition args_full : Args :=
  {| a_i := ["data"; "subjectA.vtk"]; a_o := ["out"]; a_a := ["atlas"];
     a_s := ["opt"; "Slicer"]; a_t := Some ["data"; "size.tfm"]; a_r := nonrig;
     a_n := 1; a_x := 1; a_d := 1; a_m := Some ["opt"; "FTM"]; a_c := 0 |}.

(** Rigid registration with a size-matching transform *)
Definition args_transform : Args :=
  {| a_i := ["data"; "subjectA.vtk"]; a_o := ["out"]; a_a := ["atlas"];
     a_s := ["opt"; "Slicer"]; a_t := Some ["data"; "size.tfm"]; a_r := rig;
     a_n := 4; a_x := 0; a_d := 0; a_m := None; a_c := 0 |}.

(** Non-rigid registration without size-matching transform, with the
    launcher and the measurements *)
Definition args_nonrig : Args :=
  {| a_i := ["data"; "subjectA.vtk"]; a_o := ["out"]; a_a := ["atlas"];
     a_s := ["opt"; "Slicer"]; a_t := None; a_r := nonrig;
     a_n := 4; a_x := 1; a_d := 1; a_m := Some ["opt"; "FTM"]; a_c := 0 |}.

(** The layout of the case [subjectA] under [/out] *)
Definition L0 : Layout := layout ["data"; "subjectA.vtk"] ["out"].

(** The world a run leaves behind, with the logs emptied *)
Definition after (r : Res unit * World) : World := mkWorld (w_fs r.2) [] [] [].

(** A tool suite whose aggregation step exits 0 without writing
    anything *)
Definition silent_append_rules : list Rule :=
  mkRule ["/usr/bin/python3"] [] [] 0 :: good_rules.

End Runs.

Import Runs.

(** The filesystem a successful filesystem operation returns *)
Definition made (r : PyExc + gmap (list string) node) : gmap (list string) node :=
  match r with
  | inr fs => fs
  | inl _ => ∅
  end.

(** A world ready for the un-transform stage in non-rigid mode *)
Module Untransform.

Definition reg : list string := Sim.case ++ ["TractRegistration"].

Definition nonrig_subject : list string := reg ++ ["subjectA_reg"].

Definition outlier_dir : list string :=
  Sim.fc ++ ["OutlierRemovedClusters"; "subjectA_reg_reg_outlier_removed"].

(** Registration and outlier removal done, nothing un-transformed yet *)
Definition w_before : World :=
  mkWorld
    (foldr Sim.create_file Sim.fs0
       [ nonrig_subject ++ ["output_tractography"; "itk_txform_subjectA_reg.tfm"];
         reg ++ ["subjectA"; "output_tractography"; "itk_txform_subjectA.tfm"];
         outlier_dir ++ ["cluster_00800.vtp"] ])
    [] [] [].

End Untransform.

(** ** Checkpoints *)

(** Every non-empty prefix of [p] is a directory: [_ensure_dir p] has
    nothing to do. *)
Definition dir_ok (fs : gmap (list string) node) (p : list string) : Prop :=
  Forall (fun q => fs !! q = Some Dir) (Fs.prefixes p).

(** The paths whose existence the stages test, as lines 240-474 derive
    them from the layout and the registration mode *)
Module Expected.

Definition reg_subject_dir (L : Layout) : list string :=
  registration_dir L // subject_id L.

Definition affine_output (L : Layout) : list string :=
  reg_subject_dir L // "output_tractography" // (subject_id L +:+ "_reg.vtk").

Definition nonrig_subject (L : Layout) : list string :=
  registration_dir L // (subject_id L +:+ "_reg").

Definition nonrig_output (L : Layout) : list string :=
  nonrig_subject L // "output_tractography" // (subject_id L +:+ "_reg_reg.vtk").

Definition reg_output (r : RegMode) (L : Layout) : list string :=
  match r with
  | rig => affine_output L
  | nonrig => nonrig_output L
  end.

Definition fc_case_id (r : RegMode) (L : Layout) : string :=
  Path.stem (reg_output r L).

Definition cluster_output (r : RegMode) (L : Layout) : list string :=
  initial_clusters_dir L // fc_case_id r L // "cluster_00800.vtp".

Definition outlier_dir (r : RegMode) (L : Layout) : list string :=
  outlier_clusters_dir L // (fc_case_id r L +:+ "_outlier_removed").

Definition outlier_output (r : RegMode) (L : Layout) : list string :=
  outlier_dir r L // "cluster_00800.vtp".

Definition assess_log (r : RegMode) (L : Layout) : list string :=
  outlier_dir r L // "cluster_location_by_hemisphere.log".

Definition tfm_affine (L : Layout) : list string :=
  reg_subject_dir L // "output_tractography" // ("itk_txform_" +:+ subject_id L +:+ ".tfm").

Definition tfm_nonrig (L : Layout) : list string :=
  nonrig_subject L // "output_tractography"
  // ("itk_txform_" +:+ subject_id L +:+ "_reg.tfm").

Definition temp_dir (L : Layout) : list string :=
  transformed_clusters_dir L // "tmp".

Definition temp_check (L : Layout) : list string :=
  temp_dir L // "cluster_00800.vtp".

Definition transformed_check (L : Layout) : list string :=
  transformed_clusters_dir L // "cluster_00800.vtp".

Definition separate_check (L : Layout) : list string :=
  separated_clusters_dir L // "tracts_commissural" // "cluster_00800.vtp".

Definition append_check (L : Layout) : list string :=
  anatomical_tracts_dir L // "T_UF_right.vtp".

Definition hemisphere_csv (L : Layout) (name : string) : list string :=
  separated_clusters_dir L // ("diffusion_measurements_" +:+ name +:+ ".csv").

Definition tracts_csv (L : Layout) : list string :=
  anatomical_tracts_dir L // "diffusion_measurements_anatomical_tracts.csv".

End Expected.

(** Everything a run without size-matching transform tests before it
    decides to invoke a command, in place: the inputs, the directories it
    ensures, and the expected output of every stage. *)
Record checkpointed (args : Args) (L : Layout) (fs : gmap (list string) node) : Prop := {
  cp_input : Fs.is_file fs (a_i args) = true;
  cp_slicer : Fs.exists_ fs (a_s args) = true;
  cp_module : a_d args = 1 → is_Some (a_m args);
  cp_root : dir_ok fs (a_o args);
  cp_case : dir_ok fs (output_case L);
  cp_registration : dir_ok fs (registration_dir L);
  cp_reg_output : Fs.is_file fs (Expected.reg_output (a_r args) L) = true;
  cp_affine : a_r args = nonrig → Fs.is_file fs (Expected.affine_output L) = true;
  cp_initial : dir_ok fs (initial_clusters_dir L);
  cp_cluster : Fs.is_file fs (Expected.cluster_output (a_r args) L) = true;
  cp_outlier_root : dir_ok fs (outlier_clusters_dir L);
  cp_outlier : Fs.is_file fs (Expected.outlier_output (a_r args) L) = true;
  cp_assess : Fs.is_file fs (Expected.assess_log (a_r args) L) = true;
  cp_transformed : dir_ok fs (transformed_clusters_dir L);
  cp_tfm_affine : Fs.is_file fs (Expected.tfm_affine L) = true;
  cp_tfm_nonrig : a_r args = nonrig → Fs.is_file fs (Expected.tfm_nonrig L) = true;
  cp_temp : a_r args = nonrig → dir_ok fs (Expected.temp_dir L);
  cp_temp_check : a_r args = nonrig → Fs.is_file fs (Expected.temp_check L) = true;
  cp_transformed_check : Fs.is_file fs (Expected.transformed_check L) = true;
  cp_separated : dir_ok fs (separated_clusters_dir L);
  cp_separate_check : Fs.is_file fs (Expected.separate_check L) = true;
  cp_anatomical : dir_ok fs (anatomical_tracts_dir L);
  cp_append : Fs.is_file fs (Expected.append_check L) = true;
  cp_hemisphere_csv : a_d args = 1 → ∀ name, name ∈ ["commissural"; "left"; "right"] →
                      Fs.is_file fs (Expected.hemisphere_csv L name) = true;
  cp_tracts_csv : a_d args = 1 → Fs.is_file fs (Expected.tracts_csv L) = true
}.

(** ** Contracts of the external tools *)

(** The tools only add entries: they neither delete nor retype anything. *)
Definition tool_adds (tool : Tool) : Prop :=
  ∀ argv fs, fs ⊆ (tool argv fs).1.

(** Whenever [cmd] exits 0, the regular file [out] is in place. *)
Definition leaves (tool : Tool) (cmd : list string) (out : list string) : Prop :=
  ∀ fs, (tool cmd fs).2 = 0 → Fs.is_file (tool cmd fs).1 out = true.

(** A stage that, when it falls through, has only added to the
    filesystem and established [Q]; its only [return] is [return 1]. *)
Definition stage_ok {A} (m : M A) (Q : A → gmap (list string) node → Prop) : Prop :=
  ∀ w,
    match m w with
    | (Val a, w') => w_fs w ⊆ w_fs w' ∧ Q a (w_fs w')
    | (Return c, _) => c = 1
    | (Raise _, _) => True
    end.

(** ** How a statement ends, and what it did to the world *)

Inductive Outcome :=
| Falls
| Returns (code : Z)
| Raises (e : PyExc).

Definition outcome {A} (r : Res A) : Outcome :=
  match r with
  | Val _ => Falls
  | Return c => Returns c
  | Raise e => Raises e
  end.

(** [m] relates the world it starts in, the way it ends and the world it
    ends in by [T]. *)
Definition obeys {A} (T : World → Outcome → World → Prop) (m : M A) : Prop :=
  ∀ w, T w (outcome (m w).1) (m w).2.

(** A relation that survives sequencing: doing nothing satisfies it, and
    it composes with whatever comes after a statement that fell through. *)
Class Sequential (T : World → Outcome → World → Prop) : Prop := {
  seq_refl : ∀ w, T w Falls w;
  seq_trans : ∀ w w1 w2 o, T w Falls w1 → T w1 o w2 → T w o w2
}.

(** *** What goes to standard error *)

(** A [return 0] has printed nothing on standard error, a [return 1]
    exactly one line; anything else has printed nothing there. *)
Definition reports (w : World) (o : Outcome) (w' : World) : Prop :=
  match o with
  | Returns c =>
      (c = 0 ∧ w_stderr w' = w_stderr w) ∨
      (c = 1 ∧ ∃ msg, w_stderr w' = w_stderr w ++ [msg])
  | _ => w_stderr w' = w_stderr w
  end.

(** *** The echo of the commands on standard output *)

(** Standard output has one more line for each command invoked: its
    arguments joined by spaces. *)
Definition echoes (w : World) (o : Outcome) (w' : World) : Prop :=
  ∃ cmds, w_cmds w' = w_cmds w ++ cmds ∧
          w_stdout w' = w_stdout w ++ map (String.concat " ") cmds.

(** The only other line [main] prints on standard output: the warning of
    line 195 *)
Definition module_warning (args : Args) (fs : gmap (list string) node) : list string :=
  match a_m args with
  | Some module_path =>
      if Fs.exists_ fs module_path then []
      else ["WARNING: FiberTractMeasurements not found: " +:+ Path.str module_path]
  | None => []
  end.

(** *** Failing tools *)

(** A [CalledProcessError] carries a non-zero status and the command
    invoked last. *)
Definition fails_fast (w : World) (o : Outcome) (w' : World) : Prop :=
  ∃ cmds, w_cmds w' = w_cmds w ++ cmds ∧
    match o with
    | Raises (CalledProcessError rc cmd) => rc ≠ 0 ∧ last cmds = Some cmd
    | _ => True
    end.

(** The filesystem operations never raise [CalledProcessError] or
    [TypeError]. *)
Definition os_error (e : PyExc) : Prop :=
  match e with
  | CalledProcessError _ _ | TypeError => False
  | _ => True
  end.

(** *** Paths a program leaves alone *)

(** The entry at [p], or its absence, is the same before and after. *)
Definition keeps (p : list string) (w : World) (o : Outcome) (w' : World) : Prop :=
  w_fs w' !! p = w_fs w !! p.

(** [p] is neither [root], nor below it, nor above it. *)
Definition outside (root p : list string) : Prop :=
  ¬ root `prefix_of` p ∧ ¬ p `prefix_of` root.

(** The tools leave the entry at [p] alone. *)
Definition tool_keeps (tool : Tool) (p : list string) : Prop :=
  ∀ argv fs, (tool argv fs).1 !! p = fs !! p.

(** A final component that names an entry: [pathlib] drops a [.]
    component and the operating system resolves [..] to the parent
    directory, so neither is the name of a child. *)
Definition plain_name (s : string) : Prop := s ≠ "." ∧ s ≠ "..".

(** The tools leave the entry at [p] alone when run on [cmd]. *)
Definition command_keeps (tool : Tool) (p : list string) (cmd : list string) : Prop :=
  ∀ fs, (tool cmd fs).1 !! p = fs !! p.

(** The entry at [p] is as it was, unless one of the commands invoked in
    between changed it. *)
Definition keeps_unless_tool (tool : Tool) (p : list string)
    (w : World) (o : Outcome) (w' : World) : Prop :=
  ∃ invoked,
    w_cmds w' = w_cmds w ++ invoked ∧
    (Forall (command_keeps tool p) invoked → w_fs w' !! p = w_fs w !! p).

(** [p] is strictly below the directory [d]. *)
Definition below (d p : list string) : Prop := d `prefix_of` p ∧ p ≠ d.

(** *** Filesystems that only grow *)

(** Every entry is still there, with its kind. *)
Definition grows (w : World) (o : Outcome) (w' : World) : Prop := w_fs w ⊆ w_fs w'.

(** *** Regular files a program leaves in place *)

(** A regular file at [p] is still one afterwards. *)
Definition file_kept (p : list string) (w : World) (o : Outcome) (w' : World) : Prop :=
  w_fs w !! p = Some File → w_fs w' !! p = Some File.

(** *** Exceptions that cannot happen *)

(** The statement did not end in a [TypeError]. *)
Definition no_type_error (w : World) (o : Outcome) (w' : World) : Prop :=
  o ≠ Raises TypeError.

(** *** Commands of a given shape *)

(** Every command invoked satisfies [P]. *)
Definition invokes_only (P : list string → Prop) (w : World) (o : Outcome) (w' : World)
  : Prop :=
  ∃ l, w_cmds w' = w_cmds w ++ l ∧ Forall P l.

(** No command was invoked. *)
Definition quiet (w : World) (o : Outcome) (w' : World) : Prop := w_cmds w' = w_cmds w.

(** A command whose first argument is [-j] carries the thread count,
    raised to 1 when [-n] was given a smaller number. *)
Definition threads_clamped (args : Args) (cmd : list string) : Prop :=
  ∀ prog j rest, cmd = prog :: "-j" :: j :: rest → j = pretty (Z.max 1 (a_n args)).

(** ** The schedule of a run *)

(** The commands [m] invokes, whatever the starting world and however
    it ends, form a list satisfying [S]. *)
Definition invokes {A} (S : list (list string) → Prop) (m : M A) : Prop :=
  ∀ w, ∃ l, w_cmds (m w).2 = w_cmds w ++ l ∧ S l.

(** [m] invokes some of the commands of [l], in the order of [l]. *)
Definition within {A} (l : list (list string)) (m : M A) : Prop :=
  invokes (fun invoked => invoked `sublist_of` l) m.

(** [m] can only fall through with a value satisfying [Q]. *)
Definition returns {A} (Q : A → Prop) (m : M A) : Prop :=
  ∀ w a, (m w).1 = Val a → Q a.

(** Three phases: some of [head] in order, then any number of commands
    satisfying [P], then some of [tail] in order. *)
Definition phased (head : list (list string)) (P : list string → Prop)
    (tail : list (list string)) (invoked : list (list string)) : Prop :=
  ∃ h m t, invoked = h ++ m ++ t ∧ h `sublist_of` head ∧ Forall P m ∧ t `sublist_of` tail.

(** The commands of a run, stage by stage, as lines 217-474 build them *)
Module Schedule.

(** [args.n] after lines 175-176 *)
Definition threads (args : Args) : Z :=
  if Z.ltb (a_n args) 1 then 1 else a_n args.

(** [active_input] after line 238 *)
Definition active_input (args : Args) (L : Layout) : list string :=
  match a_t args with
  | Some _ => transformed_tracts_dir L // Path.name (a_i args)
  | None => a_i args
  end.

(** [final_clusters_dir] of line 431 *)
Definition final_clusters_dir (args : Args) (L : Layout) : list string :=
  match a_t args with
  | Some _ => inverse_transformed_dir L
  | None => separated_clusters_dir L
  end.

(** Lines 224-232 *)
Definition harden (args : Args) (L : Layout) : list (list string) :=
  match a_t args with
  | Some t =>
      [ xvfb_wrap args
          (harden_cmd t (Path.parent (a_i args)) (transformed_tracts_dir L) (a_s args)) ]
  | None => []
  end.

(** Lines 244-279 *)
Definition registration (args : Args) (L : Layout) (reg_dir : list string)
  : list (list string) :=
  match a_r args with
  | rig =>
      [ register_cmd "rigid_affine_fast" (active_input args L) reg_dir (registration_dir L) ]
  | nonrig =>
      [ register_cmd "affine" (active_input args L) reg_dir (registration_dir L);
        register_cmd "nonrigid" (Expected.affine_output L) reg_dir (registration_dir L) ]
  end.

(** Lines 288-298 *)
Definition clustering (args : Args) (L : Layout) (fc_dir : list string)
  : list (list string) :=
  [ cluster_cmd (threads args) (Expected.reg_output (a_r args) L) fc_dir
      (initial_clusters_dir L) ].

(** Lines 303-322 *)
Definition outliers (args : Args) (L : Layout) (fc_dir clf : list string)
  : list (list string) :=
  [ remove_outliers_cmd (threads args)
      (initial_clusters_dir L // Expected.fc_case_id (a_r args) L) fc_dir
      (outlier_clusters_dir L);
    assess_cmd clf (Expected.outlier_dir (a_r args) L) ].

(** Lines 326-389 *)
Definition untransforming (args : Args) (L : Layout) : list (list string) :=
  match a_r args with
  | rig =>
      [ xvfb_wrap args
          (inverse_harden_cmd (Expected.tfm_affine L) (Expected.outlier_dir (a_r args) L)
             (transformed_clusters_dir L) (a_s args)) ]
  | nonrig =>
      [ xvfb_wrap args
          (inverse_harden_cmd (Expected.tfm_nonrig L) (Expected.outlier_dir (a_r args) L)
             (Expected.temp_dir L) (a_s args));
        xvfb_wrap args
          (inverse_harden_cmd (Expected.tfm_affine L) (Expected.temp_dir L)
             (transformed_clusters_dir L) (a_s args)) ]
  end.

(** Lines 398-404 *)
Definition separation (L : Layout) : list (list string) :=
  [ separate_cmd (transformed_clusters_dir L) (separated_clusters_dir L) ].

(** Lines 412-429: one hemisphere folder brought back through the
    size-matching transform *)
Definition hemisphere_inverse (args : Args) (L : Layout) (cmd : list string) : Prop :=
  ∃ t name,
    a_t args = Some t ∧
    cmd = xvfb_wrap args
            (inverse_harden_cmd t (separated_clusters_dir L // name)
               (inverse_transformed_dir L // name) (a_s args)).

(** Lines 435-443 *)
Definition aggregation (env : Env) (args : Args) (L : Layout) (fc_dir : list string)
  : list (list string) :=
  [ append_cmd env (final_clusters_dir args L) fc_dir (anatomical_tracts_dir L) ].

(** Lines 445-474 *)
Definition measurements (args : Args) (L : Layout) : list (list string) :=
  match a_m args with
  | Some module_path =>
      if Z.eqb (a_d args) 1 then
        let slicer_cmd := Path.str (a_s args) +:+ " --launch " +:+ Path.str module_path in
        let slicer_cmd :=
          if Z.eqb (a_x args) 1 then "xvfb-run -a " +:+ slicer_cmd else slicer_cmd in
        let final := final_clusters_dir args L in
        [ measure_cmd (final // "tracts_commissural")
            (Expected.hemisphere_csv L "commissural") slicer_cmd;
          measure_cmd (final // "tracts_left_hemisphere")
            (Expected.hemisphere_csv L "left") slicer_cmd;
          measure_cmd (final // "tracts_right_hemisphere")
            (Expected.hemisphere_csv L "right") slicer_cmd;
          measure_cmd (anatomical_tracts_dir L) (Expected.tracts_csv L) slicer_cmd ]
      else []
  | None => []
  end.

(** Everything up to the separation by hemisphere *)
Definition head (args : Args) (L : Layout) (reg_dir fc_dir clf : list string)
  : list (list string) :=
  harden args L ++ registration args L reg_dir ++ clustering args L fc_dir
  ++ outliers args L fc_dir clf ++ untransforming args L ++ separation L.

(** Aggregation and measurements *)
Definition tail (env : Env) (args : Args) (L : Layout) (fc_dir : list string)
  : list (list string) :=
  aggregation env args L fc_dir ++ measurements args L.

(** A command the run can invoke: one of the schedule *)
Definition scheduled (env : Env) (args : Args) (L : Layout)
    (reg_dir fc_dir clf : list string) (cmd : list string) : Prop :=
  cmd ∈ head args L reg_dir fc_dir clf
  ∨ hemisphere_inverse args L cmd
  ∨ cmd ∈ tail env args L fc_dir.

End Schedule.

(** ** The output contract of a run *)

(** The atlas directories and the hemisphere-location file that a run
    starting in [w] resolves (lines 197-198) *)
Definition resolved (env : Env) (args : Args) (w : World)
    (reg_dir fc_dir clf : list string) : Prop :=
  (startup env args w).1 = Val (reg_dir, fc_dir, clf, layout (a_i args) (a_o args)).

(** The Slicer command line handed to the measurement program (lines
    446-448) *)
Definition slicer_cmd (args : Args) (module_path : list string) : string :=
  let slicer_cmd := Path.str (a_s args) +:+ " --launch " +:+ Path.str module_path in
  if Z.eqb (a_x args) 1 then "xvfb-run -a " +:+ slicer_cmd else slicer_cmd.

(** The output contract of a run without size-matching transform, for the
    stages whose output the orchestrator does not look at again: each
    command that the run hands to such a stage's tool, whenever it exits 0,
    leaves that stage's expected output in place.  Nothing is asked of a
    command the configuration does not give rise to. *)
Record honours_outputs (tool : Tool) (env : Env) (args : Args) (L : Layout)
    (reg_dir fc_dir clf : list string) : Prop := {
  ho_affine :
    a_r args = nonrig →
      leaves tool (register_cmd "affine" (a_i args) reg_dir (registration_dir L))
        (Expected.affine_output L);
  ho_cluster :
    leaves tool
      (cluster_cmd (Schedule.threads args) (Expected.reg_output (a_r args) L) fc_dir
         (initial_clusters_dir L))
      (Expected.cluster_output (a_r args) L);
  ho_outliers :
    leaves tool
      (remove_outliers_cmd (Schedule.threads args)
         (initial_clusters_dir L // Expected.fc_case_id (a_r args) L) fc_dir
         (outlier_clusters_dir L))
      (Expected.outlier_output (a_r args) L);
  ho_assess :
    leaves tool (assess_cmd clf (Expected.outlier_dir (a_r args) L))
      (Expected.assess_log (a_r args) L);
  ho_temp :
    a_r args = nonrig →
      leaves tool
        (xvfb_wrap args
           (inverse_harden_cmd (Expected.tfm_nonrig L) (Expected.outlier_dir (a_r args) L)
              (Expected.temp_dir L) (a_s args)))
        (Expected.temp_check L);
  ho_separate :
    leaves tool (separate_cmd (transformed_clusters_dir L) (separated_clusters_dir L))
      (Expected.separate_check L);
  ho_append :
    leaves tool
      (append_cmd env (separated_clusters_dir L) fc_dir (anatomical_tracts_dir L))
      (Expected.append_check L);
  ho_measure :
    a_d args = 1 → ∀ module_path, a_m args = Some module_path →
      leaves tool
        (measure_cmd (separated_clusters_dir L // "tracts_commissural")
           (Expected.hemisphere_csv L "commissural") (slicer_cmd args module_path))
        (Expected.hemisphere_csv L "commissural") ∧
      leaves tool
        (measure_cmd (separated_clusters_dir L // "tracts_left_hemisphere")
           (Expected.hemisphere_csv L "left") (slicer_cmd args module_path))
        (Expected.hemisphere_csv L "left") ∧
      leaves tool
        (measure_cmd (separated_clusters_dir L // "tracts_right_hemisphere")
           (Expected.hemisphere_csv L "right") (slicer_cmd args module_path))
        (Expected.hemisphere_csv L "right") ∧
      leaves tool
        (measure_cmd (anatomical_tracts_dir L) (Expected.tracts_csv L)
           (slicer_cmd args module_path))
        (Expected.tracts_csv L)
}.

(** * Properties *)

(** ** Atlas resolution *)

Lemma first_dir_Some (fs : gmap (list string) node) (root : list string) names d :
  first_dir fs root names = Some d ↔ first_match fs root names d.
Proof.
  unfold first_match. induction names as [|name names IH]; simpl.
  - split; [done|]. intros (i & n & Hi & _). by rewrite lookup_nil in Hi.
  - destruct (Fs.is_dir fs (root // name)) eqn:Hd.
    + split.
      * intros [= <-]. exists 0%nat, name. repeat split; auto. intros j ? Hj. lia.
      * intros (i & n & Hi & -> & Hn & Hmin). destruct i as [|i].
        -- simpl in Hi. by injection Hi as ->.
        -- specialize (Hmin 0%nat name ltac:(lia) eq_refl). congruence.
    + rewrite IH. split.
      * intros (i & n & Hi & -> & Hn & Hmin). exists (S i), n.
        repeat split; auto. intros [|j] n' Hj Hl; simpl in Hl.
        -- by injection Hl as <-.
        -- eapply (Hmin j); [lia|done].
      * intros (i & n & Hi & -> & Hn & Hmin). destruct i as [|i].
        -- simpl in Hi. injection Hi as ->. congruence.
        -- exists i, n. repeat split; auto. intros j n' Hj Hl.
           apply (Hmin (S j) n'); [lia|done].
Qed.

Lemma first_dir_None (fs : gmap (list string) node) (root : list string) names :
  first_dir fs root names = None ↔ none_matches fs root names.
Proof.
  unfold none_matches. induction names as [|name names IH]; simpl.
  - split; [|done]. intros _ n Hn. by apply elem_of_nil in Hn.
  - destruct (Fs.is_dir fs (root // name)) eqn:Hd.
    + split; [done|]. intros H. specialize (H name (list_elem_of_here _ _)). congruence.
    + rewrite IH. split.
      * intros H n [->|Hn]%elem_of_cons; auto.
      * intros H n Hn. apply H. by apply list_elem_of_further.
Qed.

(** The first match is unique: resolution is deterministic. *)
Lemma first_match_unique (fs : gmap (list string) node) (root : list string) names d d' :
  first_match fs root names d → first_match fs root names d' → d = d'.
Proof. rewrite <- !first_dir_Some. congruence. Qed.

(** C6. Atlas resolution never changes the world and is first-match-wins
    over the fixed candidate lists: it returns the earliest registration
    candidate and the earliest clustering candidate that are directories
    under the root, provided the root is a directory and the reference
    artifacts [registration_atlas.vtk], [atlas.p] and [atlas.vtp] are
    regular files inside the chosen directories; in every other case (root
    not a directory, no candidate of one kind, a reference artifact missing
    from the chosen directory) it raises [FileNotFoundError]. *)
Theorem find_atlas_dirs_first_match (root : list string) (w : World) :
  ∃ outcome, _find_atlas_dirs root w = (outcome, w) ∧
    match outcome with
    | Val (reg_dir, fc_dir) =>
        Fs.is_dir (w_fs w) root = true ∧
        first_match (w_fs w) root reg_candidates reg_dir ∧
        first_match (w_fs w) root fc_candidates fc_dir ∧
        Fs.is_file (w_fs w) (reg_dir // "registration_atlas.vtk") = true ∧
        Fs.is_file (w_fs w) (fc_dir // "atlas.p") = true ∧
        Fs.is_file (w_fs w) (fc_dir // "atlas.vtp") = true
    | Raise (FileNotFoundError _) =>
        Fs.is_dir (w_fs w) root = false ∨
        none_matches (w_fs w) root reg_candidates ∨
        none_matches (w_fs w) root fc_candidates ∨
        (∃ reg_dir, first_match (w_fs w) root reg_candidates reg_dir ∧
           Fs.is_file (w_fs w) (reg_dir // "registration_atlas.vtk") = false) ∨
        (∃ fc_dir, first_match (w_fs w) root fc_candidates fc_dir ∧
           (Fs.is_file (w_fs w) (fc_dir // "atlas.p") = false ∨
            Fs.is_file (w_fs w) (fc_dir // "atlas.vtp") = false))
    | _ => False
    end.
Proof.
  unfold _find_atlas_dirs, bind, is_dir, is_file, when, py_raise, ret.
  destruct (Fs.is_dir (w_fs w) root) eqn:Hroot; cbn [negb];
    [|eexists; split; [reflexivity|]; cbn beta iota; auto].
  destruct (first_dir (w_fs w) root reg_candidates) as [reg|] eqn:Hreg;
    [apply first_dir_Some in Hreg
    |apply first_dir_None in Hreg; eexists; split; [reflexivity|]; cbn beta iota; auto].
  destruct (first_dir (w_fs w) root fc_candidates) as [fc|] eqn:Hfc;
    [apply first_dir_Some in Hfc
    |apply first_dir_None in Hfc; eexists; split; [reflexivity|]; cbn beta iota; auto].
  destruct (Fs.is_file (w_fs w) (reg // "registration_atlas.vtk")) eqn:Hra;
    cbn [negb]; [|eexists; split; [reflexivity|]; cbn beta iota; eauto 8].
  destruct (Fs.is_file (w_fs w) (fc // "atlas.p")) eqn:Hp,
           (Fs.is_file (w_fs w) (fc // "atlas.vtp")) eqn:Hv; cbn [negb orb];
    (eexists; split; [reflexivity|]); cbn beta iota; eauto 12.
Qed.

(** Two accepted registration names side by side: the earlier one wins. *)
Example find_atlas_dirs_precedence :
  let fs : gmap (list string) node :=
    <[ ["atlas"; "NABA-RegAtlas"] := Dir ]>
      (<[ ["atlas"; "NABA-RegAtlas"; "registration_atlas.vtk"] := File ]> Sim.fs0) in
  (_find_atlas_dirs ["atlas"] (mkWorld fs [] [] [])).1
  = Val (["atlas"; "ORG-RegAtlas-100HCP"], ["atlas"; "ORG-800FC-100HCP"]).
Proof. vm_compute. reflexivity. Qed.

(** C7. The hemisphere-location file is looked for in the clustering
    atlas directory first and in the orchestrator's [resources] directory
    second; the first of the two that is a regular file is returned, and
    when neither is, the lookup raises [FileNotFoundError] with the
    hemisphere-location message.  The world is left as it was. *)
Theorem pick_cluster_location_file_fallback (fc_dir script_dir : list string) (w : World) :
  let from_atlas := fc_dir // "cluster_hemisphere_location.txt" in
  let fallback := script_dir // "resources" // "cluster_hemisphere_location.txt" in
  _pick_cluster_location_file fc_dir script_dir w =
    (if Fs.is_file (w_fs w) from_atlas then Val from_atlas
     else if Fs.is_file (w_fs w) fallback then Val fallback
     else Raise (FileNotFoundError
                   "cluster_hemisphere_location.txt not found in atlas or resources."),
     w).
Proof.
  simpl. unfold _pick_cluster_location_file, bind, is_file, when, py_raise, ret.
  destruct (Fs.is_file (w_fs w) (fc_dir // _)); [done|].
  by destruct (Fs.is_file (w_fs w) (script_dir // _ // _)).
Qed.

(** ** Subject identifier *)

Lemma stem_of_name_empty (nm : string) : Path.stem_of_name nm = "" → nm = "".
Proof.
  unfold Path.stem_of_name. destruct (Path.rfind "." nm) as [i|]; [|done].
  destruct (Nat.ltb 0 i && _) eqn:Hc; [|done].
  apply andb_true_iff in Hc as [Hi _]. apply Nat.ltb_lt in Hi.
  destruct i as [|i]; [lia|]. by destruct nm.
Qed.

Lemma name_empty (p : list string) : Path.wf p → Path.name p = "" → p = [].
Proof.
  unfold Path.wf, Path.name. intros Hwf Hlast.
  destruct p as [|c p] using rev_ind; [done|].
  rewrite last_last in Hlast. apply Forall_app in Hwf as [_ Hc].
  inversion Hc; subst; congruence.
Qed.

Lemma is_file_root (fs : gmap (list string) node) : Fs.is_file fs [] = false.
Proof. reflexivity. Qed.

(** C8 (as the code has it).  There is no check of the subject
    identifier.  An input whose base name has an empty stem is the root
    directory, so the run stops at the input-file validation: it prints
    [Input file not found: /] on standard error and returns 1, without
    creating any directory or running any command. *)
Theorem main_empty_subject_id (tool : Tool) (env : Env) (args : Args) (w : World) :
  Path.wf (a_i args) →
  Path.stem (a_i args) = "" →
  main tool env args w = (Return 1, add_stderr "Input file not found: /" w).
Proof.
  intros Hwf Hstem. apply stem_of_name_empty, name_empty in Hstem; [|done].
  unfold main, startup. rewrite Hstem. reflexivity.
Qed.

(** The root path as input: the run stops at the input validation. *)
Lemma main_empty_subject_id_witness :
  main (Sim.run Sim.good_rules) Sim.env0
    (mkArgs [] ["out"] ["atlas"] ["opt"; "Slicer"] None rig 1 0 0 None 0) Sim.w0
  = (Return 1, add_stderr "Input file not found: /" Sim.w0).
Proof.
  apply main_empty_subject_id; [by constructor | reflexivity].
Defined.

(** Conversely, an input that passes validation has a non-empty subject
    identifier. *)
Lemma subject_id_nonempty (fs : gmap (list string) node) (input_file output_root : list string) :
  Path.wf input_file →
  Fs.is_file fs input_file = true →
  subject_id (layout input_file output_root) ≠ "".
Proof.
  intros Hwf Hfile Hid. simpl in Hid.
  apply stem_of_name_empty, name_empty in Hid; [|done].
  subst. by rewrite is_file_root in Hfile.
Qed.

(** C8, the claim as stated fails: for the root path the derived subject
    identifier is empty, and the diagnostic is the missing-input one of
    line 180; nothing about the subject identifier is reported. *)
Lemma empty_subject_id_reported_as_missing_input :
  let args := mkArgs [] ["out"] ["atlas"] ["opt"; "Slicer"] None rig 1 0 0 None 0 in
  Path.stem (a_i args) = "" ∧
  main (Sim.run Sim.good_rules) Sim.env0 args Sim.w0
  = (Return 1, mkWorld Sim.fs0 [] [] ["Input file not found: /"]).
Proof. split; reflexivity. Qed.

(** ** The stages one at a time *)

Ltac unfold_py :=
  unfold when, fail_with, _ensure_dir, _run_with_xvfb, _run;
  unfold bind, ret, is_file, is_dir, path_exists, fs_update, fs_read,
    print_out, print_err, subprocess_run, py_return, py_raise;
  cbn [fst snd w_fs w_cmds w_stdout w_stderr negb].

Ltac innermost_scrutinee x :=
  lazymatch x with
  | context [match ?y with _ => _ end] => innermost_scrutinee y
  | negb ?y => innermost_scrutinee y
  | andb ?y _ => innermost_scrutinee y
  | orb ?y _ => innermost_scrutinee y
  | _ => x
  end.

Ltac eqb_to_prop :=
  repeat match goal with
    | H : Z.eqb _ _ = true |- _ => apply Z.eqb_eq in H
    | H : Z.eqb _ _ = false |- _ => apply Z.eqb_neq in H
    end.

(** Case analysis on the next test the program makes. *)
Ltac py_case :=
  cbn [fst snd w_fs w_cmds w_stdout w_stderr negb andb orb];
  lazymatch goal with
  | |- context [match ?x with _ => _ end] =>
      let y := innermost_scrutinee x in
      lazymatch goal with
      | H : y = _ |- _ => rewrite H
      | _ => destruct y eqn:?
      end
  end;
  cbn [fst snd w_fs w_cmds w_stdout w_stderr negb andb orb].

(** C10. With a size-matching transform configured (an existing file) and
    the transformed-tracts directory in place, the first stage runs exactly
    one command, [wm_harden_transform.py -t <transform> <parent directory of
    the input> <transformed-tracts directory> <slicer>] (behind the launcher
    when [-x 1]): the source argument is the directory holding the input
    file, not the file.  A non-zero exit raises; after a zero exit the stage
    succeeds exactly when the file named like the input exists in the
    transformed-tracts directory, and otherwise the run returns 1 with
    [ERROR: Transformed input not found.] *)
Theorem harden_input_submits_parent_dir (tool : Tool) (args : Args) (L : Layout) (w : World)
    (t : list string) (fs1 : gmap (list string) node) :
  a_t args = Some t →
  Fs.is_file (w_fs w) t = true →
  Fs.mkdir_parents (transformed_tracts_dir L) (w_fs w) = inr fs1 →
  let cmd :=
    xvfb_wrap args
      [ "wm_harden_transform.py"; "-t"; Path.str t; Path.str (Path.parent (a_i args));
        Path.str (transformed_tracts_dir L); Path.str (a_s args) ] in
  let done := tool cmd fs1 in
  let transformed := transformed_tracts_dir L // Path.name (a_i args) in
  let w' := mkWorld done.1 (w_cmds w ++ [cmd]) (w_stdout w ++ [String.concat " " cmd])
              (w_stderr w) in
  harden_input tool args L w =
    if negb (Z.eqb done.2 0) then (Raise (CalledProcessError done.2 cmd), w')
    else if Fs.is_file done.1 transformed then (Val transformed, w')
    else (Return 1, add_stderr "ERROR: Transformed input not found." w').
Proof.
  intros Ht Hfile Hmk. unfold harden_input, xvfb_wrap, harden_cmd. rewrite Ht.
  unfold_py. rewrite Hfile. cbn [negb]. rewrite Hmk.
  cbn [w_fs w_cmds w_stdout w_stderr].
  match goal with |- context [tool ?c fs1] => set (cmd := c); set (d := tool cmd fs1) end.
  cbn zeta. destruct (Z.eqb d.2 0); cbn [negb w_fs]; [|done].
  destruct (Fs.is_file d.1 _); reflexivity.
Qed.

(** The forward chain, for comparison: in non-rigid mode the registration
    stage runs at most two commands, the affine registration of the active
    input first and the non-rigid registration of the affine output
    second. *)
Lemma register_nonrig_forward_order (tool : Tool) (args : Args) (L : Layout)
    (reg_dir active_input : list string) (w : World) :
  a_r args = nonrig →
  ∃ invoked,
    w_cmds (register tool args L reg_dir active_input w).2 = w_cmds w ++ invoked ∧
    invoked `sublist_of`
      [ register_cmd "affine" active_input reg_dir (registration_dir L);
        register_cmd "nonrigid" (Expected.affine_output L) reg_dir (registration_dir L) ].
Proof.
  intros Hr. unfold register, Expected.affine_output, Expected.reg_subject_dir.
  rewrite Hr. unfold_py. repeat py_case.
  all: eexists; split;
    [first [symmetry; apply app_nil_r | reflexivity | rewrite <- app_assoc; reflexivity]|].
  all: cbn [app]; repeat first [apply sublist_nil | apply sublist_skip | apply sublist_cons].
Qed.

(** C4. In non-rigid mode the un-transform stage runs at most two
    commands, always in this order: first the inverse of the non-rigid
    transform, from the outlier-removed clusters into the staging directory
    [tmp] under the transformed-clusters directory, then the inverse of the
    affine transform, from that staging directory into the
    transformed-clusters directory itself (each one skipped when its
    [cluster_00800.vtp] is already there).  On a fresh tree, with both
    transform files present and the first command succeeding, both are run. *)
Theorem untransform_nonrig_reverse_order (tool : Tool) (args : Args) (L : Layout)
    (nonrig_subject outlier_dir : list string) (w : World) :
  a_r args = nonrig →
  let tfm_nonrig := nonrig_subject // "output_tractography"
                    // ("itk_txform_" +:+ subject_id L +:+ "_reg.tfm") in
  let tfm_affine := registration_dir L // subject_id L // "output_tractography"
                    // ("itk_txform_" +:+ subject_id L +:+ ".tfm") in
  let transformed_dir := transformed_clusters_dir L in
  let temp_dir := transformed_dir // "tmp" in
  let undo_nonrig :=
    xvfb_wrap args
      [ "wm_harden_transform.py"; "-i"; "-t"; Path.str tfm_nonrig;
        Path.str outlier_dir; Path.str temp_dir; Path.str (a_s args) ] in
  let undo_affine :=
    xvfb_wrap args
      [ "wm_harden_transform.py"; "-i"; "-t"; Path.str tfm_affine;
        Path.str temp_dir; Path.str transformed_dir; Path.str (a_s args) ] in
  ∃ invoked,
    w_cmds (untransform tool args L (Some nonrig_subject) outlier_dir w).2
      = w_cmds w ++ invoked ∧
    invoked `sublist_of` [undo_nonrig; undo_affine] ∧
    ∀ fs1 fs2,
      Fs.mkdir_parents transformed_dir (w_fs w) = inr fs1 →
      Fs.mkdir_parents temp_dir fs1 = inr fs2 →
      Fs.is_file fs1 tfm_nonrig = true →
      Fs.is_file fs1 tfm_affine = true →
      Fs.is_file fs2 (temp_dir // "cluster_00800.vtp") = false →
      (tool undo_nonrig fs2).2 = 0 →
      Fs.is_file (tool undo_nonrig fs2).1 (transformed_dir // "cluster_00800.vtp") = false →
      invoked = [undo_nonrig; undo_affine].
Proof.
  intros Hr. cbn zeta. unfold untransform, inverse_harden_cmd, xvfb_wrap. rewrite Hr.
  unfold_py. repeat py_case.
  all: eexists; split;
    [first [symmetry; apply app_nil_r | reflexivity | rewrite <- app_assoc; reflexivity]|].
  all: split;
    [cbn [app]; repeat first [apply sublist_nil | apply sublist_skip | apply sublist_cons]|].
  all: intros; simplify_eq; eqb_to_prop; try done; congruence.
Qed.

(** ** Which commands a program invokes *)

Section Emits.

Context (tool : Tool) (P : list string → Prop).

Lemma emits_silent {A} (m : M A) :
  (∀ w, w_cmds (m w).2 = w_cmds w) → emits P m.
Proof. intros H w. exists []. by rewrite H, app_nil_r. Qed.

Lemma emits_bind {A B} (m : M A) (k : A → M B) :
  emits P m → (∀ a, emits P (k a)) → emits P (bind m k).
Proof.
  intros Hm Hk w. destruct (Hm w) as (l1 & E1 & F1). unfold bind.
  destruct (m w) as [[a| |] w1]; simpl in *; eauto.
  destruct (Hk a w1) as (l2 & E2 & F2). exists (l1 ++ l2).
  rewrite E2, E1, app_assoc. split; [done|]. by apply Forall_app.
Qed.

Lemma emits_ret {A} (a : A) : emits P (ret a).
Proof. by apply emits_silent. Qed.

Lemma emits_py_return {A} c : emits P (@py_return A c).
Proof. by apply emits_silent. Qed.

Lemma emits_py_raise {A} e : emits P (@py_raise A e).
Proof. by apply emits_silent. Qed.

Lemma emits_is_file p : emits P (is_file p).
Proof. by apply emits_silent. Qed.

Lemma emits_is_dir p : emits P (is_dir p).
Proof. by apply emits_silent. Qed.

Lemma emits_path_exists p : emits P (path_exists p).
Proof. by apply emits_silent. Qed.

Lemma emits_print_out s : emits P (print_out s).
Proof. by apply emits_silent. Qed.

Lemma emits_print_err s : emits P (print_err s).
Proof. by apply emits_silent. Qed.

Lemma emits_fs_update (f : gmap (list string) node → PyExc + gmap (list string) node) :
  emits P (fs_update f).
Proof. apply emits_silent. intros w. unfold fs_update. by destruct (f (w_fs w)). Qed.

Lemma emits_fs_read {A} (f : gmap (list string) node → PyExc + A) : emits P (fs_read f).
Proof. apply emits_silent. intros w. unfold fs_read. by destruct (f (w_fs w)). Qed.

Lemma emits_look {A} (f : World → A) : emits P (fun w => (Val (f w), w)).
Proof. by apply emits_silent. Qed.

Lemma emits_fail_with {A} msg : emits P (@fail_with A msg).
Proof. by apply emits_silent. Qed.

Lemma emits_ensure_dir p : emits P (_ensure_dir p).
Proof. apply emits_fs_update. Qed.

Lemma emits_when b (m : M unit) : emits P m → emits P (when b m).
Proof. destruct b; [done|]. intros _. apply emits_ret. Qed.

Lemma emits_for_each {A} (l : list A) (body : A → M unit) :
  (∀ x, emits P (body x)) → emits P (for_each l body).
Proof.
  intros Hb. induction l as [|x l IH]; simpl; [apply emits_ret|].
  apply emits_bind; auto.
Qed.

Lemma emits_run (cmd : list string) : P cmd → emits P (_run tool cmd).
Proof.
  intros Hc w. exists [cmd]. split; [|by constructor].
  unfold _run, bind, print_out, subprocess_run; simpl.
  by destruct (Z.eqb _ 0).
Qed.

Lemma emits_run_with_xvfb (cmd : list string) (b : bool) :
  P (if b then ["xvfb-run"; "-a"] ++ cmd else cmd) →
  emits P (_run_with_xvfb tool cmd b).
Proof. intros Hc. by apply emits_run. Qed.

End Emits.

Ltac emits_step :=
  first
    [ apply emits_run | apply emits_run_with_xvfb
    | apply emits_fail_with | apply emits_ensure_dir
    | apply emits_bind; [|intros]
    | apply emits_ret | apply emits_py_return | apply emits_py_raise
    | apply emits_is_file | apply emits_is_dir | apply emits_path_exists
    | apply emits_print_out | apply emits_print_err
    | apply emits_fs_update | apply emits_fs_read
    | apply emits_look
    | apply emits_when | apply emits_for_each; intros
    | match goal with
      | |- emits _ (match ?x with _ => _ end) => destruct x
      end ].

(** ** The virtual-display launcher *)

Lemma main_emits_with_xvfb (tool : Tool) (env : Env) (args : Args) :
  a_x args = 1 →
  emits (fun cmd => wrapped_harden cmd ∨ unwrapped_stage env cmd) (main tool env args).
Proof.
  intros Hx.
  unfold main, pipeline, startup, harden_input, register, cluster, remove_outliers,
    untransform, separate, inverse_transform, append_tracts, measure, cleanup,
    cleanup_minimal, cleanup_maximal, clean_registration, clean_outliers,
    clean_transformed, _find_atlas_dirs, _pick_cluster_location_file.
  rewrite Hx. change (Z.eqb 1 1) with true.
  repeat emits_step.
  all: first [ left; eexists; reflexivity
             | right; unfold unwrapped_stage; cbn; eauto 12 ].
Qed.

(** C3 (as the code has it).  With [-x 1], whatever the tools do and
    wherever the run starts, the commands a run invokes are of two kinds
    only: [wm_harden_transform.py] invocations, whose argument vector is
    prefixed with [xvfb-run -a], and invocations of the registration,
    clustering, outlier-removal, hemisphere-assessment, separation,
    aggregation and measurement programs, whose argument vector starts with
    the program itself (a measurement command carries [xvfb-run -a] only
    inside its Slicer command-line argument). *)
Theorem xvfb_wraps_harden_transform_only (tool : Tool) (env : Env) (args : Args) (w : World) :
  a_x args = 1 →
  ∃ invoked,
    w_cmds (main tool env args w).2 = w_cmds w ++ invoked ∧
    Forall (fun cmd => wrapped_harden cmd ∨ unwrapped_stage env cmd) invoked.
Proof. intros Hx. by apply main_emits_with_xvfb. Qed.

(** C3, the claim as stated fails: with [-x 1] the first command of a run
    on a fresh tree is the registration, and its argument vector starts
    with the registration program, not with the launcher. *)
Lemma xvfb_does_not_wrap_registration :
  let args := mkArgs ["data"; "subjectA.vtk"] ["out"] ["atlas"] ["opt"; "Slicer"]
                None rig 4 1 0 None 0 in
  a_x args = 1 ∧
  w_cmds (main (Sim.run Sim.good_rules) Sim.env0 args Sim.w0).2 !! 0%nat
  = Some [ "wm_register_to_atlas_new.py"; "-mode"; "rigid_affine_fast";
           "/data/subjectA.vtk"; "/atlas/ORG-RegAtlas-100HCP/registration_atlas.vtk";
           "/out/subjectA/TractRegistration" ].
Proof. split; [reflexivity|]. vm_compute. reflexivity. Qed.

(** ** Cleanup *)

Lemma shrinking_bind {A B} (m : M A) (k : A → M B) :
  shrinking m → (∀ a, shrinking (k a)) → shrinking (bind m k).
Proof.
  intros Hm Hk w. specialize (Hm w). unfold bind.
  destruct (m w) as [[a| |] w1]; simpl in *; auto.
  etrans; [apply Hk|done].
Qed.

Lemma shrinking_same {A} (m : M A) : (∀ w, w_fs (m w).2 = w_fs w) → shrinking m.
Proof. intros H w. by rewrite H. Qed.

Lemma shrinking_when b (m : M unit) : shrinking m → shrinking (when b m).
Proof. destruct b; [done|]. intros _. by apply shrinking_same. Qed.

Lemma shrinking_for_each {A} (l : list A) (body : A → M unit) :
  (∀ x, shrinking (body x)) → shrinking (for_each l body).
Proof.
  intros Hb. induction l as [|x l IH]; simpl; [by apply shrinking_same|].
  apply shrinking_bind; auto.
Qed.

Lemma shrinking_rmtree p : shrinking (fs_update (Fs.rmtree p)).
Proof.
  intros w. unfold fs_update, Fs.rmtree.
  destruct (Fs.is_dir _ _); simpl; [apply map_filter_subseteq|].
  by destruct (Fs.is_file _ _).
Qed.

Lemma shrinking_unlink p : shrinking (fs_update (Fs.unlink p)).
Proof.
  intros w. unfold fs_update, Fs.unlink.
  destruct (Fs.is_file _ _); simpl; [apply delete_subseteq|].
  by destruct (Fs.is_dir _ _).
Qed.

Lemma shrinking_fs_read {A} (f : gmap (list string) node → PyExc + A) :
  shrinking (fs_read f).
Proof. apply shrinking_same. intros w. unfold fs_read. by destruct (f (w_fs w)). Qed.

Ltac shrinking_step :=
  first
    [ apply shrinking_rmtree | apply shrinking_unlink | apply shrinking_fs_read
    | apply shrinking_bind; [|intros]
    | apply shrinking_when | apply shrinking_for_each; intros
    | by apply shrinking_same
    | match goal with
      | |- shrinking (match ?x with _ => _ end) => destruct x
      end ].

Lemma shrinking_cleanup_minimal L : shrinking (cleanup_minimal L).
Proof. unfold cleanup_minimal. repeat shrinking_step. Qed.

Lemma shrinking_cleanup_maximal L : shrinking (cleanup_maximal L).
Proof.
  unfold cleanup_maximal, clean_registration, clean_outliers, clean_transformed.
  repeat shrinking_step.
Qed.

(** C5. From one and the same world, what is left after the tier-2
    cleanup is included in what is left after the tier-1 cleanup, which is
    included in what was there (tier 0 deletes nothing); this holds even
    when a deletion raises part of the way. *)
Theorem cleanup_tiers_monotone (args : Args) (L : Layout) (w : World) :
  let remaining c := dom (w_fs (cleanup (with_cleanup args c) L w).2) in
  remaining 2 ⊆ remaining 1 ∧ remaining 1 ⊆ remaining 0 ∧ remaining 0 = dom (w_fs w).
Proof.
  cbn zeta. unfold cleanup, with_cleanup; cbn [a_c Z.leb Z.compare Pos.compare Pos.compare_cont].
  unfold when.
  pose proof (shrinking_cleanup_minimal L w) as H1.
  assert (∀ w1, w_fs (cleanup_maximal L w1).2 ⊆ w_fs w1) as H2
    by apply shrinking_cleanup_maximal.
  unfold bind, ret. destruct (cleanup_minimal L w) as [[[]| |] w1]; cbn [fst snd] in *.
  - specialize (H2 w1). destruct (cleanup_maximal L w1) as [[[]| |] w2]; cbn [fst snd] in *.
    all: repeat split; try done; by apply subseteq_dom.
  - repeat split; try done; by apply subseteq_dom.
  - repeat split; try done; by apply subseteq_dom.
Qed.

Lemma bind_Val_inv {A B} (m : M A) (k : A → M B) w b w' :
  bind m k w = (Val b, w') → ∃ a w1, m w = (Val a, w1) ∧ k a w1 = (Val b, w').
Proof. unfold bind. destruct (m w) as [[a| |] w1]; [eauto|done..]. Qed.

(** ** Well-formed filesystems *)

Lemma wf_lookup (fs : gmap (list string) node) p k :
  Fs.wf fs → fs !! p = Some k → Path.wf p ∧ Fs.kind fs (Path.parent p) = Some Dir.
Proof. intros Hwf Hp. exact (Hwf p k Hp). Qed.

Lemma kind_nonroot (fs : gmap (list string) node) p : p ≠ [] → Fs.kind fs p = fs !! p.
Proof. by destruct p. Qed.

(** In a well-formed filesystem everything above an existing path is a
    directory. *)
Lemma wf_ancestor_dir (fs : gmap (list string) node) q k c :
  Fs.wf fs → fs !! q = Some k → c `prefix_of` q → c ≠ q → Fs.kind fs c = Some Dir.
Proof.
  intros Hwf. revert k. induction q as [|x q IH] using rev_ind; intros k Hq Hpre Hne.
  - apply prefix_nil_inv in Hpre. done.
  - destruct (wf_lookup _ _ _ Hwf Hq) as [_ Hpar].
    unfold Path.parent in Hpar. rewrite removelast_last in Hpar.
    destruct Hpre as [r Hr].
    destruct r as [|y r _] using rev_ind; [by rewrite app_nil_r in Hr|].
    rewrite app_assoc in Hr. apply app_inj_tail in Hr as [-> ->].
    destruct r as [|z r].
    + by rewrite app_nil_r in Hpar.
    + destruct c as [|c0 c]; [done|].
      destruct (Fs.kind fs ((c0 :: c) ++ z :: r)) eqn:Hk; [|done].
      rewrite kind_nonroot in Hk by done.
      eapply IH; [done| by eexists |].
      intros E. apply (f_equal (@List.length string)) in E. rewrite length_app in E. simpl in E. lia.
Qed.

Lemma wf_remove_tree (fs : gmap (list string) node) p :
  Fs.wf fs → Fs.wf (Fs.remove_tree p fs).
Proof.
  intros Hwf q k Hq. unfold Fs.remove_tree in *.
  apply map_lookup_filter_Some in Hq as [Hq Hnp]. simpl in Hnp.
  destruct (wf_lookup _ _ _ Hwf Hq) as [Hw Hpar]. split; [done|].
  destruct (Path.parent q) as [|a r] eqn:E; [done|]. simpl in *.
  apply map_lookup_filter_Some. split; [done|]. simpl.
  intros Hpre. apply Hnp. etrans; [done|].
  rewrite <- E. unfold Path.parent.
  destruct q as [|x q _] using rev_ind; [done|].
  rewrite removelast_last. by apply prefix_app_r.
Qed.

Lemma wf_delete_file (fs : gmap (list string) node) p :
  Fs.wf fs → Fs.is_file fs p = true → Fs.wf (delete p fs).
Proof.
  intros Hwf Hf q k Hq.
  apply lookup_delete_Some in Hq as [Hne Hq].
  destruct (wf_lookup _ _ _ Hwf Hq) as [Hw Hpar]. split; [done|].
  destruct (Path.parent q) as [|a r] eqn:E; [done|]. simpl in *.
  rewrite lookup_delete_ne; [done|].
  intros ->. unfold Fs.is_file in Hf. apply bool_decide_eq_true in Hf.
  simpl in Hf. congruence.
Qed.

Lemma keeps_wf_bind {A B} (m : M A) (k : A → M B) :
  keeps_wf m → (∀ a, keeps_wf (k a)) → keeps_wf (bind m k).
Proof.
  intros Hm Hk w Hw. specialize (Hm w Hw). unfold bind.
  destruct (m w) as [[a| |] w1]; simpl in *; auto. by apply Hk.
Qed.

Lemma keeps_wf_same {A} (m : M A) : (∀ w, w_fs (m w).2 = w_fs w) → keeps_wf m.
Proof. intros H w. by rewrite H. Qed.

Lemma keeps_wf_when b (m : M unit) : keeps_wf m → keeps_wf (when b m).
Proof. destruct b; [done|]. intros _. by apply keeps_wf_same. Qed.

Lemma keeps_wf_for_each {A} (l : list A) (body : A → M unit) :
  (∀ x, keeps_wf (body x)) → keeps_wf (for_each l body).
Proof.
  intros Hb. induction l as [|x l IH]; simpl; [by apply keeps_wf_same|].
  apply keeps_wf_bind; auto.
Qed.

Lemma keeps_wf_rmtree p : keeps_wf (fs_update (Fs.rmtree p)).
Proof.
  intros w Hw. unfold fs_update, Fs.rmtree.
  destruct (Fs.is_dir _ _); simpl; [by apply wf_remove_tree|].
  by destruct (Fs.is_file _ _).
Qed.

Lemma keeps_wf_unlink p : keeps_wf (fs_update (Fs.unlink p)).
Proof.
  intros w Hw. unfold fs_update, Fs.unlink.
  destruct (Fs.is_file _ _) eqn:E; simpl; [by apply wf_delete_file|].
  by destruct (Fs.is_dir _ _).
Qed.

Lemma keeps_wf_fs_read {A} (f : gmap (list string) node → PyExc + A) :
  keeps_wf (fs_read f).
Proof. apply keeps_wf_same. intros w. unfold fs_read. by destruct (f (w_fs w)). Qed.

Ltac keeps_wf_step :=
  first
    [ apply keeps_wf_rmtree | apply keeps_wf_unlink | apply keeps_wf_fs_read
    | apply keeps_wf_bind; [|intros]
    | apply keeps_wf_when | apply keeps_wf_for_each; intros
    | by apply keeps_wf_same
    | match goal with
      | |- keeps_wf (match ?x with _ => _ end) => destruct x
      end ].

Lemma keeps_wf_cleanup_minimal L : keeps_wf (cleanup_minimal L).
Proof. unfold cleanup_minimal. repeat keeps_wf_step. Qed.

Lemma keeps_wf_clean_registration L : keeps_wf (clean_registration L).
Proof. unfold clean_registration. repeat keeps_wf_step. Qed.

Lemma shrinking_clean_transformed L : shrinking (clean_transformed L).
Proof. unfold clean_transformed. repeat shrinking_step. Qed.

(** ** The outlier-removed directory under the tier-2 cleanup *)

Lemma elem_of_children (fs : gmap (list string) node) d c :
  c ∈ Fs.children fs d ↔ is_Some (fs !! c) ∧ c ≠ [] ∧ Path.parent c = d.
Proof.
  unfold Fs.children. rewrite list_elem_of_filter, bool_decide_spec.
  rewrite list_elem_of_fmap. split.
  - intros [[? ?] ([p k] & -> & Hin)]. apply elem_of_map_to_list in Hin. simpl. eauto.
  - intros ([k Hk] & ? & ?). split; [done|]. exists (c, k). split; [done|].
    by apply elem_of_map_to_list.
Qed.

Lemma delete_entries_gone (items : list (list string)) (w w' : World) :
  Fs.wf (w_fs w) →
  for_each items delete_entry w = (Val (), w') →
  Fs.wf (w_fs w') ∧ w_fs w' ⊆ w_fs w ∧
  ∀ c q, c ∈ items → c `prefix_of` q → w_fs w' !! q = None.
Proof.
  revert w. induction items as [|c items IH]; intros w Hwf Hrun; simpl in Hrun.
  - unfold ret in Hrun. injection Hrun as <-. split; [done|]. split; [reflexivity|].
    intros c q Hc. by apply elem_of_nil in Hc.
  - unfold bind in Hrun. destruct (delete_entry c w) as [[[]| |] w1] eqn:Hc; try done.
    assert (Fs.wf (w_fs w1) ∧ w_fs w1 ⊆ w_fs w ∧
            ∀ q, c `prefix_of` q → w_fs w1 !! q = None) as (Hwf1 & Hsub1 & Hgone1).
    { unfold delete_entry, bind, is_dir, fs_update in Hc.
      destruct (Fs.is_dir (w_fs w) c) eqn:Hd.
      - unfold Fs.rmtree in Hc. rewrite Hd in Hc. injection Hc as <-. simpl.
        split; [by apply wf_remove_tree|]. split; [apply map_filter_subseteq|].
        intros q Hq. apply map_lookup_filter_None. right. intros k _. simpl. tauto.
      - unfold Fs.unlink in Hc. destruct (Fs.is_file (w_fs w) c) eqn:Hf.
        + injection Hc as <-. simpl.
          split; [by apply wf_delete_file|]. split; [apply delete_subseteq|].
          intros q Hq. destruct (decide (q = c)) as [->|Hne]; [apply lookup_delete_eq|].
          rewrite lookup_delete_ne by done.
          destruct (w_fs w !! q) as [k|] eqn:Hk; [|done].
          pose proof (wf_ancestor_dir _ _ _ _ Hwf Hk Hq ltac:(done)) as Hdir.
          unfold Fs.is_file in Hf. apply bool_decide_eq_true in Hf. congruence.
        + rewrite Hd in Hc. done. }
    destruct (IH w1 Hwf1 Hrun) as (Hwf' & Hsub' & Hgone').
    split; [done|]. split; [by etrans|].
    intros c' q [->|Hin]%elem_of_cons Hq; [|eauto].
    eapply lookup_weaken_None; [|done]. auto.
Qed.

Lemma clean_outliers_empties (L : Layout) (w w' : World) :
  Fs.wf (w_fs w) →
  clean_outliers L w = (Val (), w') →
  w_fs w' ⊆ w_fs w ∧
  ∀ q, outlier_clusters_dir L `prefix_of` q → q ≠ outlier_clusters_dir L →
       w_fs w' !! q = None.
Proof.
  intros Hwf Hrun. set (d := outlier_clusters_dir L) in *.
  assert (w_fs w' ⊆ w_fs w ∧
          ∀ c q, c ∈ Fs.children (w_fs w) d → c `prefix_of` q → w_fs w' !! q = None)
    as [Hsub Hgone].
  { unfold clean_outliers, bind, path_exists, when, fs_read, Fs.iterdir in Hrun.
    fold d in Hrun. cbn [fst snd w_fs] in Hrun.
    destruct (Fs.exists_ (w_fs w) d) eqn:Hex.
    - destruct (Fs.is_dir (w_fs w) d) eqn:Hd.
      + apply (delete_entries_gone _ _ _ Hwf) in Hrun. tauto.
      + by destruct (Fs.is_file (w_fs w) d).
    - injection Hrun as <-. split; [done|]. intros c q Hc Hq.
      apply elem_of_children in Hc as ([k Hk] & Hne & Hpar).
      destruct (wf_lookup _ _ _ Hwf Hk) as [_ Hdir]. rewrite Hpar in Hdir.
      unfold Fs.exists_ in Hex. apply bool_decide_eq_false in Hex.
      rewrite Hdir in Hex. by destruct Hex. }
  split; [done|]. intros q [r ->] Hne.
  destruct r as [|x r]; [by rewrite app_nil_r in Hne|].
  destruct (w_fs w' !! (d ++ x :: r)) as [k|] eqn:Hq; [|done].
  pose proof (lookup_weaken _ _ _ _ Hq Hsub) as Hq0.
  rewrite <- (Hgone (d ++ [x]) (d ++ x :: r)), Hq; [done| |].
  - apply elem_of_children. split; [|split].
    + destruct r as [|y r]; [eauto|].
      assert (Fs.kind (w_fs w) (d ++ [x]) = Some Dir) as Hk.
      { eapply wf_ancestor_dir; [done..| |].
        - exists (y :: r). by rewrite <- app_assoc.
        - intros E. apply (f_equal (@List.length string)) in E. rewrite !length_app in E. simpl in E. lia. }
      rewrite kind_nonroot in Hk by (by destruct d). eauto.
    + by destruct d.
    + unfold Path.parent. by rewrite removelast_last.
  - exists r. by rewrite <- app_assoc.
Qed.

Lemma children_NoDup (fs : gmap (list string) node) d : NoDup (Fs.children fs d).
Proof. unfold Fs.children. apply NoDup_filter, NoDup_fst_map_to_list. Qed.

Lemma siblings_prefix (c c' : list string) :
  c ≠ [] → c' ≠ [] → Path.parent c = Path.parent c' → c `prefix_of` c' → c = c'.
Proof.
  unfold Path.parent. intros Hc Hc' Hpar [r ->].
  destruct r as [|x r _] using rev_ind; [by rewrite app_nil_r|].
  rewrite app_assoc, removelast_last in Hpar.
  destruct c as [|y c _] using rev_ind; [done|].
  rewrite removelast_last in Hpar.
  apply (f_equal (@List.length string)) in Hpar. rewrite !length_app in Hpar.
  simpl in Hpar. lia.
Qed.

Lemma delete_entries_complete (items : list (list string)) (w : World) :
  Fs.wf (w_fs w) →
  NoDup items →
  (∀ c, c ∈ items → is_Some (w_fs w !! c) ∧ c ≠ []) →
  (∀ c c', c ∈ items → c' ∈ items → c `prefix_of` c' → c = c') →
  ∃ w', for_each items delete_entry w = (Val (), w').
Proof.
  revert w. induction items as [|c items IH]; intros w Hwf Hnd Hex Hpre; simpl.
  - by eexists.
  - apply NoDup_cons in Hnd as [Hnin Hnd].
    destruct (Hex c (list_elem_of_here _ _)) as [[k Hk] Hne].
    assert (∃ w1, delete_entry c w = (Val (), w1) ∧ Fs.wf (w_fs w1) ∧
              ∀ c', ¬ c `prefix_of` c' → w_fs w1 !! c' = w_fs w !! c')
      as (w1 & Hrun & Hwf1 & Hsame).
    { unfold delete_entry, bind, is_dir, fs_update.
      destruct (Fs.is_dir (w_fs w) c) eqn:Hd.
      - unfold Fs.rmtree. rewrite Hd. eexists. split; [done|]. simpl.
        split; [by apply wf_remove_tree|]. intros c' Hc'.
        unfold Fs.remove_tree. destruct (w_fs w !! c') as [k'|] eqn:Hk'.
        + by apply map_lookup_filter_Some.
        + apply map_lookup_filter_None. by left.
      - assert (Fs.is_file (w_fs w) c = true) as Hf.
        { unfold Fs.is_dir, Fs.is_file in *. apply bool_decide_eq_false in Hd.
          apply bool_decide_eq_true. rewrite kind_nonroot in * by done.
          rewrite Hk in *. by destruct k. }
        unfold Fs.unlink. rewrite Hf. eexists. split; [done|]. simpl.
        split; [by apply wf_delete_file|]. intros c' Hc'.
        apply lookup_delete_ne. by intros ->. }
    unfold bind. rewrite Hrun. apply IH; [done..| |].
    + intros c' Hc'. destruct (Hex c' (list_elem_of_further _ _ _ Hc')) as [Hs ?].
      split; [|done]. rewrite Hsame; [done|].
      intros Hp. apply Hnin.
      by rewrite (Hpre c c' (list_elem_of_here _ _) (list_elem_of_further _ _ _ Hc') Hp).
    + intros a b Ha Hb. apply Hpre; by apply list_elem_of_further.
Qed.

(** On a well-formed filesystem the pass over the outlier-removed
    directory runs to completion whenever that directory is a directory or
    does not exist. *)
Lemma clean_outliers_completes (L : Layout) (w : World) :
  Fs.wf (w_fs w) →
  Fs.is_file (w_fs w) (outlier_clusters_dir L) = false →
  ∃ w', clean_outliers L w = (Val (), w').
Proof.
  intros Hwf Hnf. unfold clean_outliers, bind, path_exists, when, fs_read, Fs.iterdir.
  cbn [fst snd w_fs]. destruct (Fs.exists_ (w_fs w) (outlier_clusters_dir L)) eqn:Hex;
    [|by eexists].
  assert (Fs.is_dir (w_fs w) (outlier_clusters_dir L) = true) as ->.
  { unfold Fs.exists_, Fs.is_file, Fs.is_dir in *.
    apply bool_decide_eq_true in Hex as [k Hk]. apply bool_decide_eq_false in Hnf.
    apply bool_decide_eq_true. rewrite Hk in *. by destruct k. }
  apply (delete_entries_complete _ w Hwf (children_NoDup _ _)).
  - intros c (? & ? & ?)%elem_of_children. done.
  - intros c c' (? & ? & Hp)%elem_of_children (? & ? & Hp')%elem_of_children.
    apply siblings_prefix; congruence.
Qed.

(** On a well-formed filesystem a tier-2 cleanup that completes leaves
    nothing below the outlier-removed directory. *)
Lemma tier2_leaves_nothing_below (args : Args) (L : Layout) (w w' : World) :
  a_c args = 2 →
  Fs.wf (w_fs w) →
  cleanup args L w = (Val (), w') →
  ∀ q, outlier_clusters_dir L `prefix_of` q → q ≠ outlier_clusters_dir L →
       w_fs w' !! q = None.
Proof.
  intros Hc Hwf Hrun q Hq Hne. unfold cleanup in Hrun. rewrite Hc in Hrun.
  change (Z.leb 1 2) with true in Hrun. change (Z.leb 2 2) with true in Hrun.
  unfold when, cleanup_maximal in Hrun.
  apply bind_Val_inv in Hrun as ([] & w1 & H1 & Hrun).
  apply bind_Val_inv in Hrun as ([] & w2 & H2 & Hrun).
  apply bind_Val_inv in Hrun as (ex & w2' & H2' & Hrun).
  injection H2' as <- <-.
  apply bind_Val_inv in Hrun as ([] & w3 & H3 & Hrun).
  apply bind_Val_inv in Hrun as ([] & w4 & H4 & Hrun).
  pose proof (keeps_wf_cleanup_minimal L w Hwf) as Hwf1. rewrite H1 in Hwf1.
  pose proof (keeps_wf_clean_registration L w1 Hwf1) as Hwf2. rewrite H2 in Hwf2.
  assert (Fs.wf (w_fs w3)) as Hwf3.
  { pose proof (keeps_wf_when (Fs.exists_ (w_fs w2) (initial_clusters_dir L)) _
                  (keeps_wf_rmtree (initial_clusters_dir L)) w2 Hwf2) as H.
    by rewrite H3 in H. }
  apply (clean_outliers_empties _ _ _ Hwf3) in H4 as [_ Hgone].
  pose proof (shrinking_clean_transformed L w4) as Hsub. rewrite Hrun in Hsub.
  eapply lookup_weaken_None; [|done]. auto.
Qed.

(** ** Concrete runs *)

(** A run that ended normally, seen as its value and its final world *)
Lemma completed {A} (r : Res A * World) (a : A) : r.1 = Val a → r = (Val a, r.2).
Proof. destruct r as [? ?]. simpl. by intros ->. Qed.

(** C1, the claim as stated fails, in two ways.  With cleanup tier 1 the
    first run deletes the initial clusters and the transformed clusters, so
    the second run clusters and un-transforms again.  With a size-matching
    transform the first stage has no skip test, so the second run hardens
    the input again.  Both first runs start without an output root, use
    tools that produce every expected output, and return 0. *)
Lemma second_run_invokes_commands :
  let tool := Sim.run Sim.full_rules in
  let first_tier1 := main tool Sim.env0 (with_cleanup Sim.args0 1) Sim.w0 in
  let second_tier1 := main tool Sim.env0 (with_cleanup Sim.args0 1) (after first_tier1) in
  let first_transform := main tool Sim.env0 args_transform Sim.w0 in
  let second_transform := main tool Sim.env0 args_transform (after first_transform) in
  Fs.exists_ Sim.fs0 ["out"] = false ∧
  first_tier1.1 = Return 0 ∧
  second_tier1.1 = Return 0 ∧
  w_cmds second_tier1.2 =
    [ [ "wm_cluster_from_atlas.py"; "-j"; "4";
        "/out/subjectA/TractRegistration/subjectA/output_tractography/subjectA_reg.vtk";
        "/atlas/ORG-800FC-100HCP"; "/out/subjectA/FiberClustering/InitialClusters";
        "-norender" ];
      [ "wm_harden_transform.py"; "-i"; "-t";
        "/out/subjectA/TractRegistration/subjectA/output_tractography/itk_txform_subjectA.tfm";
        "/out/subjectA/FiberClustering/OutlierRemovedClusters/subjectA_reg_outlier_removed";
        "/out/subjectA/FiberClustering/TransformedClusters/subjectA"; "/opt/Slicer" ] ] ∧
  first_transform.1 = Return 0 ∧
  second_transform.1 = Return 0 ∧
  w_cmds second_transform.2 =
    [ [ "wm_harden_transform.py"; "-t"; "/data/size.tfm"; "/data";
        "/out/subjectA/TransformedTracts"; "/opt/Slicer" ] ].
Proof. vm_compute. repeat split; reflexivity. Qed.

(** C2, at the failing input: the aggregation program exits 0 without
    writing [T_UF_right.vtp]; the run invokes it last, prints nothing on
    standard error and returns 0 although the expected output is absent.
    Only the initial transform, the registration and the un-transform stage
    are followed by a check of their output. *)
Lemma missing_aggregate_goes_unreported :
  let r := main (Sim.run silent_append_rules) Sim.env0 Sim.args0 Sim.w0 in
  r.1 = Return 0 ∧
  w_stderr r.2 = [] ∧
  last (w_cmds r.2) =
    Some [ "/usr/bin/python3"; "/opt/naba/wm_append_clusters_to_anatomical_tracts_naba.py";
           "/out/subjectA/FiberClustering/SeparatedClusters"; "/atlas/ORG-800FC-100HCP";
           "/out/subjectA/AnatomicalTracts" ] ∧
  Fs.exists_ (w_fs r.2) ["out"; "subjectA"; "AnatomicalTracts"; "T_UF_right.vtp"] = false.
Proof. vm_compute. repeat split; reflexivity. Qed.

(** The registration stage, by contrast, is re-checked: a registration
    program that exits 0 without writing its output ends the run with
    [ERROR: Registration output not found.] and exit code 1. *)
Lemma missing_registration_is_reported :
  let rules := Sim.mkRule ["wm_register_to_atlas_new.py"] [] [] 0 :: Sim.good_rules in
  let r := main (Sim.run rules) Sim.env0 Sim.args0 Sim.w0 in
  r.1 = Return 1 ∧ w_stderr r.2 = ["ERROR: Registration output not found."].
Proof. vm_compute. split; reflexivity. Qed.

(** C9, the claim as stated fails: after a successful run the assessment
    log sits in the outlier-removal working directory; the same run with
    cleanup tier 2 also returns 0 and leaves neither the log nor the working
    directory. *)
Lemma tier2_deletes_outlier_logs :
  let tool := Sim.run Sim.good_rules in
  let work := ["out"; "subjectA"; "FiberClustering"; "OutlierRemovedClusters";
               "subjectA_reg_outlier_removed"] in
  let log := work ++ ["cluster_location_by_hemisphere.log"] in
  let kept := main tool Sim.env0 Sim.args0 Sim.w0 in
  let cleaned := main tool Sim.env0 (with_cleanup Sim.args0 2) Sim.w0 in
  kept.1 = Return 0 ∧ w_fs kept.2 !! log = Some File ∧
  cleaned.1 = Return 0 ∧ w_fs cleaned.2 !! log = None ∧ w_fs cleaned.2 !! work = None.
Proof. vm_compute. repeat split; reflexivity. Qed.

(** A filesystem operation that succeeded returned [made] of it. *)
Lemma made_ok (r : PyExc + gmap (list string) node) :
  match r with inl _ => false | inr _ => true end = true → r = inr (made r).
Proof. by destruct r. Qed.

(** For [/data/subjectA.vtk] the transform tool is handed [/data]. *)
Lemma harden_input_submits_parent_dir_witness :
  let r := harden_input (Sim.run Sim.full_rules) args_full L0 Sim.w0 in
  r.1 = Val ["out"; "subjectA"; "TransformedTracts"; "subjectA.vtk"] ∧
  w_cmds r.2 = [ [ "xvfb-run"; "-a"; "wm_harden_transform.py"; "-t"; "/data/size.tfm";
                   "/data"; "/out/subjectA/TransformedTracts"; "/opt/Slicer" ] ].
Proof.
  cbv zeta.
  rewrite (harden_input_submits_parent_dir (Sim.run Sim.full_rules) args_full L0 Sim.w0
             ["data"; "size.tfm"]
             (made (Fs.mkdir_parents (transformed_tracts_dir L0) Sim.fs0))).
  - vm_compute. split; reflexivity.
  - reflexivity.
  - vm_compute. reflexivity.
  - apply made_ok. vm_compute. reflexivity.
Defined.

(** On a fresh tree of [subjectA] both commands run, the inverse of the
    non-rigid transform first. *)
Lemma untransform_nonrig_reverse_order_witness :
  a_r args_full = nonrig ∧
  ∃ invoked,
    w_cmds (untransform (Sim.run Sim.full_rules) args_full L0
              (Some Untransform.nonrig_subject) Untransform.outlier_dir
              Untransform.w_before).2 = invoked ∧
    invoked =
      [ [ "xvfb-run"; "-a"; "wm_harden_transform.py"; "-i"; "-t";
          "/out/subjectA/TractRegistration/subjectA_reg/output_tractography/itk_txform_subjectA_reg.tfm";
          "/out/subjectA/FiberClustering/OutlierRemovedClusters/subjectA_reg_reg_outlier_removed";
          "/out/subjectA/FiberClustering/TransformedClusters/subjectA/tmp"; "/opt/Slicer" ];
        [ "xvfb-run"; "-a"; "wm_harden_transform.py"; "-i"; "-t";
          "/out/subjectA/TractRegistration/subjectA/output_tractography/itk_txform_subjectA.tfm";
          "/out/subjectA/FiberClustering/TransformedClusters/subjectA/tmp";
          "/out/subjectA/FiberClustering/TransformedClusters/subjectA"; "/opt/Slicer" ] ].
Proof.
  split; [reflexivity|].
  destruct (untransform_nonrig_reverse_order (Sim.run Sim.full_rules) args_full L0
              Untransform.nonrig_subject Untransform.outlier_dir Untransform.w_before
              eq_refl) as (invoked & Hcmds & _ & Hboth).
  exists invoked. split; [exact Hcmds|].
  set (fs1 := made (Fs.mkdir_parents (transformed_clusters_dir L0)
                      (w_fs Untransform.w_before))).
  set (fs2 := made (Fs.mkdir_parents (transformed_clusters_dir L0 // "tmp") fs1)).
  apply (Hboth fs1 fs2).
  - apply made_ok. vm_compute. reflexivity.
  - apply made_ok. vm_compute. reflexivity.
  - vm_compute. reflexivity.
  - vm_compute. reflexivity.
  - vm_compute. reflexivity.
  - vm_compute. reflexivity.
  - vm_compute. reflexivity.
Defined.

(** The full configuration of [subjectA] runs with [-x 1]. *)
Lemma xvfb_wraps_harden_transform_only_witness :
  ∃ invoked,
    w_cmds (main (Sim.run Sim.full_rules) Sim.env0 args_full Sim.w0).2
      = w_cmds Sim.w0 ++ invoked ∧
    Forall (fun cmd => wrapped_harden cmd ∨ unwrapped_stage Sim.env0 cmd) invoked.
Proof.
  apply (xvfb_wraps_harden_transform_only (Sim.run Sim.full_rules) Sim.env0 args_full Sim.w0).
  reflexivity.
Defined.

(** ** Filesystems that only grow *)

Lemma prefixes_nonroot (p q : list string) : q ∈ Fs.prefixes p → q ≠ [].
Proof.
  destruct p as [|c p]; simpl; [by intros ?%elem_of_nil|].
  intros [->|(r & -> & _)%list_elem_of_fmap]%elem_of_cons; done.
Qed.

Lemma prefixes_self (c : string) (p : list string) : (c :: p) ∈ Fs.prefixes (c :: p).
Proof.
  revert c. induction p as [|d p IH]; intros c; [apply list_elem_of_here|].
  change (Fs.prefixes (c :: d :: p)) with ([c] :: map (cons c) (Fs.prefixes (d :: p))).
  apply list_elem_of_further, list_elem_of_In, in_map, list_elem_of_In, IH.
Qed.

Lemma kind_mono (fs fs' : gmap (list string) node) p k :
  fs ⊆ fs' → Fs.kind fs p = Some k → Fs.kind fs' p = Some k.
Proof. destruct p; [done|]. simpl. intros Hsub Hp. by eapply lookup_weaken. Qed.

Lemma is_file_kind (fs : gmap (list string) node) p :
  Fs.is_file fs p = true ↔ Fs.kind fs p = Some File.
Proof. unfold Fs.is_file. by rewrite bool_decide_eq_true. Qed.

Lemma is_file_mono (fs fs' : gmap (list string) node) p :
  fs ⊆ fs' → Fs.is_file fs p = true → Fs.is_file fs' p = true.
Proof. rewrite !is_file_kind. apply kind_mono. Qed.

Lemma exists_mono (fs fs' : gmap (list string) node) p :
  fs ⊆ fs' → Fs.exists_ fs p = true → Fs.exists_ fs' p = true.
Proof.
  unfold Fs.exists_. rewrite !bool_decide_eq_true.
  intros Hsub [k Hk]. exists k. by eapply kind_mono.
Qed.

Lemma dir_ok_mono (fs fs' : gmap (list string) node) p :
  fs ⊆ fs' → dir_ok fs p → dir_ok fs' p.
Proof.
  intros Hsub Hok. unfold dir_ok in *. eapply Forall_impl; [exact Hok|].
  intros q Hq. simpl in *. by eapply lookup_weaken.
Qed.

Lemma lookup_make_dirs (fs : gmap (list string) node) (l : list (list string)) x :
  foldr (fun q acc => <[q := Dir]> acc) fs l !! x
  = if decide (x ∈ l) then Some Dir else fs !! x.
Proof.
  induction l as [|q l IH]; simpl.
  - destruct (decide (x ∈ [])) as [H%elem_of_nil|]; done.
  - destruct (decide (x ∈ q :: l)) as [Hin|Hnin].
    + destruct (decide (q = x)) as [->|Hne]; [by rewrite lookup_insert_eq|].
      rewrite lookup_insert_ne by done. rewrite IH.
      apply elem_of_cons in Hin as [->|Hin]; [done|]. by rewrite decide_True.
    + rewrite lookup_insert_ne by (intros ->; apply Hnin, list_elem_of_here).
      rewrite IH. rewrite decide_False; [done|].
      intros ?. by apply Hnin, list_elem_of_further.
Qed.

Lemma mkdir_parents_ok (fs fs' : gmap (list string) node) p :
  Fs.mkdir_parents p fs = inr fs' → fs ⊆ fs' ∧ dir_ok fs' p.
Proof.
  unfold Fs.mkdir_parents. destruct (Fs.is_file fs p); [done|].
  destruct (existsb _ _) eqn:Hex; [done|]. intros [= <-].
  assert (∀ q, q ∈ Fs.prefixes p → Fs.is_file fs q = false) as Hnf.
  { intros q Hq. destruct (Fs.is_file fs q) eqn:E; [|done].
    assert (existsb (Fs.is_file fs) (Fs.prefixes p) = true); [|congruence].
    apply existsb_exists. exists q. split; [|done]. by apply list_elem_of_In. }
  split.
  - apply map_subseteq_spec. intros x k Hx. rewrite lookup_make_dirs.
    destruct (decide _) as [Hin|]; [|done].
    apply list_elem_of_filter in Hin as [Hnone Hpre].
    rewrite kind_nonroot in Hnone by (by eapply prefixes_nonroot). congruence.
  - apply Forall_forall. intros q Hq. rewrite lookup_make_dirs.
    destruct (decide _) as [|Hnin]; [done|].
    destruct (fs !! q) as [[]|] eqn:E.
    + rewrite <- kind_nonroot, <- is_file_kind in E by (by eapply prefixes_nonroot).
      rewrite Hnf in E; done.
    + done.
    + destruct Hnin. apply list_elem_of_filter. split; [|done].
      by rewrite kind_nonroot by (by eapply prefixes_nonroot).
Qed.

Lemma mkdir_parents_noop (fs : gmap (list string) node) p :
  dir_ok fs p → Fs.mkdir_parents p fs = inr fs.
Proof.
  intros Hok. unfold Fs.mkdir_parents.
  assert (∀ q, q ∈ Fs.prefixes p → fs !! q = Some Dir) as Hd
    by (by apply Forall_forall).
  assert (Fs.is_file fs p = false) as ->.
  { destruct (Fs.is_file fs p) eqn:E; [|done]. apply is_file_kind in E.
    destruct p as [|c p]; [done|]. simpl in E.
    rewrite Hd in E; [done|]. apply prefixes_self. }
  assert (existsb (Fs.is_file fs) (Fs.prefixes p) = false) as ->.
  { destruct (existsb _ _) eqn:E; [|done].
    apply existsb_exists in E as (q & Hq%list_elem_of_In & Hf).
    apply is_file_kind in Hf. rewrite kind_nonroot in Hf by (by eapply prefixes_nonroot).
    rewrite Hd in Hf; done. }
  assert (filter (fun q => Fs.kind fs q = None) (Fs.prefixes p) = []) as ->; [|done].
  destruct (filter _ _) as [|q l] eqn:E; [done|].
  assert (q ∈ filter (fun q => Fs.kind fs q = None) (Fs.prefixes p)) as Hq
    by (rewrite E; apply list_elem_of_here).
  apply list_elem_of_filter in Hq as [Hnone Hq].
  rewrite kind_nonroot in Hnone by (by eapply prefixes_nonroot).
  rewrite Hd in Hnone; done.
Qed.

(** ** The second run *)

Section SecondRun.

Context (tool : Tool) (env : Env) (args : Args).

Let L := layout (a_i args) (a_o args).

Lemma pipeline_second_run reg_dir fc_dir clf fs cmds out err :
  a_t args = None →
  Z.leb 1 (a_c args) = false →
  checkpointed args L fs →
  pipeline tool env args L reg_dir fc_dir clf (mkWorld fs cmds out err)
  = (Return 0, mkWorld fs cmds out err).
Proof.
  intros Ht Hc Hcp.
  assert (Z.leb 2 (a_c args) = false) as Hc2 by lia.
  destruct Hcp.
  unfold Expected.reg_output, Expected.cluster_output, Expected.outlier_output,
    Expected.assess_log, Expected.outlier_dir, Expected.fc_case_id, Expected.reg_output,
    Expected.affine_output, Expected.nonrig_output, Expected.tfm_affine,
    Expected.tfm_nonrig, Expected.temp_check, Expected.temp_dir,
    Expected.transformed_check, Expected.separate_check, Expected.append_check,
    Expected.tracts_csv, Expected.reg_subject_dir, Expected.nonrig_subject in *.
  pose proof (λ Hd, cp_hemisphere_csv0 Hd "commissural" ltac:(set_solver)) as Hcsv1.
  pose proof (λ Hd, cp_hemisphere_csv0 Hd "left" ltac:(set_solver)) as Hcsv2.
  pose proof (λ Hd, cp_hemisphere_csv0 Hd "right" ltac:(set_solver)) as Hcsv3.
  clear cp_hemisphere_csv0. unfold Expected.hemisphere_csv in *.
  destruct (Z.eqb (a_d args) 1) eqn:Hd;
    [ pose proof Hd as Hd'; apply Z.eqb_eq in Hd';
      specialize (cp_module0 Hd'); specialize (Hcsv1 Hd'); specialize (Hcsv2 Hd');
      specialize (Hcsv3 Hd'); specialize (cp_tracts_csv0 Hd');
      destruct cp_module0 as [module_path Hm]
    | clear Hcsv1 Hcsv2 Hcsv3 cp_tracts_csv0 cp_module0 ].
  all: destruct (a_r args) eqn:Hr;
    [ clear cp_affine0 cp_tfm_nonrig0 cp_temp0 cp_temp_check0
    | specialize (cp_affine0 eq_refl); specialize (cp_tfm_nonrig0 eq_refl);
      specialize (cp_temp0 eq_refl); specialize (cp_temp_check0 eq_refl) ].
  all: repeat match goal with H : dir_ok _ _ |- _ => apply mkdir_parents_noop in H end.
  all: unfold pipeline, harden_input, register, cluster, remove_outliers, untransform,
    separate, inverse_transform, append_tracts, measure, cleanup.
  all: rewrite ?Ht, ?Hc, ?Hc2, ?Hd, ?Hr, ?Hm; cbn [for_each]; unfold_py.
  all: repeat py_case.
  all: reflexivity.
Qed.

Lemma startup_second_run fs cmds out err :
  checkpointed args L fs →
  ∃ r out', startup env args (mkWorld fs cmds out err) = (r, mkWorld fs cmds out' err) ∧
    ((∃ reg_dir fc_dir clf, r = Val (reg_dir, fc_dir, clf, L)) ∨
     (∃ msg, r = Raise (FileNotFoundError msg))).
Proof.
  intros Hcp. destruct Hcp. clear - cp_input0 cp_slicer0 cp_module0 cp_root0 cp_case0.
  apply mkdir_parents_noop in cp_root0, cp_case0.
  assert ((Z.eqb (a_d args) 1 && negb (bool_decide (is_Some (a_m args)))) = false) as Hdm.
  { destruct (Z.eqb (a_d args) 1) eqn:Hd; [|done]. apply Z.eqb_eq in Hd.
    by rewrite (bool_decide_eq_true_2 _ (cp_module0 Hd)). }
  unfold startup, _find_atlas_dirs, _pick_cluster_location_file.
  rewrite Hdm. fold L. unfold_py.
  repeat py_case.
  all: eexists _, _; (split; [reflexivity|]); eauto 6.
Qed.

Lemma main_second_run fs cmds out err :
  a_t args = None →
  Z.leb 1 (a_c args) = false →
  checkpointed args L fs →
  ∃ r out', main tool env args (mkWorld fs cmds out err) = (r, mkWorld fs cmds out' err) ∧
    (r = Return 0 ∨ ∃ msg, r = Raise (FileNotFoundError msg)).
Proof.
  intros Ht Hc Hcp.
  destruct (startup_second_run fs cmds out err Hcp) as (r & out' & Hs & Hr).
  unfold main, bind. rewrite Hs.
  destruct Hr as [(reg_dir & fc_dir & clf & ->)|(msg & ->)].
  - rewrite pipeline_second_run by done. eexists _, _. split; [reflexivity|]. by left.
  - eexists _, _. split; [reflexivity|]. eauto.
Qed.

End SecondRun.

(** ** The first run *)

Ltac learn_fs :=
  repeat match goal with
    | H : Fs.mkdir_parents ?p ?a = inr ?b |- _ =>
        lazymatch goal with
        | _ : dir_ok b p |- _ => fail
        | _ => destruct (mkdir_parents_ok _ _ _ H)
        end
    end;
  eqb_to_prop.

Ltac solve_sub :=
  solve [ repeat first
            [ reflexivity
            | eassumption
            | match goal with
              | Hadds : tool_adds ?tool |- _ ⊆ (?tool ?c ?a).1 =>
                  etrans; [|apply (Hadds c a)]
              end
            | etrans; [|eassumption] ] ].

Ltac solve_fact :=
  first
    [ eassumption
    | reflexivity
    | solve_sub
    | match goal with
      | H : Fs.is_file ?a ?p = true |- Fs.is_file ?b ?p = true =>
          apply (is_file_mono a b p); [solve_sub | exact H]
      | H : Fs.exists_ ?a ?p = true |- Fs.exists_ ?b ?p = true =>
          apply (exists_mono a b p); [solve_sub | exact H]
      | H : dir_ok ?a ?p |- dir_ok ?b ?p =>
          apply (dir_ok_mono a b p); [solve_sub | exact H]
      end ].

(** Use an output contract [Hl] for every successful invocation in sight. *)
Ltac learn_output tool Hl :=
  repeat match goal with
    | H : (tool ?c ?fs).2 = 0 |- _ =>
        first [ pose proof (Hl fs H) | pose proof (Hl _ fs H)
              | pose proof (Hl _ _ fs H) | pose proof (Hl _ _ _ fs H) ];
        clear H
    end.

Ltac expected_unfold :=
  unfold Expected.cluster_output, Expected.outlier_output, Expected.assess_log,
    Expected.outlier_dir, Expected.fc_case_id, Expected.reg_output,
    Expected.affine_output, Expected.nonrig_output, Expected.tfm_affine,
    Expected.tfm_nonrig, Expected.temp_check, Expected.temp_dir,
    Expected.transformed_check, Expected.separate_check, Expected.append_check,
    Expected.tracts_csv, Expected.hemisphere_csv, Expected.reg_subject_dir,
    Expected.nonrig_subject in *.

Section FirstRun.

Context (tool : Tool) (env : Env) (args : Args).

Let L := layout (a_i args) (a_o args).

Context (Hadds : tool_adds tool).

Lemma startup_ok :
  stage_ok (startup env args) (fun '(_, _, _, L') fs =>
    L' = L ∧
    Fs.is_file fs (a_i args) = true ∧
    Fs.exists_ fs (a_s args) = true ∧
    (a_d args = 1 → is_Some (a_m args)) ∧
    dir_ok fs (a_o args) ∧
    dir_ok fs (output_case L)).
Proof.
  intros w. unfold startup, _find_atlas_dirs, _pick_cluster_location_file.
  fold L. unfold_py. repeat py_case.
  all: try done.
  all: learn_fs.
  all: repeat split; try solve_fact.
  all: intros; first [by eauto | congruence].
Qed.

Lemma harden_input_ok :
  a_t args = None →
  stage_ok (harden_input tool args L) (fun active_input _ => active_input = a_i args).
Proof. intros Ht w. unfold harden_input. rewrite Ht. by unfold_py. Qed.

Lemma register_ok reg_dir active_input :
  (a_r args = nonrig →
      leaves tool (register_cmd "affine" active_input reg_dir (registration_dir L))
        (Expected.affine_output L)) →
  stage_ok (register tool args L reg_dir active_input) (fun '(reg_output, nonrig_subject) fs =>
    reg_output = Expected.reg_output (a_r args) L ∧
    nonrig_subject = match a_r args with
                     | rig => None
                     | nonrig => Some (Expected.nonrig_subject L)
                     end ∧
    dir_ok fs (registration_dir L) ∧
    Fs.is_file fs (Expected.reg_output (a_r args) L) = true ∧
    (a_r args = nonrig → Fs.is_file fs (Expected.affine_output L) = true)).
Proof.
  intros Haffine w. unfold register.
  unfold Expected.reg_output, Expected.affine_output, Expected.nonrig_output,
    Expected.reg_subject_dir, Expected.nonrig_subject in *.
  unfold_py. repeat py_case.
  all: try done.
  all: learn_fs.
  all: try specialize (Haffine eq_refl).
  all: learn_output tool Haffine.
  all: repeat split; intros; first [solve_fact | discriminate].
Qed.

Lemma cluster_ok n fc_dir :
  leaves tool
    (cluster_cmd n (Expected.reg_output (a_r args) L) fc_dir (initial_clusters_dir L))
    (Expected.cluster_output (a_r args) L) →
  stage_ok (cluster tool n L fc_dir (Expected.reg_output (a_r args) L)) (fun fc_case_id fs =>
    fc_case_id = Expected.fc_case_id (a_r args) L ∧
    dir_ok fs (initial_clusters_dir L) ∧
    Fs.is_file fs (Expected.cluster_output (a_r args) L) = true).
Proof.
  intros Hl w. unfold cluster. expected_unfold.
  unfold_py. repeat py_case.
  all: try done.
  all: learn_fs; learn_output tool Hl.
  all: repeat split; intros; first [solve_fact | discriminate].
Qed.

Lemma remove_outliers_ok n fc_dir clf :
  leaves tool
    (remove_outliers_cmd n (initial_clusters_dir L // Expected.fc_case_id (a_r args) L)
       fc_dir (outlier_clusters_dir L))
    (Expected.outlier_output (a_r args) L) →
  leaves tool (assess_cmd clf (Expected.outlier_dir (a_r args) L))
    (Expected.assess_log (a_r args) L) →
  stage_ok (remove_outliers tool n L fc_dir clf (Expected.fc_case_id (a_r args) L))
    (fun outlier_dir fs =>
       outlier_dir = Expected.outlier_dir (a_r args) L ∧
       dir_ok fs (outlier_clusters_dir L) ∧
       Fs.is_file fs (Expected.outlier_output (a_r args) L) = true ∧
       Fs.is_file fs (Expected.assess_log (a_r args) L) = true).
Proof.
  intros Hl1 Hl2 w. unfold remove_outliers. expected_unfold.
  unfold_py. repeat py_case.
  all: try done.
  all: learn_fs.
  all: repeat match goal with
         | H : (tool (remove_outliers_cmd _ _ _ _) ?fs).2 = 0 |- _ =>
             pose proof (Hl1 fs H); clear H
         | H : (tool (assess_cmd _ _) ?fs).2 = 0 |- _ =>
             pose proof (Hl2 fs H); clear H
         end.
  all: repeat split; intros; first [solve_fact | discriminate].
Qed.

Lemma untransform_ok :
  (a_r args = nonrig →
      leaves tool
        (xvfb_wrap args
           (inverse_harden_cmd (Expected.tfm_nonrig L) (Expected.outlier_dir (a_r args) L)
              (Expected.temp_dir L) (a_s args)))
        (Expected.temp_check L)) →
  stage_ok
    (untransform tool args L
       (match a_r args with
        | rig => None
        | nonrig => Some (Expected.nonrig_subject L)
        end)
       (Expected.outlier_dir (a_r args) L))
    (fun transformed_dir fs =>
       transformed_dir = transformed_clusters_dir L ∧
       dir_ok fs (transformed_clusters_dir L) ∧
       Fs.is_file fs (Expected.tfm_affine L) = true ∧
       (a_r args = nonrig → Fs.is_file fs (Expected.tfm_nonrig L) = true) ∧
       (a_r args = nonrig → dir_ok fs (Expected.temp_dir L)) ∧
       (a_r args = nonrig → Fs.is_file fs (Expected.temp_check L) = true) ∧
       Fs.is_file fs (Expected.transformed_check L) = true).
Proof.
  intros Hl w. unfold untransform, xvfb_wrap in *. expected_unfold.
  unfold_py. repeat py_case.
  all: try done.
  all: learn_fs.
  all: try specialize (Hl eq_refl).
  all: repeat match goal with
         | H : (tool (_ ++ inverse_harden_cmd _ _ (_ // "tmp") _) ?fs).2 = 0 |- _ =>
             pose proof (Hl fs H); clear H
         | H : (tool (inverse_harden_cmd _ _ (_ // "tmp") _) ?fs).2 = 0 |- _ =>
             pose proof (Hl fs H); clear H
         end.
  all: repeat split; intros; first [solve_fact | discriminate].
Qed.

Lemma separate_ok :
  leaves tool (separate_cmd (transformed_clusters_dir L) (separated_clusters_dir L))
    (Expected.separate_check L) →
  stage_ok (separate tool L (transformed_clusters_dir L)) (fun _ fs =>
    dir_ok fs (separated_clusters_dir L) ∧
    Fs.is_file fs (Expected.separate_check L) = true).
Proof.
  intros Hl w. unfold separate. expected_unfold.
  unfold_py. repeat py_case.
  all: try done.
  all: learn_fs; learn_output tool Hl.
  all: repeat split; intros; first [solve_fact | discriminate].
Qed.

Lemma inverse_transform_ok :
  a_t args = None →
  stage_ok (inverse_transform tool args L) (fun final_clusters_dir _ =>
    final_clusters_dir = separated_clusters_dir L).
Proof. intros Ht w. unfold inverse_transform. rewrite Ht. by unfold_py. Qed.

Lemma append_tracts_ok fc_dir :
  leaves tool
    (append_cmd env (separated_clusters_dir L) fc_dir (anatomical_tracts_dir L))
    (Expected.append_check L) →
  stage_ok (append_tracts tool env L fc_dir (separated_clusters_dir L)) (fun _ fs =>
    dir_ok fs (anatomical_tracts_dir L) ∧
    Fs.is_file fs (Expected.append_check L) = true).
Proof.
  intros Hl w. unfold append_tracts. expected_unfold.
  unfold_py. repeat py_case.
  all: try done.
  all: learn_fs; learn_output tool Hl.
  all: repeat split; intros; first [solve_fact | discriminate].
Qed.

Lemma measure_ok :
  (a_d args = 1 → ∀ module_path, a_m args = Some module_path →
     leaves tool
       (measure_cmd (separated_clusters_dir L // "tracts_commissural")
          (Expected.hemisphere_csv L "commissural") (slicer_cmd args module_path))
       (Expected.hemisphere_csv L "commissural") ∧
     leaves tool
       (measure_cmd (separated_clusters_dir L // "tracts_left_hemisphere")
          (Expected.hemisphere_csv L "left") (slicer_cmd args module_path))
       (Expected.hemisphere_csv L "left") ∧
     leaves tool
       (measure_cmd (separated_clusters_dir L // "tracts_right_hemisphere")
          (Expected.hemisphere_csv L "right") (slicer_cmd args module_path))
       (Expected.hemisphere_csv L "right") ∧
     leaves tool
       (measure_cmd (anatomical_tracts_dir L) (Expected.tracts_csv L)
          (slicer_cmd args module_path))
       (Expected.tracts_csv L)) →
  stage_ok (measure tool args L (separated_clusters_dir L)) (fun _ fs =>
    (a_d args = 1 → ∀ name, name ∈ ["commissural"; "left"; "right"] →
       Fs.is_file fs (Expected.hemisphere_csv L name) = true) ∧
    (a_d args = 1 → Fs.is_file fs (Expected.tracts_csv L) = true)).
Proof.
  intros Hl w. unfold measure, slicer_cmd in *. expected_unfold. cbn [for_each].
  unfold_py. repeat py_case.
  all: try done.
  all: learn_fs.
  all: try (destruct (Hl ltac:(assumption) _ eq_refl) as (Hl1 & Hl2 & Hl3 & Hl4);
            learn_output tool Hl1; learn_output tool Hl2;
            learn_output tool Hl3; learn_output tool Hl4).
  all: repeat split; intros.
  all: repeat match goal with
         | H : _ ∈ _ :: _ |- _ => apply elem_of_cons in H as [->|H]
         | H : _ ∈ [] |- _ => by apply elem_of_nil in H
         end.
  all: first [solve_fact | congruence].
Qed.

Lemma bind_Return0_inv {A B} (m : M A) (k : A → M B) Q w w' :
  stage_ok m Q →
  bind m k w = (Return 0, w') →
  ∃ a w1, w_fs w ⊆ w_fs w1 ∧ Q a (w_fs w1) ∧ k a w1 = (Return 0, w').
Proof.
  intros Hok. specialize (Hok w). unfold bind.
  destruct (m w) as [[a|c|e] w1]; [|by intros [= -> _]|done].
  destruct Hok. eauto.
Qed.

Lemma bind_Return0_inv_eq {A B} (m : M A) (k : A → M B) Q w w' :
  stage_ok m Q →
  bind m k w = (Return 0, w') →
  ∃ a w1, (m w).1 = Val a ∧ w_fs w ⊆ w_fs w1 ∧ Q a (w_fs w1) ∧ k a w1 = (Return 0, w').
Proof.
  intros Hok. specialize (Hok w). unfold bind.
  destruct (m w) as [[a|c|e] w1]; [|by intros [= -> _]|done].
  destruct Hok. eauto 10.
Qed.

Lemma main_first_run (w0 w1 : World) :
  (∀ reg_dir fc_dir clf,
      resolved env args w0 reg_dir fc_dir clf →
      honours_outputs tool env args L reg_dir fc_dir clf) →
  a_t args = None →
  Z.leb 1 (a_c args) = false →
  main tool env args w0 = (Return 0, w1) →
  checkpointed args L (w_fs w1).
Proof.
  intros Hout Ht Hc Hrun.
  assert (Z.leb 2 (a_c args) = false) as Hc2 by lia.
  unfold main in Hrun.
  pose proof (λ reg_dir fc_dir clf, Hout reg_dir fc_dir clf) as Hres.
  unfold resolved in Hres.
  apply (bind_Return0_inv_eq _ _ _ _ _ startup_ok) in Hrun
    as ([[[reg_dir fc_dir] clf] L'] & wa & Hstart & Ha & (-> & ? & ? & ? & ? & ?) & Hrun).
  destruct (Hres reg_dir fc_dir clf Hstart).
  unfold pipeline in Hrun.
  apply (bind_Return0_inv _ _ _ _ _ (harden_input_ok Ht)) in Hrun
    as (active_input & wb & Hb & -> & Hrun).
  apply (bind_Return0_inv _ _ _ _ _ (register_ok _ _ ho_affine0)) in Hrun
    as ([reg_output nonrig_subject] & wc & Hcc & (-> & -> & ? & ? & ?) & Hrun).
  apply (bind_Return0_inv _ _ _ _ _ (cluster_ok _ _ ho_cluster0)) in Hrun
    as (fc_case_id & wd & Hd & (-> & ? & ?) & Hrun).
  apply (bind_Return0_inv _ _ _ _ _ (remove_outliers_ok _ _ _ ho_outliers0 ho_assess0))
    in Hrun as (outlier_dir & we & He & (-> & ? & ? & ?) & Hrun).
  apply (bind_Return0_inv _ _ _ _ _ (untransform_ok ho_temp0)) in Hrun
    as (transformed_dir & wf & Hf & (-> & ? & ? & ? & ? & ? & ?) & Hrun).
  apply (bind_Return0_inv _ _ _ _ _ (separate_ok ho_separate0)) in Hrun
    as ([] & wg & Hg & (? & ?) & Hrun).
  apply (bind_Return0_inv _ _ _ _ _ (inverse_transform_ok Ht)) in Hrun
    as (final_clusters_dir & wh & Hh & -> & Hrun).
  apply (bind_Return0_inv _ _ _ _ _ (append_tracts_ok _ ho_append0)) in Hrun
    as ([] & wi & Hi & (? & ?) & Hrun).
  apply (bind_Return0_inv _ _ _ _ _ (measure_ok ho_measure0)) in Hrun
    as ([] & wj & Hj & (? & ?) & Hrun).
  unfold cleanup in Hrun. rewrite Hc, Hc2 in Hrun.
  unfold when, bind, ret, py_return in Hrun. injection Hrun as <-.
  split; intros;
    repeat match goal with
      | H : ?P → _, HP : ?P |- _ => specialize (H HP)
      end;
    solve_fact.
Qed.

End FirstRun.

(** C1 (as the code has it).  Without a size-matching transform and with
    cleanup tier 0, if the tools only add to the filesystem and every
    command that the run hands to a stage whose output is not inspected
    again leaves, whenever it exits 0, the expected output of that stage in
    place, then after a first run that returned 0 a second run with the same
    configuration invokes no command at all and leaves the filesystem as it
    is; it returns 0 again, unless the atlas resolution, which is repeated
    on the grown filesystem, raises [FileNotFoundError]. *)
Theorem second_run_invokes_nothing (tool : Tool) (env : Env) (args : Args) (w0 w1 : World) :
  a_t args = None →
  a_c args = 0 →
  tool_adds tool →
  (∀ reg_dir fc_dir clf,
      resolved env args w0 reg_dir fc_dir clf →
      honours_outputs tool env args (layout (a_i args) (a_o args)) reg_dir fc_dir clf) →
  main tool env args w0 = (Return 0, w1) →
  let second := main tool env args w1 in
  w_cmds second.2 = w_cmds w1 ∧
  w_fs second.2 = w_fs w1 ∧
  (second.1 = Return 0 ∨ ∃ msg, second.1 = Raise (FileNotFoundError msg)).
Proof.
  intros Ht Hc Hadds Hout Hfirst.
  assert (Z.leb 1 (a_c args) = false) as Hc1 by (by rewrite Hc).
  pose proof (main_first_run tool env args Hadds w0 w1 Hout Ht Hc1 Hfirst) as Hcp.
  destruct w1 as [fs cmds out err].
  destruct (main_second_run tool env args fs cmds out err Ht Hc1 Hcp)
    as (r & out' & -> & Hr).
  done.
Qed.

(** ** The simulated tools honour the contract *)

Lemma create_file_grows (p : list string) (fs : gmap (list string) node) :
  fs ⊆ Sim.create_file p fs.
Proof.
  unfold Sim.create_file.
  destruct (Fs.mkdir_parents _ _) as [|fs'] eqn:Hmk; [done|].
  apply mkdir_parents_ok in Hmk as [Hsub _].
  destruct (Fs.exists_ fs' p) eqn:Hex; [done|].
  etrans; [done|]. apply insert_subseteq.
  unfold Fs.exists_ in Hex. apply bool_decide_eq_false in Hex.
  destruct p as [|c p]; [by destruct Hex|]. simpl in Hex.
  by apply eq_None_not_Some.
Qed.

Lemma sim_adds (rules : list Sim.Rule) : tool_adds (Sim.run rules).
Proof.
  intros argv fs. unfold Sim.run. destruct (find _ _) as [r|]; [|done]. simpl.
  induction (Sim.sr_creates r) as [|p l IH]; simpl; [done|].
  etrans; [done|]. apply create_file_grows.
Qed.

Lemma sim_leaves (rules : list Sim.Rule) (cmd out : list string) (r : Sim.Rule) :
  find (Sim.matches (Sim.behind_launcher cmd)) rules = Some r →
  out ∈ Sim.sr_creates r →
  leaves (Sim.run rules) cmd out.
Proof.
  intros Hfind Hin fs. unfold Sim.run. rewrite Hfind. simpl.
  destruct (Z.eqb_spec (Sim.sr_status r) 0); [|done].
  destruct (forallb _ _) eqn:Hall; [|done]. intros _.
  rewrite forallb_forall in Hall. by apply Hall, list_elem_of_In.
Qed.

Lemma full_rules_honour_outputs (reg_dir fc_dir clf : list string) :
  resolved Sim.env0 args_nonrig Sim.w0 reg_dir fc_dir clf →
  honours_outputs (Sim.run Sim.full_rules) Sim.env0 args_nonrig
    (layout (a_i args_nonrig) (a_o args_nonrig)) reg_dir fc_dir clf.
Proof.
  unfold resolved. intros Hres. vm_compute in Hres. injection Hres as <- <- <-.
  split; intros; simplify_eq/=; repeat split.
  all: eapply sim_leaves; [reflexivity|]; vm_compute; set_solver.
Qed.

(** A run that executed [return c], seen as its exit code and final world *)
Lemma returned {A} (r : Res A * World) (c : Z) : r.1 = Return c → r = (Return c, r.2).
Proof. destruct r as [? ?]. simpl. by intros ->. Qed.

(** Non-rigid registration with the launcher and the measurements, no
    transform, tier 0: the second run of [subjectA] invokes nothing. *)
Lemma second_run_invokes_nothing_witness :
  let tool := Sim.run Sim.full_rules in
  let first := main tool Sim.env0 args_nonrig Sim.w0 in
  let second := main tool Sim.env0 args_nonrig first.2 in
  first.1 = Return 0 ∧
  w_cmds second.2 = w_cmds first.2 ∧
  w_fs second.2 = w_fs first.2 ∧
  (second.1 = Return 0 ∨ ∃ msg, second.1 = Raise (FileNotFoundError msg)).
Proof.
  cbv zeta. split; [vm_compute; reflexivity|].
  apply (second_run_invokes_nothing (Sim.run Sim.full_rules) Sim.env0 args_nonrig Sim.w0).
  - reflexivity.
  - reflexivity.
  - apply sim_adds.
  - apply full_rules_honour_outputs.
  - apply returned. vm_compute. reflexivity.
Defined.

(** * Further properties of the orchestrator *)

(** ** Relations that survive sequencing *)

Section Obeys.

Context (T : World → Outcome → World → Prop) `{!Sequential T}.

Lemma obeys_bind_with {A B} (Q : A → Prop) (m : M A) (k : A → M B) :
  obeys T m → (∀ w a, (m w).1 = Val a → Q a) → (∀ a, Q a → obeys T (k a)) →
  obeys T (bind m k).
Proof.
  intros Hm HQ Hk w. specialize (Hm w). specialize (HQ w). unfold bind.
  destruct (m w) as [[a| |] w1]; simpl in *; auto.
  eapply seq_trans; [exact Hm|]. by apply Hk, HQ.
Qed.

Lemma obeys_bind {A B} (m : M A) (k : A → M B) :
  obeys T m → (∀ a, obeys T (k a)) → obeys T (bind m k).
Proof. intros Hm Hk. apply (obeys_bind_with (fun _ => True)); auto. Qed.

Lemma obeys_pure {A} (m : M A) : (∀ w, ∃ a, m w = (Val a, w)) → obeys T m.
Proof. intros H w. destruct (H w) as [a ->]. apply seq_refl. Qed.

Lemma obeys_ret {A} (a : A) : obeys T (ret a).
Proof. apply obeys_pure. by eexists. Qed.

Lemma obeys_is_file p : obeys T (is_file p).
Proof. apply obeys_pure. by eexists. Qed.

Lemma obeys_is_dir p : obeys T (is_dir p).
Proof. apply obeys_pure. by eexists. Qed.

Lemma obeys_path_exists p : obeys T (path_exists p).
Proof. apply obeys_pure. by eexists. Qed.

Lemma obeys_look {A} (f : World → A) : obeys T (fun w => (Val (f w), w)).
Proof. apply obeys_pure. by eexists. Qed.

Lemma obeys_when b (m : M unit) : obeys T m → obeys T (when b m).
Proof. destruct b; [done|]. intros _. apply obeys_ret. Qed.

Lemma obeys_for_each {A} (l : list A) (body : A → M unit) :
  (∀ x, x ∈ l → obeys T (body x)) → obeys T (for_each l body).
Proof.
  induction l as [|x l IH]; intros Hb; simpl; [apply obeys_ret|].
  apply obeys_bind; [apply Hb; left|]. intros _. apply IH. intros y Hy. apply Hb. by right.
Qed.

Lemma obeys_fs_read {A} (f : gmap (list string) node → PyExc + A) :
  (∀ w e, T w (Raises e) w) → obeys T (fs_read f).
Proof.
  intros Hr w. unfold fs_read. destruct (f (w_fs w)); simpl; [apply Hr|apply seq_refl].
Qed.

End Obeys.

(** The rule for the statement at hand *)
Ltac obeys_rule :=
  lazymatch goal with
  | |- obeys _ (bind _ _) => apply obeys_bind; [typeclasses eauto| |intros]
  | |- obeys _ (ret _) => apply obeys_ret; typeclasses eauto
  | |- obeys _ (is_file _) => apply obeys_is_file; typeclasses eauto
  | |- obeys _ (is_dir _) => apply obeys_is_dir; typeclasses eauto
  | |- obeys _ (path_exists _) => apply obeys_path_exists; typeclasses eauto
  | |- obeys _ (fun w => (Val _, w)) => apply obeys_look; typeclasses eauto
  | |- obeys _ (when false _) => apply obeys_ret; typeclasses eauto
  | |- obeys _ (when _ _) => apply obeys_when; [typeclasses eauto|]
  | |- obeys _ (for_each _ _) => apply obeys_for_each; [typeclasses eauto|intros]
  | |- obeys _ (match ?x with _ => _ end) => destruct x eqn:?
  | |- obeys _ (let _ := _ in _) => cbv zeta
  end.

(** One step through a program: the rule for the statement at hand when
    [leaf] has none of its own. *)
Ltac obeys_step leaf := first [leaf | obeys_rule].

Ltac unfold_stages :=
  unfold harden_input, register, cluster, remove_outliers,
    untransform, separate, inverse_transform, append_tracts, measure.

Ltac unfold_cleanup :=
  unfold cleanup, cleanup_minimal, cleanup_maximal, clean_registration, clean_outliers,
    clean_transformed.

Ltac unfold_main :=
  unfold main, pipeline, startup, _find_atlas_dirs, _pick_cluster_location_file;
  unfold_stages; unfold_cleanup.

(** ** Exit status and standard error *)

Global Instance reports_sequential : Sequential reports.
Proof.
  split; [done|]. unfold reports. intros w w1 w2 o E.
  destruct o; rewrite E; auto.
Qed.

Section Reports.

Context (tool : Tool).

Lemma reports_fail_with {A} msg : obeys reports (@fail_with A msg).
Proof. intros w. right. split; [done|]. by exists msg. Qed.

Lemma reports_return0 {A} : obeys reports (@py_return A 0).
Proof. intros w. by left. Qed.

Lemma reports_raise {A} e : obeys reports (@py_raise A e).
Proof. by intros w. Qed.

Lemma reports_print_out s : obeys reports (print_out s).
Proof. by intros w. Qed.

Lemma reports_fs_update f : obeys reports (fs_update f).
Proof. intros w. unfold fs_update. by destruct (f (w_fs w)). Qed.

Lemma reports_fs_read {A} (f : gmap (list string) node → PyExc + A) :
  obeys reports (fs_read f).
Proof. apply (obeys_fs_read reports). by intros. Qed.

Lemma reports_run cmd : obeys reports (_run tool cmd).
Proof.
  intros w. unfold reports. unfold_py. cbv zeta. by destruct (Z.eqb _ 0).
Qed.

End Reports.

Ltac reports_leaf :=
  idtac;
  lazymatch goal with
  | |- obeys _ (fail_with _) => apply reports_fail_with
  | |- obeys _ (py_return _) => apply reports_return0
  | |- obeys _ (py_raise _) => apply reports_raise
  | |- obeys _ (print_out _) => apply reports_print_out
  | |- obeys _ (_ensure_dir _) => apply reports_fs_update
  | |- obeys _ (fs_update _) => apply reports_fs_update
  | |- obeys _ (fs_read _) => apply reports_fs_read
  | |- obeys _ (_run _ _) => apply reports_run
  | |- obeys _ (_run_with_xvfb _ _ _) => apply reports_run
  end.

Lemma main_reports (tool : Tool) (env : Env) (args : Args) :
  obeys reports (main tool env args).
Proof.
  unfold_main.
  repeat obeys_step reports_leaf.
Qed.

(** X12. Once [parser.parse_args()] has accepted the command line, lines
    175-504 of [main] never fall off their end.  They return 0, having
    printed nothing on standard error; or they return 1, having printed
    exactly one line there; or they raise, having printed nothing there.
    The exits of [argparse] itself (status 2 with a usage message on
    standard error, status 0 for [-h]) come before line 175 and are not
    among these cases. *)
Theorem main_exit_status_and_stderr (tool : Tool) (env : Env) (args : Args) (w : World) :
  let r := main tool env args w in
  match r.1 with
  | Return c =>
      (c = 0 ∧ w_stderr r.2 = w_stderr w) ∨
      (c = 1 ∧ ∃ msg, w_stderr r.2 = w_stderr w ++ [msg])
  | Raise _ => w_stderr r.2 = w_stderr w
  | Val _ => False
  end.
Proof.
  cbn zeta. pose proof (main_reports tool env args w) as H. unfold reports in H.
  destruct (main tool env args w) as [[[]| |] w1] eqn:E; simpl in *; try done.
  unfold main, pipeline in E.
  repeat first
    [ apply bind_Val_inv in E as (? & ? & _ & E)
    | match type of E with context [match ?x with (_, _) => _ end] => destruct x end ].
  discriminate.
Qed.

(** ** The echo of the commands on standard output *)

Global Instance echoes_sequential : Sequential echoes.
Proof.
  split.
  - intros w. exists []. by rewrite !app_nil_r.
  - intros w w1 w2 o (c1 & E1 & O1) (c2 & E2 & O2). exists (c1 ++ c2).
    rewrite E2, E1, O2, O1, map_app, !app_assoc. done.
Qed.

Section Echoes.

Context (tool : Tool).

Lemma echoes_same {A} (m : M A) :
  (∀ w, w_cmds (m w).2 = w_cmds w ∧ w_stdout (m w).2 = w_stdout w) → obeys echoes m.
Proof. intros H w. destruct (H w) as [E O]. exists []. by rewrite E, O, !app_nil_r. Qed.

Lemma echoes_fail_with {A} msg : obeys echoes (@fail_with A msg).
Proof. by apply echoes_same. Qed.

Lemma echoes_return {A} c : obeys echoes (@py_return A c).
Proof. by apply echoes_same. Qed.

Lemma echoes_raise {A} e : obeys echoes (@py_raise A e).
Proof. by apply echoes_same. Qed.

Lemma echoes_fs_update f : obeys echoes (fs_update f).
Proof. apply echoes_same. intros w. unfold fs_update. by destruct (f (w_fs w)). Qed.

Lemma echoes_fs_read {A} (f : gmap (list string) node → PyExc + A) :
  obeys echoes (fs_read f).
Proof. apply echoes_same. intros w. unfold fs_read. by destruct (f (w_fs w)). Qed.

Lemma echoes_run cmd : obeys echoes (_run tool cmd).
Proof.
  intros w. exists [cmd]. unfold_py. cbv zeta. by destruct (Z.eqb _ 0).
Qed.

End Echoes.

Ltac echoes_leaf :=
  idtac;
  lazymatch goal with
  | |- obeys _ (fail_with _) => apply echoes_fail_with
  | |- obeys _ (py_return _) => apply echoes_return
  | |- obeys _ (py_raise _) => apply echoes_raise
  | |- obeys _ (_ensure_dir _) => apply echoes_fs_update
  | |- obeys _ (fs_update _) => apply echoes_fs_update
  | |- obeys _ (fs_read _) => apply echoes_fs_read
  | |- obeys _ (_run _ _) => apply echoes_run
  | |- obeys _ (_run_with_xvfb _ _ _) => apply echoes_run
  end.

Lemma pipeline_echoes (tool : Tool) (env : Env) (args : Args) L reg_dir fc_dir clf :
  obeys echoes (pipeline tool env args L reg_dir fc_dir clf).
Proof.
  unfold pipeline. unfold_stages. unfold_cleanup.
  repeat obeys_step echoes_leaf.
Qed.

Lemma startup_prints (env : Env) (args : Args) (w : World) :
  let r := startup env args w in
  w_cmds r.2 = w_cmds w ∧
  (w_stdout r.2 = w_stdout w ∨ w_stdout r.2 = w_stdout w ++ module_warning args (w_fs w)).
Proof.
  cbn zeta. unfold startup, _find_atlas_dirs, _pick_cluster_location_file, module_warning.
  unfold_py. repeat py_case.
  all: split; [reflexivity|]; rewrite ?app_nil_r; auto.
Qed.

(** X11. What a run prints on standard output is, after at most the
    warning of line 195, exactly one line per command it invoked, the
    arguments joined by single spaces, in the order of invocation; this
    holds however the run ends. *)
Theorem main_echoes_commands (tool : Tool) (env : Env) (args : Args) (w : World) :
  let r := main tool env args w in
  ∃ warning cmds,
    w_cmds r.2 = w_cmds w ++ cmds ∧
    w_stdout r.2 = w_stdout w ++ warning ++ map (String.concat " ") cmds ∧
    (warning = [] ∨ warning = module_warning args (w_fs w)).
Proof.
  cbn zeta. destruct (startup_prints env args w) as [Ec Eo]. cbn zeta in *.
  unfold main, bind.
  destruct (startup env args w) as [[[[[reg_dir fc_dir] clf] L]| |] w1]; simpl in *.
  - destruct (pipeline_echoes tool env args L reg_dir fc_dir clf w1) as (cmds & E1 & O1).
    rewrite E1, O1, Ec.
    destruct Eo as [->| ->].
    + exists [], cmds. auto.
    + exists (module_warning args (w_fs w)), cmds. rewrite app_assoc. auto.
  - destruct Eo as [->| ->]; [exists [], []|exists (module_warning args (w_fs w)), []];
      rewrite Ec, ?app_nil_r; auto.
  - destruct Eo as [->| ->]; [exists [], []|exists (module_warning args (w_fs w)), []];
      rewrite Ec, ?app_nil_r; auto.
Qed.

(** ** Failing tools *)

Global Instance fails_fast_sequential : Sequential fails_fast.
Proof.
  split.
  - intros w. exists []. by rewrite app_nil_r.
  - intros w w1 w2 o (c1 & E1 & _) (c2 & E2 & H). exists (c1 ++ c2).
    rewrite E2, E1, app_assoc. split; [done|].
    destruct o as [| |[]]; try done. destruct H as [Hrc Hl]. split; [done|].
    destruct c2 as [|x c2] using rev_ind; [done|].
    rewrite app_assoc, !last_snoc in *. done.
Qed.

Lemma mkdir_parents_error p fs e : Fs.mkdir_parents p fs = inl e → os_error e.
Proof.
  unfold Fs.mkdir_parents. repeat case_match; intros [= <-]; done.
Qed.

Lemma rmtree_error p fs e : Fs.rmtree p fs = inl e → os_error e.
Proof. unfold Fs.rmtree. repeat case_match; intros [= <-]; done. Qed.

Lemma unlink_error p fs e : Fs.unlink p fs = inl e → os_error e.
Proof. unfold Fs.unlink. repeat case_match; intros [= <-]; done. Qed.

Lemma iterdir_error p fs e : Fs.iterdir p fs = inl e → os_error e.
Proof. unfold Fs.iterdir. repeat case_match; intros [= <-]; done. Qed.

Section FailsFast.

Context (tool : Tool).

Lemma fails_fast_same {A} (m : M A) :
  (∀ w, w_cmds (m w).2 = w_cmds w ∧
        match (m w).1 with Raise (CalledProcessError _ _) => False | _ => True end) →
  obeys fails_fast m.
Proof.
  intros H w. destruct (H w) as [E O]. exists []. rewrite E, app_nil_r. split; [done|].
  destruct (m w).1 as [| |[]]; done.
Qed.

Lemma fails_fast_fail_with {A} msg : obeys fails_fast (@fail_with A msg).
Proof. by apply fails_fast_same. Qed.

Lemma fails_fast_return {A} c : obeys fails_fast (@py_return A c).
Proof. by apply fails_fast_same. Qed.

Lemma fails_fast_raise {A} e :
  match e with CalledProcessError _ _ => False | _ => True end →
  obeys fails_fast (@py_raise A e).
Proof. intros. by apply fails_fast_same. Qed.

Lemma fails_fast_print_out s : obeys fails_fast (print_out s).
Proof. by apply fails_fast_same. Qed.

Lemma fails_fast_fs_update f :
  (∀ fs e, f fs = inl e → os_error e) → obeys fails_fast (fs_update f).
Proof.
  intros Hf. apply fails_fast_same. intros w. unfold fs_update.
  destruct (f (w_fs w)) as [e|] eqn:E; simpl; [|done].
  split; [done|]. apply Hf in E. by destruct e.
Qed.

Lemma fails_fast_fs_read {A} (f : gmap (list string) node → PyExc + A) :
  (∀ fs e, f fs = inl e → os_error e) → obeys fails_fast (fs_read f).
Proof.
  intros Hf. apply fails_fast_same. intros w. unfold fs_read.
  destruct (f (w_fs w)) as [e|] eqn:E; simpl; [|done].
  split; [done|]. apply Hf in E. by destruct e.
Qed.

Lemma fails_fast_run cmd : obeys fails_fast (_run tool cmd).
Proof.
  intros w. exists [cmd]. unfold_py. cbv zeta.
  destruct (Z.eqb _ 0) eqn:E; simpl; [done|]. split; [done|]. split; [|done].
  by apply Z.eqb_neq.
Qed.

End FailsFast.

Ltac fails_fast_leaf :=
  idtac;
  lazymatch goal with
  | |- obeys _ (fail_with _) => apply fails_fast_fail_with
  | |- obeys _ (py_return _) => apply fails_fast_return
  | |- obeys _ (py_raise _) => by apply fails_fast_raise
  | |- obeys _ (print_out _) => apply fails_fast_print_out
  | |- obeys _ (_ensure_dir _) => apply fails_fast_fs_update, mkdir_parents_error
  | |- obeys _ (fs_update (Fs.rmtree _)) => apply fails_fast_fs_update, rmtree_error
  | |- obeys _ (fs_update (Fs.unlink _)) => apply fails_fast_fs_update, unlink_error
  | |- obeys _ (fs_read (Fs.iterdir _)) => apply fails_fast_fs_read, iterdir_error
  | |- obeys _ (_run _ _) => apply fails_fast_run
  | |- obeys _ (_run_with_xvfb _ _ _) => apply fails_fast_run
  end.

Lemma main_fails_fast (tool : Tool) (env : Env) (args : Args) :
  obeys fails_fast (main tool env args).
Proof.
  unfold_main.
  repeat obeys_step fails_fast_leaf.
Qed.

(** X13. When [main] raises [CalledProcessError] with status [rc] and
    command [cmd], [rc] is not 0 and [cmd] is the last command the run
    invoked: nothing is run after a tool that failed. *)
Theorem main_tool_failure_is_last_command (tool : Tool) (env : Env) (args : Args) (w : World)
    (rc : Z) (cmd : list string) :
  (main tool env args w).1 = Raise (CalledProcessError rc cmd) →
  rc ≠ 0 ∧ ∃ before, w_cmds (main tool env args w).2 = w_cmds w ++ before ++ [cmd].
Proof.
  intros E. destruct (main_fails_fast tool env args w) as (cmds & Ec & H).
  rewrite E in H. simpl in H. destruct H as [Hrc Hl]. split; [done|].
  destruct cmds as [|x cmds] using rev_ind; [done|].
  rewrite last_snoc in Hl. injection Hl as ->. exists cmds. by rewrite Ec.
Qed.

(** ** Paths a run leaves alone *)

Global Instance keeps_sequential p : Sequential (keeps p).
Proof. split; [done|]. unfold keeps. intros w w1 w2 _ E1 E2. congruence. Qed.

(** ** Paths below a directory *)

Lemma prefixes_prefix (p q : list string) : q ∈ Fs.prefixes p → q `prefix_of` p.
Proof.
  revert q. induction p as [|c p IH]; intros q; simpl; [by intros ?%elem_of_nil|].
  intros [->|(r & -> & Hr)%list_elem_of_fmap]%elem_of_cons.
  - by exists p.
  - apply prefix_cons, IH, Hr.
Qed.

Lemma children_below (fs : gmap (list string) node) d c :
  c ∈ Fs.children fs d → ∃ name, c = d ++ [name].
Proof.
  intros (_ & Hne & Hpar)%elem_of_children. unfold Path.parent in Hpar.
  destruct c as [|x c _] using rev_ind; [done|].
  rewrite removelast_last in Hpar. subst. by eexists.
Qed.

Lemma glob_below (fs : gmap (list string) node) pats base q :
  q ∈ Fs.glob fs pats base → ∃ rel, q = base ++ rel ∧ List.length rel = List.length pats.
Proof.
  revert base. induction pats as [|pat rest IH]; intros base; simpl.
  - intros ->%list_elem_of_singleton. exists []. by rewrite app_nil_r.
  - intros (c & Hc & Hq)%list_elem_of_In%in_flat_map.
    apply list_elem_of_In in Hc, Hq.
    apply list_elem_of_filter in Hc as [_ Hc].
    destruct (Fs.is_dir fs base); [|by apply elem_of_nil in Hc].
    apply children_below in Hc as [name ->].
    apply IH in Hq as (rel & -> & Hlen). exists (name :: rel).
    rewrite <- app_assoc. simpl. by rewrite Hlen.
Qed.

Lemma rglob_below (fs : gmap (list string) node) p q :
  q ∈ Fs.rglob_all fs p → p `prefix_of` q ∧ q ≠ p.
Proof.
  unfold Fs.rglob_all. intros [H _]%list_elem_of_filter.
  by apply bool_decide_unpack in H.
Qed.

Lemma outside_not_above (root p q : list string) :
  outside root p → root `prefix_of` q → ¬ p `prefix_of` q.
Proof. intros [H1 H2] Hq Hp. destruct (prefix_weak_total _ _ _ Hq Hp); auto. Qed.

Lemma outside_not_below (root p q : list string) :
  outside root p → root `prefix_of` q → ¬ q `prefix_of` p.
Proof. intros [H1 H2] Hq Hp. apply H1. by etrans. Qed.

Lemma outside_neq (root p q : list string) :
  outside root p → root `prefix_of` q → q ≠ p.
Proof. intros [H1 H2] Hq ->. auto. Qed.

(** ** Loops over directory listings *)

Section Loops.

Context (T : World → Outcome → World → Prop) `{!Sequential T}.

Lemma obeys_iterdir {B} d (k : list (list string) → M B) :
  obeys T (fs_read (Fs.iterdir d)) →
  (∀ items, (∀ x, x ∈ items → ∃ name, x = d ++ [name]) → obeys T (k items)) →
  obeys T (bind (fs_read (Fs.iterdir d)) k).
Proof.
  intros Hr Hk. eapply (obeys_bind_with _ _); [exact Hr| |exact Hk].
  intros w items. unfold fs_read, Fs.iterdir.
  destruct (Fs.is_dir (w_fs w) d); [|by destruct (Fs.is_file (w_fs w) d)].
  simpl. intros [= <-] x. apply children_below.
Qed.

Lemma obeys_glob {B} pats base (k : list (list string) → M B) :
  (∀ items, (∀ x, x ∈ items → ∃ rel, x = base ++ rel ∧ List.length rel = List.length pats) →
     obeys T (k items)) →
  obeys T (bind (fun w => (Val (Fs.glob (w_fs w) pats base), w)) k).
Proof.
  intros Hk. eapply (obeys_bind_with _ _); [by apply obeys_look| |exact Hk].
  simpl. intros w items [= <-] x. apply glob_below.
Qed.

Lemma obeys_rglob {B} d (k : list (list string) → M B) :
  (∀ items, (∀ x, x ∈ items → d `prefix_of` x ∧ x ≠ d) → obeys T (k items)) →
  obeys T (bind (fun w => (Val (Fs.rglob_all (w_fs w) d), w)) k).
Proof.
  intros Hk. eapply (obeys_bind_with _ _); [by apply obeys_look| |exact Hk].
  simpl. intros w items [= <-] x. apply rglob_below.
Qed.

End Loops.

(** ** What the filesystem operations leave alone *)

Lemma mkdir_parents_keeps (fs fs' : gmap (list string) node) p q :
  Fs.mkdir_parents q fs = inr fs' → ¬ p `prefix_of` q → fs' !! p = fs !! p.
Proof.
  unfold Fs.mkdir_parents. destruct (Fs.is_file fs q); [done|].
  destruct (existsb _ _); [done|]. intros [= <-] Hp.
  rewrite lookup_make_dirs. destruct (decide _) as [Hin|]; [|done].
  apply list_elem_of_filter in Hin as [_ Hin]. by apply prefixes_prefix in Hin.
Qed.

Lemma rmtree_keeps (fs fs' : gmap (list string) node) p q :
  Fs.rmtree q fs = inr fs' → ¬ q `prefix_of` p → fs' !! p = fs !! p.
Proof.
  unfold Fs.rmtree. destruct (Fs.is_dir fs q); [|by destruct (Fs.is_file fs q)].
  intros [= <-] Hq. unfold Fs.remove_tree.
  destruct (fs !! p) as [k|] eqn:Hk.
  - by apply map_lookup_filter_Some.
  - apply map_lookup_filter_None. by left.
Qed.

Lemma unlink_keeps (fs fs' : gmap (list string) node) p q :
  Fs.unlink q fs = inr fs' → q ≠ p → fs' !! p = fs !! p.
Proof.
  unfold Fs.unlink. destruct (Fs.is_file fs q); [|by destruct (Fs.is_dir fs q)].
  intros [= <-] Hq. by apply lookup_delete_ne.
Qed.

Section Keeps.

Context (tool : Tool) (p : list string).

Lemma keeps_same {A} (m : M A) : (∀ w, w_fs (m w).2 = w_fs w) → obeys (keeps p) m.
Proof. intros H w. unfold keeps. by rewrite H. Qed.

Lemma keeps_fail_with {A} msg : obeys (keeps p) (@fail_with A msg).
Proof. by apply keeps_same. Qed.

Lemma keeps_return {A} c : obeys (keeps p) (@py_return A c).
Proof. by apply keeps_same. Qed.

Lemma keeps_raise {A} e : obeys (keeps p) (@py_raise A e).
Proof. by apply keeps_same. Qed.

Lemma keeps_print_out s : obeys (keeps p) (print_out s).
Proof. by apply keeps_same. Qed.

Lemma keeps_fs_read {A} (f : gmap (list string) node → PyExc + A) :
  obeys (keeps p) (fs_read f).
Proof. apply keeps_same. intros w. unfold fs_read. by destruct (f (w_fs w)). Qed.

Lemma keeps_fs_update f :
  (∀ fs fs', f fs = inr fs' → fs' !! p = fs !! p) → obeys (keeps p) (fs_update f).
Proof.
  intros Hf w. unfold keeps, fs_update. destruct (f (w_fs w)) eqn:E; simpl; eauto.
Qed.

Lemma keeps_ensure_dir q : ¬ p `prefix_of` q → obeys (keeps p) (_ensure_dir q).
Proof. intros Hq. apply keeps_fs_update. intros. by eapply mkdir_parents_keeps. Qed.

Lemma keeps_rmtree q : ¬ q `prefix_of` p → obeys (keeps p) (fs_update (Fs.rmtree q)).
Proof. intros Hq. apply keeps_fs_update. intros. by eapply rmtree_keeps. Qed.

Lemma keeps_unlink q : q ≠ p → obeys (keeps p) (fs_update (Fs.unlink q)).
Proof. intros Hq. apply keeps_fs_update. intros. by eapply unlink_keeps. Qed.

Lemma keeps_run cmd : tool_keeps tool p → obeys (keeps p) (_run tool cmd).
Proof.
  intros Ht w. unfold keeps. unfold_py. cbv zeta.
  destruct (Z.eqb _ 0); simpl; apply Ht.
Qed.

End Keeps.

Ltac keeps_leaf :=
  idtac;
  lazymatch goal with
  | |- obeys _ (fail_with _) => apply keeps_fail_with
  | |- obeys _ (py_return _) => apply keeps_return
  | |- obeys _ (py_raise _) => apply keeps_raise
  | |- obeys _ (print_out _) => apply keeps_print_out
  | |- obeys _ (_ensure_dir _) => apply keeps_ensure_dir
  | |- obeys _ (fs_read _) => apply keeps_fs_read
  | |- obeys _ (fs_update (Fs.rmtree _)) => apply keeps_rmtree
  | |- obeys _ (fs_update (Fs.unlink _)) => apply keeps_unlink
  | |- obeys _ (bind (fs_read (Fs.iterdir _)) _) =>
      apply obeys_iterdir; [typeclasses eauto|apply keeps_fs_read|intros]
  | |- obeys _ (bind (fun w => (Val (Fs.glob (w_fs w) _ _), w)) _) =>
      apply obeys_glob; [typeclasses eauto|intros]
  | |- obeys _ (bind (fun w => (Val (Fs.rglob_all (w_fs w) _), w)) _) =>
      apply obeys_rglob; [typeclasses eauto|intros]
  | |- obeys _ (_run _ _) => apply keeps_run
  | |- obeys _ (_run_with_xvfb _ _ _) => apply keeps_run
  end.

(** [root] is a prefix of a path built from it with [//]. *)
Ltac solve_below :=
  cbn [layout subject_id output_case transformed_tracts_dir registration_dir
       clustering_root initial_clusters_dir outlier_clusters_dir
       transformed_clusters_dir separated_clusters_dir inverse_transformed_dir
       anatomical_tracts_dir];
  unfold Path.child; rewrite <- ?app_assoc; simpl;
  by repeat first [ apply prefix_nil | apply prefix_cons | apply prefix_app
                  | reflexivity | eexists ].

Lemma startup_value (env : Env) (args : Args) (w : World) reg_dir fc_dir clf L :
  (startup env args w).1 = Val (reg_dir, fc_dir, clf, L) →
  L = layout (a_i args) (a_o args) ∧ (a_d args = 1 → is_Some (a_m args)).
Proof.
  unfold startup, _find_atlas_dirs, _pick_cluster_location_file. unfold_py.
  repeat py_case; try done.
  all: intros [= <- <- <- <-]; split; [done|]; intros Hd.
  all: eqb_to_prop; first [by eauto | congruence].
Qed.

(** The simulated tools write where their rules say. *)
Lemma create_file_keeps (c p : list string) (fs : gmap (list string) node) :
  ¬ p `prefix_of` c → Sim.create_file c fs !! p = fs !! p.
Proof.
  intros Hp. unfold Sim.create_file.
  destruct (Fs.mkdir_parents (Path.parent c) fs) as [|fs'] eqn:E; [done|].
  assert (fs' !! p = fs !! p) as Hk.
  { eapply mkdir_parents_keeps; [done|]. intros Hpre. apply Hp. etrans; [done|].
    unfold Path.parent. destruct c as [|x c _] using rev_ind; [done|].
    rewrite removelast_last. by apply prefix_app_r. }
  destruct (Fs.exists_ fs' c); [done|].
  rewrite lookup_insert_ne; [done|]. by intros ->.
Qed.

Lemma sim_keeps (rules : list Sim.Rule) (p : list string) :
  Forall (fun r => Forall (fun c => ¬ p `prefix_of` c) (Sim.sr_creates r)) rules →
  tool_keeps (Sim.run rules) p.
Proof.
  intros Hr argv fs. unfold Sim.run.
  destruct (find _ rules) as [r|] eqn:E; [|done]. simpl.
  apply find_some in E as [Hin%list_elem_of_In _].
  rewrite Forall_forall in Hr. specialize (Hr r Hin).
  induction Hr as [|c l Hc Hl IH]; simpl; [done|].
  by rewrite create_file_keeps.
Qed.

Global Instance grows_sequential : Sequential grows.
Proof. unfold grows. split; [done|]. intros w w1 w2 _ E1 E2. by etrans. Qed.

Section Grows.

Context (tool : Tool) (Hadds : tool_adds tool).

Lemma grows_same {A} (m : M A) : (∀ w, w_fs (m w).2 = w_fs w) → obeys grows m.
Proof. intros H w. unfold grows. by rewrite H. Qed.

Lemma grows_fs_read {A} (f : gmap (list string) node → PyExc + A) :
  obeys grows (fs_read f).
Proof. apply grows_same. intros w. unfold fs_read. by destruct (f (w_fs w)). Qed.

Lemma grows_ensure_dir q : obeys grows (_ensure_dir q).
Proof.
  intros w. unfold grows, _ensure_dir, fs_update.
  destruct (Fs.mkdir_parents q (w_fs w)) eqn:E; simpl; [done|].
  by apply mkdir_parents_ok in E as [? _].
Qed.

Lemma grows_run cmd : obeys grows (_run tool cmd).
Proof.
  intros w. unfold grows. unfold_py. cbv zeta. destruct (Z.eqb _ 0); simpl; apply Hadds.
Qed.

End Grows.

Ltac grows_leaf :=
  idtac;
  lazymatch goal with
  | |- obeys _ (fail_with _) => by apply grows_same
  | |- obeys _ (py_return _) => by apply grows_same
  | |- obeys _ (py_raise _) => by apply grows_same
  | |- obeys _ (print_out _) => by apply grows_same
  | |- obeys _ (_ensure_dir _) => apply grows_ensure_dir
  | |- obeys _ (fs_read _) => apply grows_fs_read
  | |- obeys _ (_run _ _) => by apply grows_run
  | |- obeys _ (_run_with_xvfb _ _ _) => by apply grows_run
  end.

(** X16. With a cleanup tier below 1 and tools that only add, every
    entry present before the run is still there, with the same kind, after
    it, however the run ends. *)
Theorem main_without_cleanup_only_adds (tool : Tool) (env : Env) (args : Args) (w : World) :
  tool_adds tool →
  a_c args < 1 →
  w_fs w ⊆ w_fs (main tool env args w).2.
Proof.
  intros Hadds Hc. revert w. change (obeys grows (main tool env args)).
  assert (Z.leb 1 (a_c args) = false) as Hc1 by lia.
  assert (Z.leb 2 (a_c args) = false) as Hc2 by lia.
  unfold main, pipeline, startup, _find_atlas_dirs, _pick_cluster_location_file, cleanup.
  unfold_stages. rewrite Hc1, Hc2.
  repeat obeys_step grows_leaf.
Qed.

(** The run of [subjectA] with tier 0 *)
Lemma main_without_cleanup_only_adds_witness :
  w_fs Sim.w0 ⊆ w_fs (main (Sim.run Sim.good_rules) Sim.env0 Sim.args0 Sim.w0).2.
Proof.
  apply main_without_cleanup_only_adds; [apply sim_adds | reflexivity].
Defined.


(** ** What the cleanup leaves alone *)

Lemma app_prefix_below (d rel p : list string) :
  (d ++ rel) `prefix_of` p ∨ d ++ rel = p → rel ≠ [] → below d p.
Proof.
  intros Hp Hrel. assert ((d ++ rel) `prefix_of` p) by (by destruct Hp as [?| ->]).
  clear Hp. rename H into Hp. split.
  - etrans; [|exact Hp]. by apply prefix_app_r.
  - intros ->. apply prefix_length in Hp. rewrite length_app in Hp.
    destruct rel; [done|]. simpl in Hp. lia.
Qed.

Lemma nonempty_length {A} (l : list A) n : List.length l = S n → l ≠ [].
Proof. by destruct l. Qed.

Section CleanupFrame.

Context (args : Args) (L : Layout) (p : list string).

Context (Hreg : ¬ below (registration_dir L) p)
        (Hinitial : ¬ initial_clusters_dir L `prefix_of` p)
        (Houtlier : ¬ below (outlier_clusters_dir L) p)
        (Htransformed : ¬ (clustering_root L // "TransformedClusters") `prefix_of` p).

Lemma cleanup_keeps : obeys (keeps p) (cleanup args L).
Proof.
  unfold_cleanup.
  repeat obeys_step keeps_leaf.
  all: try assumption.
  all: repeat match goal with
         | H : ∀ x, x ∈ ?l → _, Hx : ?y ∈ ?l |- _ => specialize (H y Hx)
         end.
  all: repeat match goal with
         | H : ∃ _, _ |- _ => destruct H
         | H : _ ∧ _ |- _ => destruct H
         end; subst.
  all: try (intros <-; by apply Htransformed).
  all: intros E;
    first [ solve [ apply Hreg; eapply app_prefix_below;
                    [by eauto | first [done | by eapply nonempty_length]] ]
          | solve [ apply Houtlier; eapply app_prefix_below;
                    [by eauto | first [done | by eapply nonempty_length]] ] ].
Qed.

End CleanupFrame.

(** X17. The cleanup of lines 476-502, at any tier and even when it raises
    part of the way, changes nothing outside four places: strictly below
    the registration directory, the initial-clusters tree, strictly below
    the outlier-removed directory, and the [TransformedClusters] tree.  The
    separated clusters, the inverse-transformed tracts, the anatomical
    tracts and the measurements are out of its reach. *)
Theorem cleanup_touches_only_intermediates (args : Args) (L : Layout) (w : World)
    (p : list string) :
  ¬ below (registration_dir L) p →
  ¬ initial_clusters_dir L `prefix_of` p →
  ¬ below (outlier_clusters_dir L) p →
  ¬ (clustering_root L // "TransformedClusters") `prefix_of` p →
  w_fs (cleanup args L w).2 !! p = w_fs w !! p.
Proof. intros. by apply cleanup_keeps. Qed.

(** The tier-2 cleanup after a run of [subjectA] keeps [T_UF_right.vtp]. *)
Lemma cleanup_touches_only_intermediates_witness :
  let w := Runs.after (main (Sim.run Sim.good_rules) Sim.env0 Sim.args0 Sim.w0) in
  let p := ["out"; "subjectA"; "AnatomicalTracts"; "T_UF_right.vtp"] in
  w_fs (cleanup (with_cleanup Sim.args0 2) Runs.L0 w).2 !! p = w_fs w !! p.
Proof.
  cbv zeta. apply cleanup_touches_only_intermediates.
  - intros [[k E] _]. simpl in E. discriminate.
  - intros [k E]. simpl in E. discriminate.
  - intros [[k E] _]. simpl in E. discriminate.
  - intros [k E]. simpl in E. discriminate.
Defined.

(** ** The outlier-removed directory after the tier-2 cleanup *)

(** Of the places the cleanup deletes in, only the contents of the
    outlier-removed directory concern that directory: the cleanup leaves
    its own entry as it was. *)
Lemma cleanup_keeps_outlier_dir (args : Args) (input_file output_root : list string) :
  let L := layout input_file output_root in
  obeys (keeps (outlier_clusters_dir L)) (cleanup args L).
Proof.
  intros L. apply cleanup_keeps.
  - intros [[k E] _]. revert E. unfold L, layout, Path.child. simpl.
    rewrite <- !app_assoc. intros E. do 2 apply app_inv_head in E. discriminate.
  - intros [k E]. revert E. unfold L, layout, Path.child. simpl.
    rewrite <- !app_assoc. intros E. do 2 apply app_inv_head in E. discriminate.
  - by intros [_ ?].
  - intros [k E]. revert E. unfold L, layout, Path.child. simpl.
    rewrite <- !app_assoc. intros E. do 2 apply app_inv_head in E. discriminate.
Qed.

(** C9 (as the code has it).  On a well-formed filesystem, a tier-2
    cleanup that runs to completion leaves the outlier-removed clusters
    directory itself as it was and nothing below it: every working
    directory in it is removed with all its contents, log files included,
    and every loose file is unlinked. *)
Theorem tier2_empties_outlier_removed_dir (args : Args) (input_file output_root : list string)
    (w w' : World) :
  let L := layout input_file output_root in
  a_c args = 2 →
  Fs.wf (w_fs w) →
  cleanup args L w = (Val (), w') →
  w_fs w' !! outlier_clusters_dir L = w_fs w !! outlier_clusters_dir L ∧
  ∀ q, outlier_clusters_dir L `prefix_of` q → q ≠ outlier_clusters_dir L →
       w_fs w' !! q = None.
Proof.
  intros L Hc Hwf Hrun. split.
  - pose proof (cleanup_keeps_outlier_dir args input_file output_root w) as Hk.
    unfold keeps in Hk. fold L in Hk. by rewrite Hrun in Hk.
  - by apply (tier2_leaves_nothing_below args L w w').
Qed.

(** After a successful run of [subjectA], the tier-2 cleanup leaves the
    outlier-removed directory a directory and removes the assessment log
    with everything else below it. *)
Lemma tier2_empties_outlier_removed_dir_witness :
  let w := after (main (Sim.run Sim.good_rules) Sim.env0 Sim.args0 Sim.w0) in
  let w' := (cleanup (with_cleanup Sim.args0 2) L0 w).2 in
  let log := outlier_clusters_dir L0 ++ ["subjectA_reg_outlier_removed";
                                          "cluster_location_by_hemisphere.log"] in
  w_fs w !! outlier_clusters_dir L0 = Some Dir ∧
  w_fs w !! log = Some File ∧
  w_fs w' !! outlier_clusters_dir L0 = Some Dir ∧
  w_fs w' !! log = None.
Proof.
  cbv zeta.
  set (w := after (main (Sim.run Sim.good_rules) Sim.env0 Sim.args0 Sim.w0)).
  assert (w_fs w !! outlier_clusters_dir L0 = Some Dir) as Hdir
    by (vm_compute; reflexivity).
  split; [exact Hdir|]. split; [vm_compute; reflexivity|].
  destruct (tier2_empties_outlier_removed_dir (with_cleanup Sim.args0 2)
              ["data"; "subjectA.vtk"] ["out"] w
              (cleanup (with_cleanup Sim.args0 2) L0 w).2) as [Hkept Hgone].
  - reflexivity.
  - apply (bool_decide_unpack (Fs.wf (w_fs w))). vm_compute. exact I.
  - apply completed. vm_compute. reflexivity.
  - split.
    + etrans; [exact Hkept | exact Hdir].
    + apply Hgone; [by eexists | vm_compute; discriminate].
Defined.

(** The completion is a real condition: a regular file whose name starts
    with [iteration], two levels below the registration directory, makes
    line 488 raise [NotADirectoryError]; lines 491-496 are then not
    reached and the assessment log stays. *)
Lemma tier2_stopped_by_iteration_file :
  let w := after (main (Sim.run Sim.good_rules) Sim.env0 Sim.args0 Sim.w0) in
  let note := registration_dir L0 ++ ["subjectA"; "output_tractography"; "iteration_notes.txt"] in
  let log := outlier_clusters_dir L0 ++ ["subjectA_reg_outlier_removed";
                                          "cluster_location_by_hemisphere.log"] in
  let r := cleanup (with_cleanup Sim.args0 2) L0
             (mkWorld (<[note := File]> (w_fs w)) [] [] []) in
  Fs.wf (<[note := File]> (w_fs w)) ∧
  r.1 = Raise (NotADirectoryError note) ∧
  w_fs r.2 !! log = Some File.
Proof.
  cbv zeta. split; [|split; vm_compute; reflexivity].
  apply (bool_decide_unpack _). vm_compute. exact I.
Qed.

(** ** Regular files the cleanup leaves in place *)

Global Instance file_kept_sequential p : Sequential (file_kept p).
Proof. unfold file_kept. split; [done|]. intros w w1 w2 _ E1 E2. auto. Qed.

Section FileKept.

Context (p : list string) (Hp : p ≠ []).

Lemma file_kept_same {A} (m : M A) : (∀ w, w_fs (m w).2 = w_fs w) → obeys (file_kept p) m.
Proof. intros H w. unfold file_kept. by rewrite H. Qed.

Lemma file_kept_fs_read {A} (f : gmap (list string) node → PyExc + A) :
  obeys (file_kept p) (fs_read f).
Proof. apply file_kept_same. intros w. unfold fs_read. by destruct (f (w_fs w)). Qed.

(** [shutil.rmtree] of a regular file raises and removes nothing. *)
Lemma file_kept_rmtree q :
  (q `prefix_of` p → q = p) → obeys (file_kept p) (fs_update (Fs.rmtree q)).
Proof.
  intros Hq w Hf. unfold fs_update, Fs.rmtree.
  destruct (Fs.is_dir (w_fs w) q) eqn:Hd; simpl; [|by destruct (Fs.is_file (w_fs w) q)].
  unfold Fs.remove_tree. apply map_lookup_filter_Some. split; [done|]. simpl.
  intros Hpre. apply Hq in Hpre as ->.
  apply bool_decide_eq_true in Hd. rewrite kind_nonroot in Hd by done. congruence.
Qed.

Lemma file_kept_unlink q : q ≠ p → obeys (file_kept p) (fs_update (Fs.unlink q)).
Proof.
  intros Hq w Hf. unfold fs_update, Fs.unlink.
  destruct (Fs.is_file (w_fs w) q); simpl; [|by destruct (Fs.is_dir (w_fs w) q)].
  by rewrite lookup_delete_ne.
Qed.

End FileKept.

Ltac file_kept_leaf :=
  idtac;
  lazymatch goal with
  | |- obeys _ (fs_update (Fs.rmtree _)) => apply file_kept_rmtree
  | |- obeys _ (fs_update (Fs.unlink _)) => apply file_kept_unlink
  | |- obeys _ (bind (fs_read (Fs.iterdir _)) _) =>
      apply obeys_iterdir; [typeclasses eauto|apply file_kept_fs_read|intros]
  | |- obeys _ (bind (fun w => (Val (Fs.glob (w_fs w) _ _), w)) _) =>
      apply obeys_glob; [typeclasses eauto|intros]
  | |- obeys _ (bind (fun w => (Val (Fs.rglob_all (w_fs w) _), w)) _) =>
      apply obeys_rglob; [typeclasses eauto|intros]
  end.

Lemma clustering_apart (input_file output_root q rel : list string) :
  let L := layout input_file output_root in
  clustering_root L `prefix_of` q → ¬ q `prefix_of` registration_dir L ++ rel.
Proof.
  cbn. unfold Path.child. intros Hq Hp.
  assert (((output_root ++ [Path.stem input_file]) ++ ["FiberClustering"])
            `prefix_of` ((output_root ++ [Path.stem input_file]) ++ ["TractRegistration"] ++ rel))
    as H by (rewrite app_assoc; by etrans).
  apply prefix_app_inv in H. simpl in H. by apply prefix_cons_inv_1 in H.
Qed.

Section RegistrationFiles.

Context (args : Args) (input_file output_root rel : list string).

Let L := layout input_file output_root.

Context (Hdepth : (List.length rel ≤ 3)%nat).

Lemma cleanup_keeps_file : obeys (file_kept (registration_dir L ++ rel)) (cleanup args L).
Proof.
  assert (registration_dir L ++ rel ≠ []) as Hne by (by destruct output_root).
  unfold_cleanup.
  repeat obeys_step file_kept_leaf.
  all: try done.
  all: repeat match goal with
         | H : ∀ x, x ∈ ?l → _, Hx : ?y ∈ ?l |- _ => specialize (H y Hx)
         end.
  all: repeat match goal with
         | H : ∃ _, _ |- _ => destruct H
         | H : _ ∧ _ |- _ => destruct H
         end; subst.
  all: intros E.
  all: try (apply app_inv_head in E; subst; simpl in *; lia).
  all: try (apply prefix_app_inv in E; f_equal; apply prefix_length_eq; [done|simpl in *; lia]).
  all: exfalso; eapply (clustering_apart input_file output_root _ rel);
    [|first [exact E | fold L; rewrite <- E; reflexivity]].
  all: unfold L in *; first [solve_below | etrans; [|eassumption]; solve_below].
Qed.

End RegistrationFiles.

(** X19. A regular file at depth at most 3 below the registration
    directory - the registered tractography
    [<case>/output_tractography/<case>_reg.vtk] and the transforms beside
    it - is still there after the cleanup at any tier: the tier-2 pattern
    [*/*/output_tractography/*.vtk] only matches at depth 4, and
    [shutil.rmtree] of a regular file that [*/*/iteration*] matched raises
    without removing it. *)
Theorem cleanup_keeps_registration_files (args : Args) (input_file output_root rel : list string)
    (w : World) :
  let L := layout input_file output_root in
  (List.length rel ≤ 3)%nat →
  w_fs w !! (registration_dir L ++ rel) = Some File →
  w_fs (cleanup args L w).2 !! (registration_dir L ++ rel) = Some File.
Proof. intros L Hrel. by apply cleanup_keeps_file. Qed.

(** The tier-2 cleanup after a run of [subjectA] keeps [subjectA_reg.vtk]. *)
Lemma cleanup_keeps_registration_files_witness :
  let w := Runs.after (main (Sim.run Sim.good_rules) Sim.env0 Sim.args0 Sim.w0) in
  let L := layout ["data"; "subjectA.vtk"] ["out"] in
  let rel := ["subjectA"; "output_tractography"; "subjectA_reg.vtk"] in
  w_fs (cleanup (with_cleanup Sim.args0 2) L w).2 !! (registration_dir L ++ rel) = Some File.
Proof.
  cbv zeta. apply cleanup_keeps_registration_files; [simpl; lia|].
  vm_compute. reflexivity.
Defined.

(** ** What the tier-1 cleanup removes *)

Lemma wf_absent_below (fs : gmap (list string) node) d p :
  Fs.wf fs → Fs.exists_ fs d = false → d `prefix_of` p → fs !! p = None.
Proof.
  intros Hwf Hd Hp. apply bool_decide_eq_false in Hd.
  destruct (fs !! p) as [k|] eqn:Hk; [|done]. destruct Hd.
  destruct (decide (d = p)) as [->|Hne].
  - destruct p; [by eexists|]. simpl. by eexists.
  - rewrite (wf_ancestor_dir fs p k d) by done. by eexists.
Qed.

(** [if d.exists(): shutil.rmtree(d)]: when it falls through, nothing
    is left at or below [d]. *)
Lemma remove_if_exists (d : list string) (w w' : World) :
  Fs.wf (w_fs w) →
  bind (path_exists d) (fun e => when e (fs_update (Fs.rmtree d))) w = (Val (), w') →
  Fs.wf (w_fs w') ∧ w_fs w' ⊆ w_fs w ∧ ∀ p, d `prefix_of` p → w_fs w' !! p = None.
Proof.
  intros Hwf. unfold bind, path_exists, when, fs_update, Fs.rmtree, ret.
  destruct (Fs.exists_ (w_fs w) d) eqn:He.
  - destruct (Fs.is_dir (w_fs w) d); [|by destruct (Fs.is_file (w_fs w) d)].
    intros [= <-]. simpl. split; [by apply wf_remove_tree|].
    split; [apply map_filter_subseteq|].
    intros p Hp. apply map_lookup_filter_None. right. intros k _. simpl. tauto.
  - intros [= <-]. split; [done|]. split; [done|]. intros p Hp.
    by eapply wf_absent_below.
Qed.

(** X18. On a well-formed filesystem, when the cleanup at tier 1 or 2
    falls through, nothing is left at or below [InitialClusters] and
    [FiberClustering/TransformedClusters]. *)
Theorem cleanup_removes_intermediate_clusters (args : Args) (L : Layout) (w w' : World)
    (p : list string) :
  Fs.wf (w_fs w) →
  (1 ≤ a_c args)%Z →
  cleanup args L w = (Val (), w') →
  initial_clusters_dir L `prefix_of` p ∨
    (clustering_root L // "TransformedClusters") `prefix_of` p →
  w_fs w' !! p = None.
Proof.
  intros Hwf Hc Hrun Hp. unfold cleanup in Hrun.
  assert (Z.leb 1 (a_c args) = true) as Hc1 by lia. rewrite Hc1 in Hrun.
  apply bind_Val_inv in Hrun as ([] & w1 & Hmin & Hmax).
  assert (w_fs w' ⊆ w_fs w1) as Hsub.
  { destruct (Z.leb 2 (a_c args)); [|by injection Hmax as <-].
    simpl in Hmax. pose proof (shrinking_cleanup_maximal L w1) as H.
    by rewrite Hmax in H. }
  assert (w_fs w1 !! p = None) as Hnone.
  { unfold when, cleanup_minimal in Hmin.
    apply bind_Val_inv in Hmin as (e1 & wa & He1 & Hmin).
    apply bind_Val_inv in Hmin as ([] & w2 & Hrm1 & Hrm2).
    injection He1 as <- <-.
    assert (bind (path_exists (initial_clusters_dir L))
              (fun e => when e (fs_update (Fs.rmtree (initial_clusters_dir L)))) w
            = (Val (), w2)) as H1 by (unfold bind, path_exists; exact Hrm1).
    apply remove_if_exists in H1 as (Hwf2 & Hsub2 & Hgone2); [|done].
    apply remove_if_exists in Hrm2 as (Hwf1 & Hsub1 & Hgone1); [|done].
    destruct Hp as [Hp|Hp]; [|by apply Hgone1].
    specialize (Hgone2 p Hp).
    destruct (w_fs w1 !! p) as [k|] eqn:Hk; [|done].
    eapply lookup_weaken in Hk; [|exact Hsub1]. congruence. }
  destruct (w_fs w' !! p) as [k|] eqn:Hk; [|done].
  eapply lookup_weaken in Hk; [|exact Hsub]. congruence.
Qed.


(** ** Exceptions that cannot happen *)

Global Instance no_type_error_sequential : Sequential no_type_error.
Proof. split; [done|]. by intros w w1 w2 o _ H. Qed.

(** What the registration stage returns *)
Lemma register_value (tool : Tool) (args : Args) (L : Layout) reg_dir active_input
    (w : World) reg_output nonrig_subject :
  (register tool args L reg_dir active_input w).1 = Val (reg_output, nonrig_subject) →
  reg_output = Expected.reg_output (a_r args) L ∧
  nonrig_subject = match a_r args with
                   | rig => None
                   | nonrig => Some (Expected.nonrig_subject L)
                   end.
Proof.
  unfold register, Expected.reg_output, Expected.affine_output, Expected.nonrig_output,
    Expected.reg_subject_dir, Expected.nonrig_subject.
  unfold_py. repeat py_case; try done.
  all: by intros [= <- <-].
Qed.

Section NoTypeError.

Context (tool : Tool).

Lemma no_type_error_fs_update f :
  (∀ fs e, f fs = inl e → os_error e) → obeys no_type_error (fs_update f).
Proof.
  intros Hf w. unfold no_type_error, fs_update.
  destruct (f (w_fs w)) as [e|] eqn:E; simpl; [|done].
  apply Hf in E. by intros [= ->].
Qed.

Lemma no_type_error_fs_read {A} (f : gmap (list string) node → PyExc + A) :
  (∀ fs e, f fs = inl e → os_error e) → obeys no_type_error (fs_read f).
Proof.
  intros Hf w. unfold no_type_error, fs_read.
  destruct (f (w_fs w)) as [e|] eqn:E; simpl; [|done].
  apply Hf in E. by intros [= ->].
Qed.

Lemma no_type_error_run cmd : obeys no_type_error (_run tool cmd).
Proof. intros w. unfold no_type_error. unfold_py. cbv zeta. by destruct (Z.eqb _ 0). Qed.

End NoTypeError.

Ltac no_type_error_leaf :=
  idtac;
  lazymatch goal with
  | |- obeys _ (fail_with _) => by intros ?
  | |- obeys _ (py_return _) => by intros ?
  | |- obeys _ (py_raise (FileNotFoundError _)) => by intros ?
  | |- obeys _ (py_raise TypeError) =>
      exfalso; eqb_to_prop;
      match goal with
      | H : _ → is_Some _ |- _ => destruct H as [? ?]; [done|congruence]
      end
  | |- obeys _ (print_out _) => by intros ?
  | |- obeys _ (_ensure_dir _) => apply no_type_error_fs_update, mkdir_parents_error
  | |- obeys _ (fs_update (Fs.rmtree _)) => apply no_type_error_fs_update, rmtree_error
  | |- obeys _ (fs_update (Fs.unlink _)) => apply no_type_error_fs_update, unlink_error
  | |- obeys _ (fs_read (Fs.iterdir _)) => apply no_type_error_fs_read, iterdir_error
  | |- obeys _ (_run _ _) => apply no_type_error_run
  | |- obeys _ (_run_with_xvfb _ _ _) => apply no_type_error_run
  | |- obeys _ (when ?b _) =>
      lazymatch b with
      | true => fail
      | false => fail
      | _ => destruct b eqn:?
      end
  end.

Section MainNoTypeError.

Context (tool : Tool) (env : Env) (args : Args).

Lemma startup_no_type_error : obeys no_type_error (startup env args).
Proof.
  unfold startup, _find_atlas_dirs, _pick_cluster_location_file.
  repeat obeys_step no_type_error_leaf.
Qed.

Lemma pipeline_no_type_error L reg_dir fc_dir clf :
  (a_d args = 1 → is_Some (a_m args)) →
  obeys no_type_error (pipeline tool env args L reg_dir fc_dir clf).
Proof.
  intros Hm. unfold pipeline.
  apply obeys_bind; [typeclasses eauto| |intros active_input].
  { unfold harden_input. repeat obeys_step no_type_error_leaf. }
  eapply (obeys_bind_with _ (fun x => a_r args = nonrig → is_Some x.2)).
  { unfold register. repeat obeys_step no_type_error_leaf. }
  { intros w [ro ns] E. apply register_value in E as [_ ->]. simpl.
    intros ->. by eexists. }
  intros [reg_output nonrig_subject] Hns. simpl in Hns.
  unfold_stages. unfold_cleanup.
  repeat obeys_step no_type_error_leaf.
Qed.

Lemma main_no_type_error : obeys no_type_error (main tool env args).
Proof.
  unfold main.
  eapply (obeys_bind_with _ (fun _ => a_d args = 1 → is_Some (a_m args)));
    [apply startup_no_type_error| |].
  - intros w [[[reg_dir fc_dir] clf] L'] E. apply startup_value in E. by destruct E.
  - intros [[[reg_dir fc_dir] clf] L'] Hm. by apply pipeline_no_type_error.
Qed.

End MainNoTypeError.

(** X14. [main] never raises [TypeError]: [Path(args.m)] of line 446 is
    only reached when [-m] was given, because of the check of line 188, and
    [nonrig_subject / ...] of line 349 only after line 267 has set
    [nonrig_subject]. *)
Theorem main_never_raises_type_error (tool : Tool) (env : Env) (args : Args) (w : World) :
  (main tool env args w).1 ≠ Raise TypeError.
Proof.
  pose proof (main_no_type_error tool env args w) as H. unfold no_type_error in H.
  intros E. rewrite E in H. by apply H.
Qed.


(** ** Validation of the arguments *)

(** X1. When the input path is not a regular file, [main] prints
    [Input file not found: <path>] on standard error and returns 1; nothing
    else in the world changes (lines 178-181). *)
Theorem main_rejects_missing_input (tool : Tool) (env : Env) (args : Args) (w : World) :
  Fs.is_file (w_fs w) (a_i args) = false →
  main tool env args w
  = (Return 1, add_stderr ("Input file not found: " +:+ Path.str (a_i args)) w).
Proof. intros Hi. unfold main, startup. unfold_py. by rewrite Hi. Qed.

(** X2. With the input in place, when the Slicer path does not exist,
    [main] prints [3D Slicer not found: <path>] on standard error and
    returns 1; nothing else in the world changes (lines 183-186). *)
Theorem main_rejects_missing_slicer (tool : Tool) (env : Env) (args : Args) (w : World) :
  Fs.is_file (w_fs w) (a_i args) = true →
  Fs.exists_ (w_fs w) (a_s args) = false →
  main tool env args w
  = (Return 1, add_stderr ("3D Slicer not found: " +:+ Path.str (a_s args)) w).
Proof.
  intros Hi Hs. unfold main, startup. unfold_py. rewrite Hi. cbn [negb]. by rewrite Hs.
Qed.

(** X3. With the input and Slicer in place, [-d 1] without [-m] makes
    [main] print [ERROR: -d requires -m FiberTractMeasurements module path.]
    on standard error and return 1; nothing else in the world changes
    (lines 188-190). *)
Theorem main_rejects_measurements_without_module (tool : Tool) (env : Env) (args : Args)
    (w : World) :
  Fs.is_file (w_fs w) (a_i args) = true →
  Fs.exists_ (w_fs w) (a_s args) = true →
  a_d args = 1 →
  a_m args = None →
  main tool env args w
  = (Return 1, add_stderr "ERROR: -d requires -m FiberTractMeasurements module path." w).
Proof.
  intros Hi Hs Hd Hm. unfold main, startup. unfold_py.
  rewrite Hi. cbn [negb]. rewrite Hs. cbn [negb]. by rewrite Hd, Hm.
Qed.

(** An input that is not there *)
Lemma main_rejects_missing_input_witness :
  main (Sim.run Sim.good_rules) Sim.env0
    (mkArgs ["data"; "absent.vtk"] ["out"] ["atlas"] ["opt"; "Slicer"] None rig 1 0 0 None 0)
    Sim.w0
  = (Return 1, add_stderr "Input file not found: /data/absent.vtk" Sim.w0).
Proof. apply main_rejects_missing_input. reflexivity. Defined.

(** A Slicer path that is not there *)
Lemma main_rejects_missing_slicer_witness :
  main (Sim.run Sim.good_rules) Sim.env0
    (mkArgs ["data"; "subjectA.vtk"] ["out"] ["atlas"] ["opt"; "NoSlicer"] None rig 1 0 0 None 0)
    Sim.w0
  = (Return 1, add_stderr "3D Slicer not found: /opt/NoSlicer" Sim.w0).
Proof. apply main_rejects_missing_slicer; reflexivity. Defined.

(** Measurements asked for without the module *)
Lemma main_rejects_measurements_without_module_witness :
  main (Sim.run Sim.good_rules) Sim.env0
    (mkArgs ["data"; "subjectA.vtk"] ["out"] ["atlas"] ["opt"; "Slicer"] None rig 1 0 1 None 0)
    Sim.w0
  = (Return 1, add_stderr "ERROR: -d requires -m FiberTractMeasurements module path." Sim.w0).
Proof. apply main_rejects_measurements_without_module; reflexivity. Defined.

(** Atlas resolution and the choice of the hemisphere-location file only
    read the filesystem. *)
Lemma find_atlas_dirs_reads (root : list string) :
  ∃ f, ∀ w, _find_atlas_dirs root w = (f (w_fs w), w).
Proof.
  exists (fun fs => (_find_atlas_dirs root (mkWorld fs [] [] [])).1).
  intros w. unfold _find_atlas_dirs. unfold_py. repeat py_case; reflexivity.
Qed.

Lemma pick_cluster_location_file_reads (fc_dir script_dir : list string) :
  ∃ f, ∀ w, _pick_cluster_location_file fc_dir script_dir w = (f (w_fs w), w).
Proof.
  exists (fun fs => (_pick_cluster_location_file fc_dir script_dir (mkWorld fs [] [] [])).1).
  intros w. unfold _pick_cluster_location_file. unfold_py. repeat py_case; reflexivity.
Qed.

(** Nothing is created and nothing is run before the arguments, the atlas
    and the hemisphere-location file have been checked. *)
Lemma startup_validates (env : Env) (args : Args) (w : World) :
  let r := startup env args w in
  w_cmds r.2 = w_cmds w ∧
  (w_fs r.2 = w_fs w ∧ (∀ x, r.1 ≠ Val x) ∨
   Fs.is_file (w_fs w) (a_i args) = true ∧
   Fs.exists_ (w_fs w) (a_s args) = true ∧
   (a_d args = 1 → is_Some (a_m args)) ∧
   ∃ reg_dir fc_dir clf,
     (_find_atlas_dirs (a_a args) w).1 = Val (reg_dir, fc_dir) ∧
     (_pick_cluster_location_file fc_dir (script_dir env) w).1 = Val clf).
Proof.
  cbn zeta. destruct (find_atlas_dirs_reads (a_a args)) as [find Hfind].
  assert (∀ fc_dir, ∃ f, ∀ w,
            _pick_cluster_location_file fc_dir (script_dir env) w = (f (w_fs w), w))
    as Hpick by (intros; apply pick_cluster_location_file_reads).
  unfold startup. unfold_py.
  repeat first
    [ progress rewrite Hfind
    | match goal with
      | |- context [_pick_cluster_location_file ?fc ?sd ?w] =>
          let f := fresh "pick" in let Hf := fresh "Hpick" in
          destruct (Hpick fc) as [f Hf]; rewrite !Hf
      end
    | py_case ].
  all: split; [reflexivity|].
  all: first [ by left | right ].
  all: eqb_to_prop; repeat split; try done.
  all: try (intros; first [by eauto | congruence]).
  all: eexists _, _, _; split; [reflexivity|].
  all: match goal with H : ∀ w, _pick_cluster_location_file _ _ w = _ |- _ => rewrite H end.
  all: simpl; eassumption.
Qed.

(** X4. A run that changed the filesystem or invoked a command had
    passed every check of lines 178-198 in the world it started from: the
    input is a regular file, the Slicer path exists, [-d 1] comes with
    [-m], and atlas resolution and the choice of the hemisphere-location
    file succeed. *)
Theorem main_validates_before_touching (tool : Tool) (env : Env) (args : Args) (w : World) :
  let r := main tool env args w in
  w_fs r.2 ≠ w_fs w ∨ w_cmds r.2 ≠ w_cmds w →
  Fs.is_file (w_fs w) (a_i args) = true ∧
  Fs.exists_ (w_fs w) (a_s args) = true ∧
  (a_d args = 1 → is_Some (a_m args)) ∧
  ∃ reg_dir fc_dir clf,
    (_find_atlas_dirs (a_a args) w).1 = Val (reg_dir, fc_dir) ∧
    (_pick_cluster_location_file fc_dir (script_dir env) w).1 = Val clf.
Proof.
  cbn zeta. destruct (startup_validates env args w) as [Hc [[Hfs Hnv]|H]]; [|by intros _].
  cbn zeta in *. unfold main, bind.
  destruct (startup env args w) as [[x| |] w1]; simpl in *.
  - by destruct (Hnv x).
  - intros [?|?]; congruence.
  - intros [?|?]; congruence.
Qed.


(** The run of [subjectA] invokes commands, so it had passed the checks. *)
Lemma main_validates_before_touching_witness :
  Fs.is_file (w_fs Sim.w0) (a_i Sim.args0) = true ∧
  Fs.exists_ (w_fs Sim.w0) (a_s Sim.args0) = true ∧
  (a_d Sim.args0 = 1 → is_Some (a_m Sim.args0)) ∧
  ∃ reg_dir fc_dir clf,
    (_find_atlas_dirs (a_a Sim.args0) Sim.w0).1 = Val (reg_dir, fc_dir) ∧
    (_pick_cluster_location_file fc_dir (script_dir Sim.env0) Sim.w0).1 = Val clf.
Proof.
  apply (main_validates_before_touching (Sim.run Sim.good_rules)).
  right. vm_compute. discriminate.
Defined.

(** ** Creating directories *)

Lemma prefix_in_prefixes (p q : list string) :
  q ≠ [] → q `prefix_of` p → q ∈ Fs.prefixes p.
Proof.
  revert q. induction p as [|c p IH]; intros q Hq Hp.
  - by apply prefix_nil_inv in Hp.
  - destruct q as [|d q]; [done|].
    pose proof (prefix_cons_inv_1 _ _ _ _ Hp) as ->.
    apply prefix_cons_inv_2 in Hp. simpl.
    destruct q as [|e q]; [left|].
    right. apply list_elem_of_fmap. exists (e :: q). split; [done|]. by apply IH.
Qed.

(** X5. When [_ensure_dir p] falls through, [p] and everything above it
    is a directory, every earlier entry is as it was, whatever is new is a
    directory on the way to [p], and doing it again changes nothing. *)
Theorem ensure_dir_makes_directories (p : list string) (w w' : World) :
  _ensure_dir p w = (Val (), w') →
  (∀ q, q `prefix_of` p → Fs.is_dir (w_fs w') q = true) ∧
  (∀ q k, w_fs w !! q = Some k → w_fs w' !! q = Some k) ∧
  (∀ q, w_fs w !! q = None → is_Some (w_fs w' !! q) →
        w_fs w' !! q = Some Dir ∧ q `prefix_of` p) ∧
  _ensure_dir p w' = (Val (), w').
Proof.
  unfold _ensure_dir, fs_update.
  destruct (Fs.mkdir_parents p (w_fs w)) as [|fs'] eqn:E; [done|]. intros [= <-]. simpl.
  pose proof (mkdir_parents_ok _ _ _ E) as [Hsub Hok].
  split; [|split; [|split]].
  - intros q Hq. apply bool_decide_eq_true. destruct q as [|c q]; [done|].
    simpl. unfold dir_ok in Hok. rewrite Forall_forall in Hok.
    apply Hok. by apply prefix_in_prefixes.
  - intros q k Hk. by eapply lookup_weaken.
  - intros q Hnone [k Hk]. revert E Hk. unfold Fs.mkdir_parents.
    destruct (Fs.is_file _ _); [done|]. destruct (existsb _ _); [done|].
    intros [= <-]. rewrite lookup_make_dirs. destruct (decide _) as [Hin|]; [|congruence].
    intros _. split; [done|].
    apply list_elem_of_filter in Hin as [_ Hin]. by apply prefixes_prefix.
  - by rewrite (mkdir_parents_noop fs' p Hok).
Qed.

(** X6. When [p] or something above it is a regular file, [_ensure_dir p]
    raises - [FileExistsError] when the file is [p] itself,
    [NotADirectoryError] otherwise - and leaves the world as it was. *)
Theorem ensure_dir_blocked_by_file (p : list string) (w : World) :
  (∃ q, q `prefix_of` p ∧ Fs.is_file (w_fs w) q = true) →
  ∃ e, _ensure_dir p w = (Raise e, w) ∧
       e = if Fs.is_file (w_fs w) p then FileExistsError p else NotADirectoryError p.
Proof.
  intros (q & Hq & Hf). unfold _ensure_dir, fs_update, Fs.mkdir_parents.
  destruct (Fs.is_file (w_fs w) p) eqn:Hp; [by eexists|].
  assert (existsb (Fs.is_file (w_fs w)) (Fs.prefixes p) = true) as ->; [|by eexists].
  apply existsb_exists. exists q. split; [|done].
  apply list_elem_of_In, prefix_in_prefixes; [|done].
  intros ->. by rewrite is_file_root in Hf.
Qed.

(** Making [/out/subjectA] in the fresh tree *)
Lemma ensure_dir_makes_directories_witness :
  let w' := (_ensure_dir ["out"; "subjectA"] Sim.w0).2 in
  (∀ q, q `prefix_of` ["out"; "subjectA"] → Fs.is_dir (w_fs w') q = true) ∧
  (∀ q k, w_fs Sim.w0 !! q = Some k → w_fs w' !! q = Some k) ∧
  (∀ q, w_fs Sim.w0 !! q = None → is_Some (w_fs w' !! q) →
        w_fs w' !! q = Some Dir ∧ q `prefix_of` ["out"; "subjectA"]) ∧
  _ensure_dir ["out"; "subjectA"] w' = (Val (), w').
Proof.
  cbv zeta. apply ensure_dir_makes_directories. apply completed. vm_compute. reflexivity.
Defined.

(** A directory asked for below the input file *)
Lemma ensure_dir_blocked_by_file_witness :
  ∃ e, _ensure_dir ["data"; "subjectA.vtk"; "out"] Sim.w0 = (Raise e, Sim.w0) ∧
       e = if Fs.is_file (w_fs Sim.w0) ["data"; "subjectA.vtk"; "out"]
           then FileExistsError ["data"; "subjectA.vtk"; "out"]
           else NotADirectoryError ["data"; "subjectA.vtk"; "out"].
Proof.
  apply ensure_dir_blocked_by_file. exists ["data"; "subjectA.vtk"].
  split; [by exists ["out"]|]. vm_compute. reflexivity.
Defined.

(** ** Stems *)

Lemma rfind_suffix (c : ascii) (s ext : string) :
  Path.rfind c ext = None →
  Path.rfind c (s +:+ String c ext) = Some (String.length s).
Proof.
  intros Hext. induction s as [|a s IH]; simpl.
  - rewrite Hext. by rewrite Ascii.eqb_refl.
  - by rewrite IH.
Qed.

Lemma substring_prefix (s t : string) :
  String.substring 0 (String.length s) (s +:+ t) = s.
Proof.
  induction s as [|a s IH]; simpl.
  - by destruct t.
  - by rewrite IH.
Qed.

Lemma length_append (s t : string) :
  String.length (s +:+ t) = (String.length s + String.length t)%nat.
Proof. induction s as [|a s IH]; simpl; [done|]. by rewrite IH. Qed.

(** The stem of [NAME.EXT] is [NAME], whatever dots [NAME] has. *)
Lemma stem_of_name_suffix (s ext : string) :
  s ≠ "" → ext ≠ "" → Path.rfind "." ext = None →
  Path.stem_of_name (s +:+ String "." ext) = s.
Proof.
  intros Hs Hext Hdot. unfold Path.stem_of_name. rewrite rfind_suffix by done.
  rewrite length_append. simpl.
  assert ((Nat.ltb 0 (String.length s)
           && Z.ltb (Z.of_nat (String.length s))
                (Z.of_nat (String.length s + S (String.length ext)) - 1))%bool = true) as ->.
  { apply andb_true_iff. split.
    - apply Nat.ltb_lt. destruct s; [done|simpl; lia].
    - apply Z.ltb_lt. destruct ext; [done|simpl; lia]. }
  apply substring_prefix.
Qed.

Lemma name_child (d : list string) (n : string) : Path.name (d // n) = n.
Proof. unfold Path.name, Path.child. apply last_last. Qed.

(** X7. The subject identifier of the input [<dir>/NAME.EXT], with [NAME]
    non-empty and [EXT] non-empty and free of dots, is [NAME], dots inside
    [NAME] included (line 203). *)
Theorem subject_id_of_input (dir : list string) (name ext : string) (output_root : list string) :
  name ≠ "" → ext ≠ "" → Path.rfind "." ext = None →
  subject_id (layout (dir // (name +:+ "." +:+ ext)) output_root) = name.
Proof.
  intros. cbn [layout subject_id]. unfold Path.stem. rewrite name_child.
  by apply stem_of_name_suffix.
Qed.

(** A name with dots of its own *)
Lemma subject_id_of_input_witness :
  subject_id (layout (["data"] // ("sub-01.run.2" +:+ "." +:+ "vtk")) ["out"]) = "sub-01.run.2".
Proof. apply subject_id_of_input; done. Defined.

Lemma append_nonempty (s t : string) : t ≠ "" → s +:+ t ≠ "".
Proof. by destruct s. Qed.

Lemma append_assoc (s t u : string) : (s +:+ t) +:+ u = s +:+ (t +:+ u).
Proof.
  induction s as [|a s IH]; [done|].
  change (String a ((s +:+ t) +:+ u) = String a (s +:+ (t +:+ u))). by rewrite IH.
Qed.

(** X8. Whenever the registration stage falls through, the stem of the
    registered tractography it hands on - the case identifier of the
    clustering stages, line 286 - is the subject identifier followed by
    [_reg] in rigid mode and by [_reg_reg] in non-rigid mode. *)
Theorem register_output_stem (tool : Tool) (args : Args) (L : Layout)
    (reg_dir active_input : list string) (w : World) reg_output nonrig_subject :
  (register tool args L reg_dir active_input w).1 = Val (reg_output, nonrig_subject) →
  Path.stem reg_output
  = subject_id L +:+ match a_r args with rig => "_reg" | nonrig => "_reg_reg" end.
Proof.
  intros [-> _]%register_value.
  unfold Expected.reg_output, Expected.affine_output, Expected.nonrig_output, Path.stem.
  destruct (a_r args); rewrite name_child.
  - change (subject_id L +:+ "_reg.vtk")
      with (subject_id L +:+ ("_reg" +:+ String "." "vtk")).
    rewrite <- append_assoc. apply stem_of_name_suffix; [by apply append_nonempty|done..].
  - change (subject_id L +:+ "_reg_reg.vtk")
      with (subject_id L +:+ ("_reg_reg" +:+ String "." "vtk")).
    rewrite <- append_assoc. apply stem_of_name_suffix; [by apply append_nonempty|done..].
Qed.

(** Non-rigid registration of [subjectA] *)
Lemma register_output_stem_witness :
  Path.stem (Expected.reg_output (a_r Runs.args_full) Runs.L0) = "subjectA" +:+ "_reg_reg".
Proof.
  apply (register_output_stem (Sim.run Sim.full_rules) Runs.args_full Runs.L0
           ["atlas"; "ORG-RegAtlas-100HCP"] ["data"; "subjectA.vtk"] Sim.w0
           _ (Some (Expected.nonrig_subject Runs.L0))).
  vm_compute. reflexivity.
Defined.


(** ** Commands of a given shape *)

Global Instance invokes_only_sequential P : Sequential (invokes_only P).
Proof.
  split.
  - intros w. exists []. by rewrite app_nil_r.
  - intros w w1 w2 o (l1 & E1 & F1) (l2 & E2 & F2). exists (l1 ++ l2).
    rewrite E2, E1, app_assoc. split; [done|]. by apply Forall_app.
Qed.

Section InvokesOnly.

Context (tool : Tool) (P : list string → Prop).

Lemma invokes_only_silent {A} (m : M A) :
  (∀ w, w_cmds (m w).2 = w_cmds w) → obeys (invokes_only P) m.
Proof. intros H w. exists []. by rewrite H, app_nil_r. Qed.

Lemma invokes_only_fs_update f : obeys (invokes_only P) (fs_update f).
Proof. apply invokes_only_silent. intros w. unfold fs_update. by destruct (f (w_fs w)). Qed.

Lemma invokes_only_fs_read {A} (f : gmap (list string) node → PyExc + A) :
  obeys (invokes_only P) (fs_read f).
Proof. apply invokes_only_silent. intros w. unfold fs_read. by destruct (f (w_fs w)). Qed.

Lemma invokes_only_run cmd : P cmd → obeys (invokes_only P) (_run tool cmd).
Proof.
  intros Hc w. exists [cmd]. split; [|by constructor].
  unfold_py. cbv zeta. by destruct (Z.eqb _ 0).
Qed.

Lemma invokes_only_run_with_xvfb cmd (b : bool) :
  P (if b then ["xvfb-run"; "-a"] ++ cmd else cmd) →
  obeys (invokes_only P) (_run_with_xvfb tool cmd b).
Proof. intros Hc. by apply invokes_only_run. Qed.

End InvokesOnly.

Ltac invokes_only_leaf :=
  idtac;
  lazymatch goal with
  | |- obeys _ (fail_with _) => by apply invokes_only_silent
  | |- obeys _ (py_return _) => by apply invokes_only_silent
  | |- obeys _ (py_raise _) => by apply invokes_only_silent
  | |- obeys _ (print_out _) => by apply invokes_only_silent
  | |- obeys _ (_ensure_dir _) => apply invokes_only_fs_update
  | |- obeys _ (fs_update _) => apply invokes_only_fs_update
  | |- obeys _ (fs_read _) => apply invokes_only_fs_read
  | |- obeys _ (_run _ _) => apply invokes_only_run
  | |- obeys _ (_run_with_xvfb _ _ _) => apply invokes_only_run_with_xvfb
  end.

(** ** The thread count *)

Lemma str_starts_with_slash (p : list string) : ∃ s, Path.str p = String "/" s.
Proof. destruct p as [|c [|c' p]]; eexists; reflexivity. Qed.

Lemma main_thread_count (tool : Tool) (env : Env) (args : Args) :
  obeys (invokes_only (threads_clamped args)) (main tool env args).
Proof.
  unfold_main.
  repeat obeys_step invokes_only_leaf.
  all: try match goal with |- threads_clamped _ (if ?b then _ else _) => destruct b end.
  all: intros prog j rest E.
  all: unfold harden_cmd, inverse_harden_cmd, register_cmd, cluster_cmd,
         remove_outliers_cmd, assess_cmd, separate_cmd, append_cmd, measure_cmd in E.
  all: simplify_eq/=.
  all: try match goal with
         | H : Path.str ?p = _ |- _ =>
             let Hs := fresh in
             destruct (str_starts_with_slash p) as [? Hs]; rewrite Hs in H; discriminate
         end.
  all: f_equal; destruct (Z.ltb_spec (a_n args) 1); lia.
Qed.

(** X9. In every command a run invokes with [-j] as its first argument,
    the argument after [-j] is the decimal of [max(1, n)] for the [-n]
    given: the thread count handed to the tools is never below 1 (lines
    175-176, 292 and 307). *)
Theorem thread_count_at_least_one (tool : Tool) (env : Env) (args : Args) (w : World) :
  ∃ invoked,
    w_cmds (main tool env args w).2 = w_cmds w ++ invoked ∧
    Forall (fun cmd =>
              ∀ prog j rest, cmd = prog :: "-j" :: j :: rest →
                             j = pretty (Z.max 1 (a_n args))) invoked.
Proof. apply (main_thread_count tool env args w). Qed.


(** ** The schedule of a run *)

Lemma invokes_weaken {A} (S S' : list (list string) → Prop) (m : M A) :
  invokes S m → (∀ l, S l → S' l) → invokes S' m.
Proof. intros Hm HS w. destruct (Hm w) as (l & E & Hl). eauto. Qed.

Lemma within_silent {A} (m : M A) : (∀ w, w_cmds (m w).2 = w_cmds w) → within [] m.
Proof. intros H w. exists []. by rewrite H, app_nil_r. Qed.

Lemma within_bind {A B} l1 l2 (Q : A → Prop) (m : M A) (k : A → M B) :
  within l1 m → returns Q m → (∀ a, Q a → within l2 (k a)) →
  within (l1 ++ l2) (bind m k).
Proof.
  intros Hm HQ Hk w. destruct (Hm w) as (i1 & E1 & S1). specialize (HQ w). unfold bind.
  destruct (m w) as [[a| |] w1]; simpl in *.
  - destruct (Hk a (HQ a eq_refl) w1) as (i2 & E2 & S2). exists (i1 ++ i2).
    rewrite E2, E1, app_assoc. split; [done|]. cbv beta in *. by apply sublist_app.
  - exists i1. split; [done|]. by apply sublist_inserts_r.
  - exists i1. split; [done|]. by apply sublist_inserts_r.
Qed.

Lemma phased_head {A B} l1 h P t (Q : A → Prop) (m : M A) (k : A → M B) :
  within l1 m → returns Q m → (∀ a, Q a → invokes (phased h P t) (k a)) →
  invokes (phased (l1 ++ h) P t) (bind m k).
Proof.
  intros Hm HQ Hk w. destruct (Hm w) as (i1 & E1 & S1). specialize (HQ w). unfold bind.
  destruct (m w) as [[a| |] w1]; simpl in *.
  - destruct (Hk a (HQ a eq_refl) w1) as (i2 & E2 & h' & m' & t' & -> & Sh & Sm & St).
    cbv beta in *. exists (i1 ++ h' ++ m' ++ t'). rewrite E2, E1.
    split; [by rewrite <- app_assoc|].
    exists (i1 ++ h'), m', t'. split; [apply app_assoc|].
    split; [by apply sublist_app|done].
  - exists i1. split; [done|]. exists i1, [], []. rewrite app_nil_r.
    split; [done|]. split; [by apply sublist_inserts_r|]. split; [done|apply sublist_nil_l].
  - exists i1. split; [done|]. exists i1, [], []. rewrite app_nil_r.
    split; [done|]. split; [by apply sublist_inserts_r|]. split; [done|apply sublist_nil_l].
Qed.

Lemma phased_mid {A B} P t (Q : A → Prop) (m : M A) (k : A → M B) :
  invokes (Forall P) m → returns Q m → (∀ a, Q a → within t (k a)) →
  invokes (phased [] P t) (bind m k).
Proof.
  intros Hm HQ Hk w. destruct (Hm w) as (i1 & E1 & S1). specialize (HQ w). unfold bind.
  destruct (m w) as [[a| |] w1]; simpl in *.
  - destruct (Hk a (HQ a eq_refl) w1) as (i2 & E2 & S2).
    cbv beta in *. exists (i1 ++ i2). rewrite E2, E1, app_assoc. split; [done|].
    by exists [], i1, i2.
  - exists i1. split; [done|]. exists [], i1, []. rewrite app_nil_r.
    split; [done|]. split; [done|]. split; [done|apply sublist_nil_l].
  - exists i1. split; [done|]. exists [], i1, []. rewrite app_nil_r.
    split; [done|]. split; [done|]. split; [done|apply sublist_nil_l].
Qed.

(** ** What the stages hand on *)

Section Values.

Context (tool : Tool) (env : Env) (args : Args) (L : Layout).

Lemma harden_input_value :
  returns (fun a => a = Schedule.active_input args L) (harden_input tool args L).
Proof.
  intros w a. unfold harden_input, Schedule.active_input. unfold_py.
  repeat py_case; try done. all: by intros [= <-].
Qed.

Lemma cluster_value n fc_dir reg_output :
  returns (fun a => a = Path.stem reg_output) (cluster tool n L fc_dir reg_output).
Proof.
  intros w a. unfold cluster. unfold_py. repeat py_case; try done. all: by intros [= <-].
Qed.

Lemma remove_outliers_value n fc_dir clf fc_case_id :
  returns (fun a => a = outlier_clusters_dir L // (fc_case_id +:+ "_outlier_removed"))
    (remove_outliers tool n L fc_dir clf fc_case_id).
Proof.
  intros w a. unfold remove_outliers. unfold_py. repeat py_case; try done.
  all: by intros [= <-].
Qed.

Lemma untransform_value nonrig_subject outlier_dir :
  returns (fun a => a = transformed_clusters_dir L)
    (untransform tool args L nonrig_subject outlier_dir).
Proof.
  intros w a. unfold untransform. unfold_py. repeat py_case; try done.
  all: by intros [= <-].
Qed.

Lemma inverse_transform_value :
  returns (fun a => a = Schedule.final_clusters_dir args L) (inverse_transform tool args L).
Proof.
  intros w a. unfold inverse_transform, Schedule.final_clusters_dir. unfold_py.
  repeat py_case; try done. all: by intros [= <-].
Qed.

End Values.

(** ** The commands of each stage *)

Ltac solve_within :=
  repeat py_case;
  (eexists; split;
   [ first [ symmetry; apply app_nil_r | reflexivity | rewrite <- !app_assoc; reflexivity ]
   | cbn [app];
     repeat first [ apply sublist_nil | apply sublist_skip | apply sublist_cons ] ]).

Ltac unfold_schedule :=
  unfold Schedule.harden, Schedule.registration, Schedule.clustering, Schedule.outliers,
    Schedule.untransforming, Schedule.separation, Schedule.aggregation,
    Schedule.measurements, Schedule.active_input, Schedule.final_clusters_dir,
    Schedule.threads, xvfb_wrap;
  expected_unfold.

Section Stages.

Context (tool : Tool) (env : Env) (args : Args) (L : Layout).

Lemma harden_input_within : within (Schedule.harden args L) (harden_input tool args L).
Proof. intros w. unfold harden_input. unfold_schedule. unfold_py. solve_within. Qed.

Lemma register_within reg_dir :
  within (Schedule.registration args L reg_dir)
    (register tool args L reg_dir (Schedule.active_input args L)).
Proof. intros w. unfold register. unfold_schedule. unfold_py. solve_within. Qed.

Lemma cluster_within fc_dir :
  within (Schedule.clustering args L fc_dir)
    (cluster tool (Schedule.threads args) L fc_dir (Expected.reg_output (a_r args) L)).
Proof. intros w. unfold cluster. unfold_schedule. unfold_py. solve_within. Qed.

Lemma remove_outliers_within fc_dir clf :
  within (Schedule.outliers args L fc_dir clf)
    (remove_outliers tool (Schedule.threads args) L fc_dir clf
       (Expected.fc_case_id (a_r args) L)).
Proof. intros w. unfold remove_outliers. unfold_schedule. unfold_py. solve_within. Qed.

Lemma untransform_within :
  within (Schedule.untransforming args L)
    (untransform tool args L
       match a_r args with rig => None | nonrig => Some (Expected.nonrig_subject L) end
       (Expected.outlier_dir (a_r args) L)).
Proof. intros w. unfold untransform. unfold_schedule. unfold_py. solve_within. Qed.

Lemma separate_within :
  within (Schedule.separation L) (separate tool L (transformed_clusters_dir L)).
Proof. intros w. unfold separate. unfold_schedule. unfold_py. solve_within. Qed.

Lemma append_tracts_within fc_dir :
  within (Schedule.aggregation env args L fc_dir)
    (append_tracts tool env L fc_dir (Schedule.final_clusters_dir args L)).
Proof. intros w. unfold append_tracts. unfold_schedule. unfold_py. solve_within. Qed.

(** [if not out.is_file(): _run(cmd)] *)
Lemma guarded_run_within (out : list string) (cmd : list string) :
  within [cmd] (bind (is_file out) (fun done => when (negb done) (_run tool cmd))).
Proof. intros w. unfold_py. solve_within. Qed.

Lemma measure_within :
  within (Schedule.measurements args L)
    (measure tool args L (Schedule.final_clusters_dir args L)).
Proof.
  unfold measure, Schedule.measurements.
  destruct (Z.eqb (a_d args) 1); destruct (a_m args) as [module_path|];
    try (by apply within_silent).
  unfold when. cbn [for_each]. cbv zeta. unfold Expected.hemisphere_csv, Expected.tracts_csv.
  apply (within_bind [_; _; _] [_] (fun _ => True)); [|done|intros _ _; apply guarded_run_within].
  apply (within_bind [_] [_; _] (fun _ => True)); [apply guarded_run_within|done|intros _ _].
  apply (within_bind [_] [_] (fun _ => True)); [apply guarded_run_within|done|intros _ _].
  apply (within_bind [_] [] (fun _ => True)); [apply guarded_run_within|done|intros _ _].
  by apply within_silent.
Qed.

End Stages.

(** ** The per-hemisphere loop and the cleanup *)

Lemma insert_sorted_elem (p x : list string) (l : list (list string)) :
  x ∈ Path.insert_sorted p l → x = p ∨ x ∈ l.
Proof.
  induction l as [|q l IH]; simpl.
  - intros ->%list_elem_of_singleton. by left.
  - destruct (Path.leb p q).
    + intros [->|H]%elem_of_cons; [by left|by right].
    + intros [->|H]%elem_of_cons; [right; left|].
      destruct (IH H) as [->|?]; [by left|right; by right].
Qed.

(** [sorted] only reorders. *)
Lemma sorted_elem (x : list string) (l : list (list string)) :
  x ∈ Path.sorted l → x ∈ l.
Proof.
  unfold Path.sorted. induction l as [|p l IH]; simpl; [done|].
  intros [->|H]%insert_sorted_elem; [left|right; by apply IH].
Qed.

Lemma inverse_transform_invokes (tool : Tool) (args : Args) (L : Layout) :
  invokes (Forall (Schedule.hemisphere_inverse args L)) (inverse_transform tool args L).
Proof.
  change (obeys (invokes_only (Schedule.hemisphere_inverse args L))
            (inverse_transform tool args L)).
  unfold inverse_transform.
  destruct (a_t args) as [t|] eqn:Ht; [|by apply invokes_only_silent].
  repeat obeys_step
    ltac:(idtac;
          lazymatch goal with
          | |- obeys _ (bind (fs_read (Fs.iterdir _)) _) =>
              apply obeys_iterdir; [typeclasses eauto|apply invokes_only_fs_read|intros]
          | _ => invokes_only_leaf
          end).
  match goal with
  | Hx : _ ∈ Path.sorted ?items, H : ∀ x, x ∈ ?items → _ |- _ =>
      apply sorted_elem in Hx; destruct (H _ Hx) as [name ->]
  end.
  exists t, name. split; [done|].
  change (separated_clusters_dir L ++ [name]) with (separated_clusters_dir L // name).
  by rewrite name_child.
Qed.

(** The cleanup invokes nothing. *)
Global Instance quiet_sequential : Sequential quiet.
Proof. unfold quiet. split; [done|]. intros w w1 w2 _ E1 E2. congruence. Qed.

Lemma quiet_fs_update f : obeys quiet (fs_update f).
Proof. intros w. unfold quiet, fs_update. by destruct (f (w_fs w)). Qed.

Lemma quiet_fs_read {A} (f : gmap (list string) node → PyExc + A) : obeys quiet (fs_read f).
Proof. intros w. unfold quiet, fs_read. by destruct (f (w_fs w)). Qed.

Lemma cleanup_quiet (args : Args) (L : Layout) : obeys quiet (cleanup args L).
Proof.
  unfold_cleanup.
  repeat obeys_step
    ltac:(idtac;
          lazymatch goal with
          | |- obeys _ (fs_update _) => apply quiet_fs_update
          | |- obeys _ (fs_read _) => apply quiet_fs_read
          end).
Qed.

(** ** The whole run *)

Lemma pipeline_phased (tool : Tool) (env : Env) (args : Args) (L : Layout)
    (reg_dir fc_dir clf : list string) :
  invokes (phased (Schedule.head args L reg_dir fc_dir clf)
             (Schedule.hemisphere_inverse args L)
             (Schedule.tail env args L fc_dir))
    (pipeline tool env args L reg_dir fc_dir clf).
Proof.
  unfold pipeline, Schedule.head, Schedule.tail. cbv zeta.
  fold (Schedule.threads args).
  eapply phased_head; [apply harden_input_within|apply harden_input_value|intros ? ->].
  eapply (phased_head _ _ _ _ (fun x => x = (Expected.reg_output (a_r args) L,
            match a_r args with rig => None | nonrig => Some (Expected.nonrig_subject L) end)));
    [apply register_within| |intros ? ->].
  { intros w [ro ns] [-> ->]%register_value. done. }
  eapply phased_head; [apply cluster_within|apply cluster_value|intros ? ->].
  eapply phased_head; [apply remove_outliers_within|apply remove_outliers_value|intros ? ->].
  eapply phased_head; [apply untransform_within|apply untransform_value|intros ? ->].
  rewrite <- (app_nil_r (Schedule.separation L)).
  eapply (phased_head _ _ _ _ (fun _ => True)); [apply separate_within|done|intros _ _].
  eapply phased_mid; [apply inverse_transform_invokes|apply inverse_transform_value|intros ? ->].
  eapply (within_bind _ _ (fun _ => True)); [apply append_tracts_within|done|intros _ _].
  rewrite <- (app_nil_r (Schedule.measurements args L)).
  eapply (within_bind _ _ (fun _ => True)); [apply measure_within|done|intros _ _].
  apply within_silent. intros w.
  pose proof (cleanup_quiet args L w) as Hq. unfold quiet in Hq. unfold bind.
  by destruct (cleanup args L w) as [[[]| |] w1].
Qed.

(** X10. Whatever the tools do and however the run ends, the commands of
    lines 217-504 come in three phases: some of the commands of
    [Schedule.head], in that order (size-matching transform, registration,
    clustering, outlier removal, hemisphere assessment, un-transform,
    separation); then any number of per-hemisphere inverse transforms, none
    without [-t]; then some of the commands of [Schedule.tail], in that
    order (aggregation, then the four measurements when [-d 1]). *)
Theorem pipeline_runs_stages_in_order (tool : Tool) (env : Env) (args : Args) (L : Layout)
    (reg_dir fc_dir clf : list string) (w : World) :
  ∃ head hemispheres tail,
    w_cmds (pipeline tool env args L reg_dir fc_dir clf w).2
      = w_cmds w ++ head ++ hemispheres ++ tail ∧
    head `sublist_of` Schedule.head args L reg_dir fc_dir clf ∧
    Forall (Schedule.hemisphere_inverse args L) hemispheres ∧
    tail `sublist_of` Schedule.tail env args L fc_dir.
Proof.
  destruct (pipeline_phased tool env args L reg_dir fc_dir clf w)
    as (l & E & h & m & t & -> & Hh & Hm & Ht).
  by exists h, m, t.
Qed.


(** ** Where the run writes *)

Global Instance keeps_unless_tool_sequential tool p : Sequential (keeps_unless_tool tool p).
Proof.
  split.
  - intros w. exists []. by rewrite app_nil_r.
  - intros w w1 w2 o (l1 & E1 & H1) (l2 & E2 & H2). exists (l1 ++ l2). split.
    + by rewrite E2, E1, app_assoc.
    + intros [Hl1 Hl2]%Forall_app. rewrite H2, H1; auto.
Qed.

Section KeepsUnlessTool.

Context (tool : Tool) (p : list string).

Lemma unless_silent {A} (m : M A) :
  obeys (keeps p) m → obeys quiet m → obeys (keeps_unless_tool tool p) m.
Proof.
  intros Hk Hq w. exists []. rewrite app_nil_r. split; [apply Hq|]. intros _. apply Hk.
Qed.

Lemma quiet_same {A} (m : M A) : (∀ w, w_cmds (m w).2 = w_cmds w) → obeys quiet m.
Proof. intros H w. apply H. Qed.

Lemma unless_fail_with {A} msg : obeys (keeps_unless_tool tool p) (@fail_with A msg).
Proof. apply unless_silent; [apply keeps_fail_with|by apply quiet_same]. Qed.

Lemma unless_return {A} c : obeys (keeps_unless_tool tool p) (@py_return A c).
Proof. apply unless_silent; [apply keeps_return|by apply quiet_same]. Qed.

Lemma unless_raise {A} e : obeys (keeps_unless_tool tool p) (@py_raise A e).
Proof. apply unless_silent; [apply keeps_raise|by apply quiet_same]. Qed.

Lemma unless_print_out s : obeys (keeps_unless_tool tool p) (print_out s).
Proof. apply unless_silent; [apply keeps_print_out|by apply quiet_same]. Qed.

Lemma unless_fs_read {A} (f : gmap (list string) node → PyExc + A) :
  obeys (keeps_unless_tool tool p) (fs_read f).
Proof. apply unless_silent; [apply keeps_fs_read|apply quiet_fs_read]. Qed.

Lemma unless_ensure_dir q :
  ¬ p `prefix_of` q → obeys (keeps_unless_tool tool p) (_ensure_dir q).
Proof. intros. apply unless_silent; [by apply keeps_ensure_dir|apply quiet_fs_update]. Qed.

Lemma unless_rmtree q :
  ¬ q `prefix_of` p → obeys (keeps_unless_tool tool p) (fs_update (Fs.rmtree q)).
Proof. intros. apply unless_silent; [by apply keeps_rmtree|apply quiet_fs_update]. Qed.

Lemma unless_unlink q :
  q ≠ p → obeys (keeps_unless_tool tool p) (fs_update (Fs.unlink q)).
Proof. intros. apply unless_silent; [by apply keeps_unlink|apply quiet_fs_update]. Qed.

Lemma unless_run cmd : obeys (keeps_unless_tool tool p) (_run tool cmd).
Proof.
  intros w. exists [cmd]. unfold_py. cbv zeta.
  destruct (Z.eqb _ 0); simpl; (split; [done|]); intros Hk%Forall_inv; apply Hk.
Qed.

End KeepsUnlessTool.

Ltac unless_leaf :=
  idtac;
  lazymatch goal with
  | |- obeys _ (fail_with _) => apply unless_fail_with
  | |- obeys _ (py_return _) => apply unless_return
  | |- obeys _ (py_raise _) => apply unless_raise
  | |- obeys _ (print_out _) => apply unless_print_out
  | |- obeys _ (_ensure_dir _) => apply unless_ensure_dir
  | |- obeys _ (fs_read _) => apply unless_fs_read
  | |- obeys _ (fs_update (Fs.rmtree _)) => apply unless_rmtree
  | |- obeys _ (fs_update (Fs.unlink _)) => apply unless_unlink
  | |- obeys _ (bind (fs_read (Fs.iterdir _)) _) =>
      apply obeys_iterdir; [typeclasses eauto|apply unless_fs_read|intros]
  | |- obeys _ (bind (fun w => (Val (Fs.glob (w_fs w) _ _), w)) _) =>
      apply obeys_glob; [typeclasses eauto|intros]
  | |- obeys _ (bind (fun w => (Val (Fs.rglob_all (w_fs w) _), w)) _) =>
      apply obeys_rglob; [typeclasses eauto|intros]
  | |- obeys _ (_run _ _) => apply unless_run
  | |- obeys _ (_run_with_xvfb _ _ _) => apply unless_run
  end.

Section Confined.

Context (tool : Tool) (env : Env) (args : Args) (p : list string).

Context (Houtside : outside (a_o args) p).

Let L := layout (a_i args) (a_o args).

Ltac solve_confined :=
  unfold L in *;
  repeat match goal with
    | H : ∀ x, x ∈ ?l → _, Hx : ?y ∈ ?l |- _ => specialize (H y Hx)
    end;
  repeat match goal with
    | H : ∃ _, _ |- _ => destruct H
    | H : _ ∧ _ |- _ => destruct H
    end; subst;
  first [ eapply outside_not_above; [exact Houtside|]
        | eapply outside_not_below; [exact Houtside|]
        | eapply outside_neq; [exact Houtside|] ];
  first [ reflexivity | solve_below | etrans; [|eassumption]; solve_below ].

Lemma startup_keeps_outside : obeys (keeps_unless_tool tool p) (startup env args).
Proof.
  unfold startup, _find_atlas_dirs, _pick_cluster_location_file.
  repeat obeys_step unless_leaf.
  all: solve_confined.
Qed.

Lemma pipeline_keeps_outside reg_dir fc_dir clf :
  obeys (keeps_unless_tool tool p) (pipeline tool env args L reg_dir fc_dir clf).
Proof.
  unfold pipeline. unfold_stages. unfold_cleanup.
  repeat obeys_step unless_leaf.
  all: solve_confined.
Qed.

Lemma main_keeps_outside : obeys (keeps_unless_tool tool p) (main tool env args).
Proof.
  unfold main.
  eapply (obeys_bind_with _ (fun x => x.2 = L)); [apply startup_keeps_outside| |].
  - intros w [[[reg_dir fc_dir] clf] L'] E. apply startup_value in E. by destruct E.
  - intros [[[reg_dir fc_dir] clf] L'] E. simpl in E. subst L'.
    apply pipeline_keeps_outside.
Qed.

End Confined.

(** Every command of a run is one of the schedule, for the atlas
    directories and the hemisphere-location file the run resolved. *)
Lemma main_scheduled (tool : Tool) (env : Env) (args : Args) (w : World) :
  ∃ invoked,
    w_cmds (main tool env args w).2 = w_cmds w ++ invoked ∧
    Forall (fun cmd => ∃ reg_dir fc_dir clf,
              resolved env args w reg_dir fc_dir clf ∧
              Schedule.scheduled env args (layout (a_i args) (a_o args)) reg_dir fc_dir clf cmd)
      invoked.
Proof.
  destruct (startup_prints env args w) as [Ec _]. cbn zeta in Ec.
  unfold main, bind, resolved.
  destruct (startup env args w) as [[[[[reg_dir fc_dir] clf] L]| |] w1] eqn:E; simpl in *.
  2,3: exists []; by rewrite app_nil_r.
  assert ((startup env args w).1 = Val (reg_dir, fc_dir, clf, L)) as Hv by (by rewrite E).
  apply startup_value in Hv as [-> _].
  destruct (pipeline_phased tool env args (layout (a_i args) (a_o args)) reg_dir fc_dir clf w1)
    as (l & El & h & m & t & -> & Hh & Hm & Ht).
  eexists. split; [by rewrite El, Ec|].
  rewrite !Forall_app. repeat split.
  - apply Forall_forall. intros cmd Hin. exists reg_dir, fc_dir, clf. split; [done|].
    left. eapply sublist_subseteq; [exact Hh|]. done.
  - eapply Forall_impl; [exact Hm|]. intros cmd Hc. exists reg_dir, fc_dir, clf.
    split; [done|]. right. by left.
  - apply Forall_forall. intros cmd Hin. exists reg_dir, fc_dir, clf. split; [done|].
    right. right. eapply sublist_subseteq; [exact Ht|]. done.
Qed.



(** ** Further concrete runs *)

(** A clustering tool that exits with status 3 *)
Lemma main_tool_failure_is_last_command_witness :
  let tool := Sim.run (Sim.mkRule ["wm_cluster_from_atlas.py"] [] [] 3 :: Sim.good_rules) in
  let cmd := [ "wm_cluster_from_atlas.py"; "-j"; "4";
               "/out/subjectA/TractRegistration/subjectA/output_tractography/subjectA_reg.vtk";
               "/atlas/ORG-800FC-100HCP"; "/out/subjectA/FiberClustering/InitialClusters";
               "-norender" ] in
  3 ≠ 0 ∧
  ∃ before, w_cmds (main tool Sim.env0 Sim.args0 Sim.w0).2 = w_cmds Sim.w0 ++ before ++ [cmd].
Proof.
  cbv zeta. apply main_tool_failure_is_last_command. vm_compute. reflexivity.
Defined.

(** The tier-1 cleanup after a run of [subjectA] removes the initial clusters. *)
Lemma cleanup_removes_intermediate_clusters_witness :
  let w := Runs.after (main (Sim.run Sim.good_rules) Sim.env0 Sim.args0 Sim.w0) in
  w_fs (cleanup (with_cleanup Sim.args0 1) Runs.L0 w).2
    !! (initial_clusters_dir Runs.L0 ++ ["subjectA_reg"; "cluster_00800.vtp"])
  = None.
Proof.
  cbv zeta.
  set (w := Runs.after (main (Sim.run Sim.good_rules) Sim.env0 Sim.args0 Sim.w0)).
  apply (cleanup_removes_intermediate_clusters (with_cleanup Sim.args0 1) Runs.L0 w
           (cleanup (with_cleanup Sim.args0 1) Runs.L0 w).2).
  - apply (bool_decide_unpack (Fs.wf (w_fs w))). vm_compute. exact I.
  - simpl. lia.
  - apply completed. vm_compute. reflexivity.
  - left. by eexists.
Defined.

(** On a fresh tree, with tools that produce every output, the run of
    [subjectA] with every option on invokes the whole schedule: the
    head, one inverse transform per hemisphere folder in sorted order, and
    the tail. *)
Example full_schedule_on_fresh_tree :
  let reg_dir := ["atlas"; "ORG-RegAtlas-100HCP"] in
  let fc_dir := ["atlas"; "ORG-800FC-100HCP"] in
  let clf := fc_dir // "cluster_hemisphere_location.txt" in
  let hemisphere name :=
    xvfb_wrap Runs.args_full
      (inverse_harden_cmd ["data"; "size.tfm"] (separated_clusters_dir Runs.L0 // name)
         (inverse_transformed_dir Runs.L0 // name) (a_s Runs.args_full)) in
  w_cmds (main (Sim.run Sim.full_rules) Sim.env0 Runs.args_full Sim.w0).2
  = Schedule.head Runs.args_full Runs.L0 reg_dir fc_dir clf
    ++ [ hemisphere "tracts_commissural"; hemisphere "tracts_left_hemisphere";
         hemisphere "tracts_right_hemisphere" ]
    ++ Schedule.tail Sim.env0 Runs.args_full Runs.L0 fc_dir.
Proof. vm_compute. reflexivity. Qed.

